(** * momentum: agent supervisor and headless dashboard

    A shallow embedding of the scroll, focus, stop/close and output-routing
    logic of the dashboard (package [ui]), of the agent pane's text
    truncation (package [tui]) and of the subprocess wrapper's [Wait] and
    [Cancel] (package [agent]), with the properties the specification states
    about them. *)

From Stdlib Require Import ZArith Lia Bool Ascii String List DecimalString.
From Stdlib Require Import DecimalPos DecimalZ.
From stdpp Require Import base option list strings.

Local Open Scope Z_scope.

(** ** Go's [int]

    All targets the project is built for have a 64-bit [int]. Values are
    carried as [Z]; every arithmetic operation of the source goes through
    [wrap], which is the two's-complement wrap-around of the machine. *)

Module GoInt.

Definition min_int : Z := - 2 ^ 63.
Definition max_int : Z := 2 ^ 63 - 1.

Definition in_range (z : Z) : Prop := min_int <= z <= max_int.

Definition wrap (z : Z) : Z := (z + 2 ^ 63) mod 2 ^ 64 - 2 ^ 63.

Definition add (a b : Z) : Z := wrap (a + b).
Definition sub (a b : Z) : Z := wrap (a - b).
Definition mul (a b : Z) : Z := wrap (a * b).

(** [len] of a slice or of a string: a non-negative [int]. *)
Definition len {A} (l : list A) : Z := Z.of_nat (length l).

End GoInt.

(** ** Package [ui]: scrolling *)

Module Scroll.
Import GoInt.

(** [clampScroll(totalLines, viewHeight, current int, follow bool) int] *)
Definition clampScroll (totalLines viewHeight current : Z) (follow : bool) : Z :=
  if viewHeight <=? 0 then 0
  else
    let maxStart := sub totalLines viewHeight in
    let maxStart := if maxStart <? 0 then 0 else maxStart in
    if follow then maxStart
    else if current <? 0 then 0
    else if maxStart <? current then maxStart
    else current.

(** The clamp of [P] into the interval [[0, hi]] (for [0 <= hi]). *)
Definition clamp_into (hi P : Z) : Z := Z.max 0 (Z.min P hi).

End Scroll.

(** ** Go's [error]

    An [error] value is [nil] ([None] at the use sites) or one of: a value
    made by [errors.New] (any error known by its message only), a value made
    by [fmt.Errorf] with [%w], an [*exec.ExitError], or one of the two
    sentinel variables of package [agent] (declared in a file this
    development does not cover; only their identity is used). *)

Module GoError.

Inductive error :=
| errors_New (msg : string)
| Errorf_w (msg : string) (cause : error)
| exec_ExitError (exitCode : Z)
| ErrAgentAlreadyRunning
| ErrAgentNotStarted.

End GoError.

(** ** Package [agent]: the data the dashboard receives

    The runner itself is not covered here: a [*Runner] is kept as an opaque
    handle (the pointer's identity), and what its methods answer is supplied
    by the environment where the dashboard calls them. *)

Module agent.

(** [type OutputLine struct { Text string; IsStderr bool; Timestamp time.Time }] *)
Record OutputLine := {
  Text : string;
  IsStderr : bool;
  Timestamp : Z
}.

(** [type Result struct { ExitCode int; Duration time.Duration; Error error }] *)
Record Result := {
  ExitCode : Z;
  Duration : Z;
  Error : option GoError.error
}.

(** The identity of a [*Runner]; a nil pointer is [None] at the use sites. *)
Definition Runner := nat.

(** *** [ClaudeCode]: the subprocess behind an agent *)

Import GoError.

(** [type Config struct]: the fields [ClaudeCode] reads. [Env] is listed in
    the order the [range] over the map visits it. *)
Record Config := {
  WorkDir : string;
  Env : list (string * string);
  Timeout : Z
}.

(** An [*exec.Cmd]: arguments, directory, environment ([nil] inherits the
    parent's), and the [*os.Process] (its pid) once started. *)
Record Cmd := {
  Args : list string;
  Dir : string;
  CmdEnv : option (list string);
  Process : option Z
}.

(** [type ClaudeCode struct]. The context is kept as the timeout it was
    made with ([None] for [context.WithCancel]); the pipes by whether they
    are set. The mutex [mu] only serialises the accesses to [running]. *)
Record ClaudeCode := {
  config : Config;
  cmd : option Cmd;
  stdout : bool;
  stderr : bool;
  ctx : option (option Z);
  running : bool;
  startTime : Z
}.

(** [func NewClaudeCode(config Config) *ClaudeCode] *)
Definition NewClaudeCode (config : Config) : ClaudeCode :=
  {| config := config; cmd := None; stdout := false; stderr := false;
     ctx := None; running := false; startTime := 0 |}.

(** What an agent does to the outside world, in the order it does it. *)
Inductive Effect :=
| CmdWait                        (* c.cmd.Wait() *)
| StoreRunning (b : bool)        (* c.running = b *)
| SignalInterrupt (pid : Z)      (* c.cmd.Process.Signal(os.Interrupt) *)
| ProcessKill (pid : Z)          (* c.cmd.Process.Kill() *)
| AwaitExit (seconds : Z)        (* select on done / time.After *)
| TaskkillTree (pid : Z).        (* taskkill /T /F /PID pid *)

(** What the operating system answers to [Start]. *)
Record StartEnv := {
  os_Environ : list string;
  StdoutPipe_err : option error;
  StderrPipe_err : option error;
  Start_result : error + Z;       (* the error, or the pid of the child *)
  start_now : Z
}.

(** [func (c *ClaudeCode) Start(ctx context.Context, prompt string) error] *)
Definition Start (env : StartEnv) (prompt : string) (c : ClaudeCode)
  : ClaudeCode * option error :=
  if running c then (c, Some ErrAgentAlreadyRunning)
  else
    let deadline := if 0 <? Timeout (config c) then Some (Timeout (config c))
                    else None in
    let dir := if negb (String.eqb (WorkDir (config c)) "")
               then WorkDir (config c) else EmptyString in
    let cenv :=
      if (0 <? Z.of_nat (length (Env (config c))))
      then Some (os_Environ env ++
                 List.map (fun kv => (kv.1 ++ "=" ++ kv.2)%string) (Env (config c)))
      else None in
    let command :=
      {| Args := ["claude"; "--print"; "--dangerously-skip-permissions"; prompt]%string;
         Dir := dir; CmdEnv := cenv; Process := None |} in
    let c := {| config := config c; cmd := Some command; stdout := stdout c;
                stderr := stderr c; ctx := Some deadline; running := running c;
                startTime := startTime c |} in
    match StdoutPipe_err env with
    | Some err =>
        ({| config := config c; cmd := cmd c; stdout := false;
            stderr := stderr c; ctx := ctx c; running := running c;
            startTime := startTime c |},
         Some (Errorf_w "failed to create stdout pipe" err))
    | None =>
        let c := {| config := config c; cmd := cmd c; stdout := true;
                    stderr := stderr c; ctx := ctx c; running := running c;
                    startTime := startTime c |} in
        match StderrPipe_err env with
        | Some err =>
            ({| config := config c; cmd := cmd c; stdout := stdout c;
                stderr := false; ctx := ctx c; running := running c;
                startTime := startTime c |},
             Some (Errorf_w "failed to create stderr pipe" err))
        | None =>
            let c := {| config := config c; cmd := cmd c; stdout := stdout c;
                        stderr := true; ctx := ctx c; running := running c;
                        startTime := startTime c |} in
            match Start_result env with
            | inl err => (c, Some (Errorf_w "failed to start claude" err))
            | inr pid =>
                ({| config := config c;
                    cmd := Some {| Args := Args command; Dir := Dir command;
                                   CmdEnv := CmdEnv command;
                                   Process := Some pid |};
                    stdout := stdout c; stderr := stderr c; ctx := ctx c;
                    running := true; startTime := start_now env |}, None)
            end
        end
    end.

(** [func (c *ClaudeCode) Wait() (int, error)]. [wait_err] is what
    [c.cmd.Wait()] returns once the call comes back. The result is the new
    state, the effects, and the pair the method returns. *)
Definition Wait (wait_err : option error) (c : ClaudeCode)
  : ClaudeCode * list Effect * (Z * option error) :=
  match cmd c with
  | None => (c, [], (-1, Some ErrAgentNotStarted))
  | Some _ =>
      let c := {| config := config c; cmd := cmd c; stdout := stdout c;
                  stderr := stderr c; ctx := ctx c; running := false;
                  startTime := startTime c |} in
      (c, [CmdWait; StoreRunning false],
       match wait_err with
       | Some (exec_ExitError exitCode) => (exitCode, None)
       | Some err => (-1, Some err)
       | None => (0, None)
       end)
  end.

(** What the operating system answers during [Cancel]: the result of the
    signal, whether the process is gone within the given number of seconds,
    and the result of the kill. *)
Record CancelEnv := {
  Signal_err : option error;
  exits_within : Z -> bool;
  Kill_err : option error
}.

(** [func (c *ClaudeCode) Cancel() error]: the effects and the error
    returned ([Cancel] writes to no field of [c]). *)
Definition Cancel (env : CancelEnv) (c : ClaudeCode)
  : list Effect * option error :=
  if negb (running c) then ([], None)
  else
    match cmd c with
    | None => ([], None)
    | Some command =>
        match Process command with
        | None => ([], None)
        | Some pid =>
            match Signal_err env with
            | Some _ => ([SignalInterrupt pid; ProcessKill pid], Kill_err env)
            | None =>
                if exits_within env 5
                then ([SignalInterrupt pid; AwaitExit 5], None)
                else ([SignalInterrupt pid; AwaitExit 5; ProcessKill pid],
                      Kill_err env)
            end
        end
    end.

(** A running agent has a command with a process. *)
Definition has_process (c : ClaudeCode) : Prop :=
  exists command pid, cmd c = Some command /\ Process command = Some pid.

Definition agent_ok (c : ClaudeCode) : Prop :=
  running c = true -> has_process c.

(** [func (c *ClaudeCode) IsRunning() bool] *)
Definition ClaudeCode_IsRunning (c : ClaudeCode) : bool := running c.

(** [func killProcessTree(pid int, process *os.Process, force bool) error]
    of [claude_windows.go]: [taskkill] on the tree, and a kill of the
    process itself when that fails. *)
Definition killProcessTree (taskkill_err Kill_err : option error) (pid : Z)
  (force : bool) : list Effect * option error :=
  match taskkill_err with
  | Some _ => ([TaskkillTree pid; ProcessKill pid], Kill_err)
  | None => ([TaskkillTree pid], None)
  end.

(** How often a trace stores [b] into [c.running]. *)
Definition running_stores (b : bool) (t : list Effect) : nat :=
  length (List.filter (fun e => match e with
                                | StoreRunning b' => Bool.eqb b b'
                                | _ => false
                                end) t).

(** The effects that reach the descendants of a process. *)
Definition kills_tree (e : Effect) : bool :=
  match e with
  | TaskkillTree _ => true
  | _ => false
  end.

End agent.

(** ** Buffered channels

    A channel made by [make(chan T, n)]: the queued values, oldest first, and
    the capacity. *)

Module Chan.

Record chan (A : Type) := Make { buf : list A; cap : nat }.
Arguments Make {A} _ _.
Arguments buf {A} _.
Arguments cap {A} _.

Definition make (A : Type) (n : nat) : chan A := Make [] n.

Definition full {A} (c : chan A) : bool := (cap c <=? length (buf c))%nat.

(** [select { case c <- x: ...; default: ... }]: the send is taken exactly
    when the buffer has room; [None] is the default branch. *)
Definition try_send {A} (c : chan A) (x : A) : option (chan A) :=
  if full c then None else Some (Make (buf c ++ [x]) (cap c)).

(** [x := <-c] on a channel that has a value ready. *)
Definition recv {A} (c : chan A) : option (A * chan A) :=
  match buf c with
  | [] => None
  | x :: rest => Some (x, Make rest (cap c))
  end.

End Chan.

(** ** Keys

    A key press as the keyboard library reports it: a code and, for a
    [RuneKey], the runes typed (code points). [OtherCode] stands for every
    code the dashboard has no case for. *)

Module keys.

Inductive KeyCode :=
| CtrlC | Escape | Tab | Down | ShiftTab | Up | PgUp | PgDown | Home | End_
| RuneKey
| OtherCode.

Record Key := { Code : KeyCode; Runes : list Z }.

End keys.

(** ** Package [ui]: the dashboard *)

Module ui.
Import GoInt Scroll.

Definition error := GoError.error.

(** [type AgentPanel struct]. The dashboard holds [[]*AgentPanel]; every
    pointer in that slice comes from a fresh [&AgentPanel{...}] in
    [addAgentPanel] and is stored nowhere else, so the slice is a list of
    panel values and a write through [d.panels[i]] is an update at [i]. *)
Record AgentPanel := {
  ID : string;
  TaskID : string;
  TaskTitle : string;
  AgentName : string;
  Runner : option agent.Runner;
  Output : list agent.OutputLine;
  StartTime : Z;
  EndTime : Z;
  Result : option agent.Result;
  ScrollPos : Z;
  Follow : bool;
  Focused : bool;
  Closed : bool;
  Stopping : bool;
  PID : Z
}.

Definition set_Output (out : list agent.OutputLine) (p : AgentPanel) : AgentPanel :=
  Build_AgentPanel (ID p) (TaskID p) (TaskTitle p) (AgentName p) (Runner p) out
    (StartTime p) (EndTime p) (Result p) (ScrollPos p) (Follow p) (Focused p)
    (Closed p) (Stopping p) (PID p).

Definition set_ScrollPos (pos : Z) (p : AgentPanel) : AgentPanel :=
  Build_AgentPanel (ID p) (TaskID p) (TaskTitle p) (AgentName p) (Runner p)
    (Output p) (StartTime p) (EndTime p) (Result p) pos (Follow p) (Focused p)
    (Closed p) (Stopping p) (PID p).

Definition set_Follow (follow : bool) (p : AgentPanel) : AgentPanel :=
  Build_AgentPanel (ID p) (TaskID p) (TaskTitle p) (AgentName p) (Runner p)
    (Output p) (StartTime p) (EndTime p) (Result p) (ScrollPos p) follow
    (Focused p) (Closed p) (Stopping p) (PID p).

Definition set_Stopping (stopping : bool) (p : AgentPanel) : AgentPanel :=
  Build_AgentPanel (ID p) (TaskID p) (TaskTitle p) (AgentName p) (Runner p)
    (Output p) (StartTime p) (EndTime p) (Result p) (ScrollPos p) (Follow p)
    (Focused p) (Closed p) stopping (PID p).

(** [panel.Result = &result; panel.EndTime = time.Now(); panel.Runner = nil] *)
Definition set_completed (result : agent.Result) (now : Z) (p : AgentPanel)
  : AgentPanel :=
  Build_AgentPanel (ID p) (TaskID p) (TaskTitle p) (AgentName p) None
    (Output p) (StartTime p) now (Some result) (ScrollPos p) (Follow p)
    (Focused p) (Closed p) (Stopping p) (PID p).

(** [func (p *AgentPanel) IsRunning() bool]; [running] is what
    [Runner.IsRunning] answers at the time of the call. *)
Definition IsRunning (running : agent.Runner -> bool) (p : AgentPanel) : bool :=
  match Runner p with
  | None => false
  | Some r => running r
  end.

(** [func (p *AgentPanel) IsFinished() bool] *)
Definition IsFinished (p : AgentPanel) : bool :=
  match Result p with Some _ => true | None => false end.

(** Domain events ([type Event interface{}]); [OtherEvent] stands for a
    value of any type the type switch of [handleEvent] has no case for. *)
Inductive Event :=
| ListenerConnected
| ListenerError (Err : option error)
| AddAgent (taskID taskTitle agentName : string) (runner : option agent.Runner)
| AgentOutput (taskID : string) (Line : agent.OutputLine)
| AgentCompleted (taskID : string) (result : agent.Result)
| versionCheck (latestVersion : string) (updateAvailable : bool)
| OtherEvent.

Inductive inputAction :=
| actionNone
| actionQuit
| actionToggleMode
| actionSelectNext
| actionSelectPrev
| actionStop
| actionClose
| actionScrollLines
| actionScrollPage
| actionScrollTop
| actionScrollBottom
| actionFollow.

Record inputEvent := { action : inputAction; value : Z }.

(** A call the dashboard makes on a collaborator: [Runner.Cancel()] on the
    runner of the panel at position [panel] of [d.panels] (the position is
    recorded to attribute the call to its panel). *)
Inductive Call :=
| RunnerCancel (panel : nat) (r : agent.Runner).

Definition calls_for (i : nat) (t : list Call) : nat :=
  length (List.filter (fun c => match c with RunnerCancel j _ => Nat.eqb i j end) t).

(** What one turn of the dashboard observes of the outside world. *)
Record Env := {
  now : Z;                              (* time.Now() *)
  runnerPID : agent.Runner -> Z;        (* Runner.PID() *)
  runnerIsRunning : agent.Runner -> bool; (* Runner.IsRunning() *)
  termWidth : Z;                        (* pterm.GetTerminalWidth() *)
  termHeight : Z                        (* pterm.GetTerminalHeight() *)
}.

(** [fmt.Sprintf("%d", n)] *)
Definition fmt_d (n : Z) : string :=
  DecimalString.NilZero.string_of_int (Z.to_int n).

(** [truncate(s string, maxLen int) string]; a Go string is its bytes, one
    [ascii] each, and [s[:n]] is [substring 0 n s]. *)
Definition truncate (s : string) (maxLen : Z) : string :=
  if maxLen <=? 0 then EmptyString
  else if Z.of_nat (String.length s) <=? maxLen then s
  else if maxLen <=? 3 then substring 0 (Z.to_nat maxLen) s
  else (substring 0 (Z.to_nat (sub maxLen 3)) s ++ "...")%string.

(** [func mapKeyToInputEvent(key keys.Key) (inputEvent, bool)] *)
Definition mapKeyToInputEvent (key : keys.Key) : inputEvent * bool :=
  let ev a v := ({| action := a; value := v |}, true) in
  let none := ({| action := actionNone; value := 0 |}, false) in
  match keys.Code key with
  | keys.CtrlC | keys.Escape => ev actionQuit 0
  | keys.Tab | keys.Down => ev actionSelectNext 0
  | keys.ShiftTab | keys.Up => ev actionSelectPrev 0
  | keys.PgUp => ev actionScrollPage (-1)
  | keys.PgDown => ev actionScrollPage 1
  | keys.Home => ev actionScrollTop 0
  | keys.End_ => ev actionScrollBottom 0
  | keys.RuneKey =>
      match keys.Runes key with
      | [] => none
      | r :: _ =>
          if r =? 113 then ev actionQuit 0                 (* 'q' *)
          else if r =? 109 then ev actionToggleMode 0      (* 'm' *)
          else if r =? 106 then ev actionSelectNext 0      (* 'j' *)
          else if r =? 107 then ev actionSelectPrev 0      (* 'k' *)
          else if r =? 115 then ev actionStop 0            (* 's' *)
          else if (r =? 120) || (r =? 99) then ev actionClose 0  (* 'x', 'c' *)
          else if r =? 102 then ev actionFollow 0          (* 'f' *)
          else if r =? 103 then ev actionScrollTop 0       (* 'g' *)
          else if r =? 71 then ev actionScrollBottom 0     (* 'G' *)
          else if r =? 117 then ev actionScrollLines (-3)  (* 'u' *)
          else if r =? 100 then ev actionScrollLines 3     (* 'd' *)
          else none
      end
  | keys.OtherCode => none
  end.

Section Dashboard.

(** [ExecutionMode] with its [Toggle] method, and [parseClaudeOutput], are
    declared in files of package [ui] that this development does not cover;
    everything below is parametric in them. *)
Context {ExecutionMode : Type}.
Variable Toggle : ExecutionMode -> ExecutionMode.
Variable parseClaudeOutput : string -> string.

(** [type Dashboard struct]. [area] is the terminal area the frames go to
    ([nil] until [Run] has started it). *)
Record Dashboard := {
  criteria : string;
  mode : ExecutionMode;
  modeUpdates : option (Chan.chan ExecutionMode);
  stopUpdates : option (Chan.chan string);
  events : Chan.chan Event;
  inputs : Chan.chan inputEvent;
  listening : bool;
  connected : bool;
  lastError : option error;
  taskCount : Z;
  panels : list AgentPanel;
  focusedPanel : Z;
  nextPanelID : Z;
  progressTick : Z;
  updateAvailable : bool;
  latestVersion : string;
  width : Z;
  height : Z;
  area : option unit
}.

Definition set_mode (m : ExecutionMode) (mu : option (Chan.chan ExecutionMode))
  (d : Dashboard) : Dashboard :=
  Build_Dashboard (criteria d) m mu (stopUpdates d) (events d) (inputs d)
    (listening d) (connected d) (lastError d) (taskCount d) (panels d)
    (focusedPanel d) (nextPanelID d) (progressTick d) (updateAvailable d)
    (latestVersion d) (width d) (height d) (area d).

Definition set_stopUpdates (su : option (Chan.chan string)) (d : Dashboard)
  : Dashboard :=
  Build_Dashboard (criteria d) (mode d) (modeUpdates d) su (events d) (inputs d)
    (listening d) (connected d) (lastError d) (taskCount d) (panels d)
    (focusedPanel d) (nextPanelID d) (progressTick d) (updateAvailable d)
    (latestVersion d) (width d) (height d) (area d).

Definition set_events (ev : Chan.chan Event) (d : Dashboard) : Dashboard :=
  Build_Dashboard (criteria d) (mode d) (modeUpdates d) (stopUpdates d) ev
    (inputs d) (listening d) (connected d) (lastError d) (taskCount d)
    (panels d) (focusedPanel d) (nextPanelID d) (progressTick d)
    (updateAvailable d) (latestVersion d) (width d) (height d) (area d).

Definition set_inputs (inp : Chan.chan inputEvent) (d : Dashboard) : Dashboard :=
  Build_Dashboard (criteria d) (mode d) (modeUpdates d) (stopUpdates d)
    (events d) inp (listening d) (connected d) (lastError d) (taskCount d)
    (panels d) (focusedPanel d) (nextPanelID d) (progressTick d)
    (updateAvailable d) (latestVersion d) (width d) (height d) (area d).

(** The three connection fields: [listening], [connected], [lastError]. *)
Definition set_link (li co : bool) (le : option error) (d : Dashboard)
  : Dashboard :=
  Build_Dashboard (criteria d) (mode d) (modeUpdates d) (stopUpdates d)
    (events d) (inputs d) li co le (taskCount d) (panels d) (focusedPanel d)
    (nextPanelID d) (progressTick d) (updateAvailable d) (latestVersion d)
    (width d) (height d) (area d).

Definition set_taskCount (n : Z) (d : Dashboard) : Dashboard :=
  Build_Dashboard (criteria d) (mode d) (modeUpdates d) (stopUpdates d)
    (events d) (inputs d) (listening d) (connected d) (lastError d) n
    (panels d) (focusedPanel d) (nextPanelID d) (progressTick d)
    (updateAvailable d) (latestVersion d) (width d) (height d) (area d).

Definition set_panels (ps : list AgentPanel) (d : Dashboard) : Dashboard :=
  Build_Dashboard (criteria d) (mode d) (modeUpdates d) (stopUpdates d)
    (events d) (inputs d) (listening d) (connected d) (lastError d)
    (taskCount d) ps (focusedPanel d) (nextPanelID d) (progressTick d)
    (updateAvailable d) (latestVersion d) (width d) (height d) (area d).

Definition set_focusedPanel (f : Z) (d : Dashboard) : Dashboard :=
  Build_Dashboard (criteria d) (mode d) (modeUpdates d) (stopUpdates d)
    (events d) (inputs d) (listening d) (connected d) (lastError d)
    (taskCount d) (panels d) f (nextPanelID d) (progressTick d)
    (updateAvailable d) (latestVersion d) (width d) (height d) (area d).

Definition set_nextPanelID (n : Z) (d : Dashboard) : Dashboard :=
  Build_Dashboard (criteria d) (mode d) (modeUpdates d) (stopUpdates d)
    (events d) (inputs d) (listening d) (connected d) (lastError d)
    (taskCount d) (panels d) (focusedPanel d) n (progressTick d)
    (updateAvailable d) (latestVersion d) (width d) (height d) (area d).

Definition set_progressTick (n : Z) (d : Dashboard) : Dashboard :=
  Build_Dashboard (criteria d) (mode d) (modeUpdates d) (stopUpdates d)
    (events d) (inputs d) (listening d) (connected d) (lastError d)
    (taskCount d) (panels d) (focusedPanel d) (nextPanelID d) n
    (updateAvailable d) (latestVersion d) (width d) (height d) (area d).

Definition set_update (available : bool) (latest : string) (d : Dashboard)
  : Dashboard :=
  Build_Dashboard (criteria d) (mode d) (modeUpdates d) (stopUpdates d)
    (events d) (inputs d) (listening d) (connected d) (lastError d)
    (taskCount d) (panels d) (focusedPanel d) (nextPanelID d) (progressTick d)
    available latest (width d) (height d) (area d).

Definition set_size (w h : Z) (d : Dashboard) : Dashboard :=
  Build_Dashboard (criteria d) (mode d) (modeUpdates d) (stopUpdates d)
    (events d) (inputs d) (listening d) (connected d) (lastError d)
    (taskCount d) (panels d) (focusedPanel d) (nextPanelID d) (progressTick d)
    (updateAvailable d) (latestVersion d) w h (area d).

Definition set_area (a : option unit) (d : Dashboard) : Dashboard :=
  Build_Dashboard (criteria d) (mode d) (modeUpdates d) (stopUpdates d)
    (events d) (inputs d) (listening d) (connected d) (lastError d)
    (taskCount d) (panels d) (focusedPanel d) (nextPanelID d) (progressTick d)
    (updateAvailable d) (latestVersion d) (width d) (height d) a.

(** [func NewDashboard(criteria, mode, modeUpdates, stopUpdates) *Dashboard] *)
Definition NewDashboard (criteria : string) (mode : ExecutionMode)
  (modeUpdates : option (Chan.chan ExecutionMode))
  (stopUpdates : option (Chan.chan string)) : Dashboard :=
  {| criteria := criteria; mode := mode;
     modeUpdates := modeUpdates; stopUpdates := stopUpdates;
     events := Chan.make Event 200; inputs := Chan.make inputEvent 50;
     listening := false; connected := false; lastError := None;
     taskCount := 0; panels := []; focusedPanel := -1;
     nextPanelID := 0; progressTick := 0;
     updateAvailable := false; latestVersion := EmptyString;
     width := 0; height := 0; area := None |}.

(** The guard every panel operation starts with:
    [d.focusedPanel < 0 || d.focusedPanel >= len(d.panels)]. *)
Definition out_of_range (index : Z) (d : Dashboard) : bool :=
  (index <? 0) || (len (panels d) <=? index).

(** A write to fields of [d.panels[index]]; nothing happens for an index
    outside the slice, which the callers have excluded before. *)
Definition update_panel (index : Z) (f : AgentPanel -> AgentPanel)
  (d : Dashboard) : Dashboard :=
  set_panels (alter f (Z.to_nat index) (panels d)) d.

(** [func (d *Dashboard) outputViewHeight() int] *)
Definition outputViewHeight (d : Dashboard) : Z :=
  if height d <=? 0 then 8
  else
    let view := Z.quot (height d) 3 in
    let view := if view <? 8 then 8 else view in
    let view := if 18 <? view then 18 else view in
    view.

(** [panel.Follow = follow;
     panel.ScrollPos = clampScroll(len(panel.Output), viewHeight, current, follow)],
    where [current] is computed from the panel. *)
Definition rescroll (viewHeight : Z) (follow : bool) (current : AgentPanel -> Z)
  (panel : AgentPanel) : AgentPanel :=
  set_ScrollPos
    (clampScroll (len (Output panel)) viewHeight (current panel) follow)
    (set_Follow follow panel).

(** [func (d *Dashboard) ensureFollow(index int)] *)
Definition ensureFollow (index : Z) (d : Dashboard) : Dashboard :=
  if out_of_range index d then d
  else update_panel index (rescroll (outputViewHeight d) true ScrollPos) d.

(** [func (d *Dashboard) scrollOutput(delta int)] *)
Definition scrollOutput (delta : Z) (d : Dashboard) : Dashboard :=
  if out_of_range (focusedPanel d) d then d
  else update_panel (focusedPanel d)
         (rescroll (outputViewHeight d) false (fun p => add (ScrollPos p) delta)) d.

(** [func (d *Dashboard) scrollToTop()] *)
Definition scrollToTop (d : Dashboard) : Dashboard :=
  if out_of_range (focusedPanel d) d then d
  else update_panel (focusedPanel d)
         (fun panel => set_ScrollPos 0 (set_Follow false panel)) d.

(** [func (d *Dashboard) scrollToBottom()] *)
Definition scrollToBottom (d : Dashboard) : Dashboard :=
  if out_of_range (focusedPanel d) d then d
  else update_panel (focusedPanel d)
         (rescroll (outputViewHeight d) true ScrollPos) d.

(** [func (d *Dashboard) setFollow(follow bool)] *)
Definition setFollow (follow : bool) (d : Dashboard) : Dashboard :=
  if out_of_range (focusedPanel d) d then d
  else update_panel (focusedPanel d)
         (rescroll (outputViewHeight d) follow ScrollPos) d.

(** A best-effort notification:
    [if ch != nil { select { case ch <- x: default: } }]. *)
Definition notify {A} (ch : option (Chan.chan A)) (x : A) : option (Chan.chan A) :=
  match ch with
  | None => None
  | Some c =>
      match Chan.try_send c x with
      | Some c' => Some c'
      | None => Some c
      end
  end.

(** [func (d *Dashboard) stopFocusedPanel()], with the [Runner.Cancel]
    calls it makes. *)
Definition stopFocusedPanel (running : agent.Runner -> bool) (d : Dashboard)
  : Dashboard * list Call :=
  if out_of_range (focusedPanel d) d then (d, [])
  else
    let i := Z.to_nat (focusedPanel d) in
    match panels d !! i with
    | None => (d, [])
    | Some panel =>
        match Runner panel with
        | Some r =>
            if IsRunning running panel && negb (Stopping panel) then
              let d := update_panel (focusedPanel d) (set_Stopping true) d in
              (set_stopUpdates (notify (stopUpdates d) (TaskID panel)) d,
               [RunnerCancel i r])
            else (d, [])
        | None => (d, [])
        end
    end.

(** [func (d *Dashboard) closeFocusedPanel()] *)
Definition closeFocusedPanel (d : Dashboard) : Dashboard :=
  if out_of_range (focusedPanel d) d then d
  else
    let d := set_panels
               (take (Z.to_nat (focusedPanel d)) (panels d) ++
                drop (Z.to_nat (add (focusedPanel d) 1)) (panels d)) d in
    if len (panels d) =? 0 then set_focusedPanel (-1) d
    else if len (panels d) <=? focusedPanel d
         then set_focusedPanel (sub (len (panels d)) 1) d
         else d.

(** [func (d *Dashboard) handleInput(input inputEvent) bool]: the new
    state, the calls made, and whether the loop is to end. *)
Definition handleInput (env : Env) (input : inputEvent) (d : Dashboard)
  : Dashboard * list Call * bool :=
  match action input with
  | actionQuit => (d, [], true)
  | actionToggleMode =>
      let m := Toggle (mode d) in
      (set_mode m (notify (modeUpdates d) m) d, [], false)
  | actionSelectNext =>
      if len (panels d) =? 0 then (d, [], false)
      else
        let d := if focusedPanel d <? sub (len (panels d)) 1
                 then set_focusedPanel (add (focusedPanel d) 1) d
                 else set_focusedPanel 0 d in
        (ensureFollow (focusedPanel d) d, [], false)
  | actionSelectPrev =>
      if len (panels d) =? 0 then (d, [], false)
      else
        let d := if 0 <? focusedPanel d
                 then set_focusedPanel (sub (focusedPanel d) 1) d
                 else set_focusedPanel (sub (len (panels d)) 1) d in
        (ensureFollow (focusedPanel d) d, [], false)
  | actionStop =>
      let '(d, t) := stopFocusedPanel (runnerIsRunning env) d in (d, t, false)
  | actionClose => (closeFocusedPanel d, [], false)
  | actionScrollLines => (scrollOutput (value input) d, [], false)
  | actionScrollPage =>
      (scrollOutput (mul (value input) (outputViewHeight d)) d, [], false)
  | actionScrollTop => (scrollToTop d, [], false)
  | actionScrollBottom => (scrollToBottom d, [], false)
  | actionFollow => (setFollow true d, [], false)
  | actionNone => (d, [], false)
  end.

(** [func (d *Dashboard) addAgentPanel(taskID, taskTitle, agentName string,
    runner *agent.Runner)] *)
Definition addAgentPanel (env : Env) (taskID taskTitle agentName : string)
  (runner : option agent.Runner) (d : Dashboard) : Dashboard :=
  let d := set_nextPanelID (add (nextPanelID d) 1) d in
  let id := ("agent-" ++ fmt_d (nextPanelID d))%string in
  let pid := match runner with
             | Some r => runnerPID env r
             | None => 0
             end in
  let panel := {| ID := id; TaskID := taskID; TaskTitle := taskTitle;
                  AgentName := agentName; Runner := runner; Output := [];
                  StartTime := now env; EndTime := 0; Result := None;
                  ScrollPos := 0; Follow := true; Focused := false;
                  Closed := false; Stopping := false; PID := pid |} in
  let d := set_panels (panels d ++ [panel]) d in
  if len (panels d) =? 1 then set_focusedPanel 0 d else d.

(** The end of the loop body of [appendAgentOutput], for a line the parser
    left [parsed] of:
    [parsedLine := agent.OutputLine{Text: parsed, IsStderr: line.IsStderr,
                                    Timestamp: line.Timestamp};
     panel.Output = append(panel.Output, parsedLine);
     if panel.Follow { panel.ScrollPos = clampScroll(len(panel.Output),
                         d.outputViewHeight(), panel.ScrollPos, true) }]. *)
Definition appendLine (viewHeight : Z) (parsed : string)
  (line : agent.OutputLine) (panel : AgentPanel) : AgentPanel :=
  let parsedLine := {| agent.Text := parsed;
                       agent.IsStderr := agent.IsStderr line;
                       agent.Timestamp := agent.Timestamp line |} in
  let panel := set_Output (Output panel ++ [parsedLine]) panel in
  if Follow panel then
    set_ScrollPos (clampScroll (len (Output panel)) viewHeight
                     (ScrollPos panel) true) panel
  else panel.

(** The loop of [appendAgentOutput] over [d.panels]: the first panel of the
    task takes the line, unless the parser leaves nothing of it. *)
Fixpoint appendAgentOutput_loop (viewHeight : Z) (taskID : string)
  (line : agent.OutputLine) (ps : list AgentPanel) : list AgentPanel :=
  match ps with
  | [] => []
  | panel :: rest =>
      if negb (String.eqb (TaskID panel) taskID) then
        panel :: appendAgentOutput_loop viewHeight taskID line rest
      else
        let parsed := parseClaudeOutput (agent.Text line) in
        if String.eqb parsed "" then panel :: rest
        else appendLine viewHeight parsed line panel :: rest
  end.

(** [func (d *Dashboard) appendAgentOutput(taskID string, line agent.OutputLine)] *)
Definition appendAgentOutput (taskID : string) (line : agent.OutputLine)
  (d : Dashboard) : Dashboard :=
  set_panels
    (appendAgentOutput_loop (outputViewHeight d) taskID line (panels d)) d.

(** The loop of [completeAgent]: the panels after it, and whether a panel
    of the task was found. *)
Fixpoint completeAgent_loop (now : Z) (taskID : string) (result : agent.Result)
  (ps : list AgentPanel) : list AgentPanel * bool :=
  match ps with
  | [] => ([], false)
  | panel :: rest =>
      if negb (String.eqb (TaskID panel) taskID) then
        let '(rest', found) := completeAgent_loop now taskID result rest in
        (panel :: rest', found)
      else (set_completed result now panel :: rest, true)
  end.

(** [func (d *Dashboard) completeAgent(taskID string, result agent.Result)] *)
Definition completeAgent (env : Env) (taskID : string) (result : agent.Result)
  (d : Dashboard) : Dashboard :=
  let '(ps, found) := completeAgent_loop (now env) taskID result (panels d) in
  let d := set_panels ps d in
  if found then set_taskCount (add (taskCount d) 1) d else d.

(** [func (d *Dashboard) handleEvent(ev Event)] *)
Definition handleEvent (env : Env) (ev : Event) (d : Dashboard) : Dashboard :=
  match ev with
  | ListenerConnected => set_link true true None d
  | ListenerError err => set_link (listening d) (connected d) err d
  | AddAgent taskID taskTitle agentName runner =>
      addAgentPanel env taskID taskTitle agentName runner d
  | AgentOutput taskID line => appendAgentOutput taskID line d
  | AgentCompleted taskID result => completeAgent env taskID result d
  | versionCheck latest available => set_update available latest d
  | OtherEvent => d
  end.

(** [func (d *Dashboard) refreshSize()] *)
Definition refreshSize (env : Env) (d : Dashboard) : Dashboard :=
  set_size (if 0 <? termWidth env then termWidth env else width d)
           (if 0 <? termHeight env then termHeight env else height d) d.

(** What [render] writes to the state (the frame itself is not modelled):
    [renderOutput] pins the scroll position of a focused, following panel
    to the bottom. *)
Definition render (d : Dashboard) : Dashboard :=
  match area d with
  | None => d
  | Some _ =>
      if out_of_range (focusedPanel d) d then d
      else update_panel (focusedPanel d)
             (fun panel =>
                if Follow panel then
                  set_ScrollPos (clampScroll (len (Output panel))
                                   (outputViewHeight d) (ScrollPos panel) true)
                                panel
                else panel) d
  end.

(** [func (d *Dashboard) SetListening(listening bool)] *)
Definition SetListening (b : bool) (d : Dashboard) : Dashboard :=
  set_link b (connected d) (lastError d) d.

(** [func (d *Dashboard) SetConnected(connected bool)] *)
Definition SetConnected (b : bool) (d : Dashboard) : Dashboard :=
  set_link (listening d) b (lastError d) d.

(** [func (d *Dashboard) SetError(err error)] *)
Definition SetError (err : option error) (d : Dashboard) : Dashboard :=
  match err with
  | Some e => set_link (listening d) (connected d) (Some e) d
  | None => set_link (listening d) (connected d) None d
  end.

(** [func (d *Dashboard) AddAgent(...) string] *)
Definition Dashboard_AddAgent (env : Env) (taskID taskTitle agentName : string)
  (runner : option agent.Runner) (d : Dashboard) : Dashboard * string :=
  let d := addAgentPanel env taskID taskTitle agentName runner d in
  (d, match last (panels d) with
      | Some p => ID p
      | None => EmptyString
      end).

(** [func (d *Dashboard) GetOpenPanelCount() int] *)
Definition GetOpenPanelCount (d : Dashboard) : Z := len (panels d).


(** The body of the loop of [CancelAllAgents], for the panel [p] at
    position [i]:
    [if p.IsRunning() && p.Runner != nil && !p.Stopping
       { p.Stopping = true; _ = p.Runner.Cancel() }]. *)
Definition cancelPanel (running : agent.Runner -> bool) (i : nat)
  (p : AgentPanel) : AgentPanel * list Call :=
  match Runner p with
  | Some r =>
      if IsRunning running p && negb (Stopping p)
      then (set_Stopping true p, [RunnerCancel i r])
      else (p, [])
  | None => (p, [])
  end.

(** The loop of [CancelAllAgents] from position [i] on. [running i] is what
    the runners answer to [IsRunning] when the loop is at position [i]: a
    [Cancel] made earlier in the sweep may have changed it. *)
Fixpoint CancelAllAgents_loop (running : nat -> agent.Runner -> bool) (i : nat)
  (ps : list AgentPanel) : list AgentPanel * list Call :=
  match ps with
  | [] => ([], [])
  | p :: rest =>
      let '(p, c) := cancelPanel (running i) i p in
      let '(rest, cs) := CancelAllAgents_loop running (S i) rest in
      (p :: rest, c ++ cs)
  end.

(** [func (d *Dashboard) CancelAllAgents()] *)
Definition CancelAllAgents (running : nat -> agent.Runner -> bool)
  (d : Dashboard) : Dashboard * list Call :=
  let '(ps, t) := CancelAllAgents_loop running 0 (panels d) in
  (set_panels ps d, t).

(** [func (d *Dashboard) Send(event Event) error] *)
Definition Send (event : Event) (d : Dashboard) : Dashboard * option error :=
  match Chan.try_send (events d) event with
  | Some q => (set_events q d, None)
  | None => (d, Some (GoError.errors_New "dashboard event queue is full"))
  end.

(** The sources the loop of [Run] selects from. *)
Inductive Source :=
| FromEvents     (* case ev := <-d.events *)
| FromInputs     (* case input := <-d.inputs *)
| FromTicker.    (* case <-refresh.C *)

(** One iteration of the loop of [Run] that takes the given source: the new
    state, the calls made and whether [Run] returns. A source with nothing
    ready is not taken (the state is as before). *)
Definition turn (env : Env) (src : Source) (d : Dashboard)
  : Dashboard * list Call * bool :=
  match src with
  | FromEvents =>
      match Chan.recv (events d) with
      | Some (ev, q) => (render (handleEvent env ev (set_events q d)), [], false)
      | None => (d, [], false)
      end
  | FromInputs =>
      match Chan.recv (inputs d) with
      | Some (input, q) =>
          let '(d, t, quit) := handleInput env input (set_inputs q d) in
          if quit then (d, t, true) else (render d, t, false)
      | None => (d, [], false)
      end
  | FromTicker =>
      (render (refreshSize env (set_progressTick (add (progressTick d) 1) d)),
       [], false)
  end.

(** Everything that writes to a dashboard: the handlers of the loop, the
    loop itself, the producers that fill its queues and the exported
    methods. *)
Inductive Op :=
| OpHandleEvent (ev : Event)
| OpHandleInput (input : inputEvent)
| OpRender
| OpTurn (src : Source)
| OpStart                          (* Run, up to its loop *)
| OpSend (ev : Event)              (* Send, checkVersion *)
| OpKey (input : inputEvent)       (* listenForKeys *)
| OpSetListening (b : bool)
| OpSetConnected (b : bool)
| OpSetError (err : option error)
| OpAddAgent (taskID taskTitle agentName : string) (runner : option agent.Runner)
| OpCancelAllAgents (running : nat -> agent.Runner -> bool).

Definition apply_op (env : Env) (op : Op) (d : Dashboard) : Dashboard :=
  match op with
  | OpHandleEvent ev => handleEvent env ev d
  | OpHandleInput input => (handleInput env input d).1.1
  | OpRender => render d
  | OpTurn src => (turn env src d).1.1
  | OpStart => render (refreshSize env (set_area (Some tt) d))
  | OpSend ev => (Send ev d).1
  | OpKey input =>
      match Chan.try_send (inputs d) input with
      | Some q => set_inputs q d
      | None => d
      end
  | OpSetListening b => SetListening b d
  | OpSetConnected b => SetConnected b d
  | OpSetError err => SetError err d
  | OpAddAgent taskID taskTitle agentName runner =>
      (Dashboard_AddAgent env taskID taskTitle agentName runner d).1
  | OpCancelAllAgents running => (CancelAllAgents running d).1
  end.

(** The dashboards that can exist: a new one, and whatever an operation makes
    of one, as long as the panel slice it leaves has a length (an [int]). *)
Inductive reachable : Dashboard -> Prop :=
| reachable_new criteria mode modeUpdates stopUpdates :
    reachable (NewDashboard criteria mode modeUpdates stopUpdates)
| reachable_step env op d :
    reachable d ->
    len (panels (apply_op env op d)) <= max_int ->
    reachable (apply_op env op d).

(** The focused index is an index into the panels, or [-1] when there are
    none. *)
Definition focus_ok (d : Dashboard) : Prop :=
  (len (panels d) = 0 /\ focusedPanel d = -1) \/
  0 <= focusedPanel d < len (panels d).

(** [l[lo:hi]] on a slice without spare capacity: [None] is the run-time
    panic for bounds out of range. *)
Definition slice {A} (l : list A) (lo hi : Z) : option (list A) :=
  if (0 <=? lo) && (lo <=? hi) && (hi <=? len l)
  then Some (take (Z.to_nat (hi - lo)) (drop (Z.to_nat lo) l))
  else None.

(** The part of [renderOutput] that picks the lines to show for [panel],
    the focused panel: the panel (a following panel gets its scroll
    position pinned), [start] and [end]. *)
Definition renderOutput_window (d : Dashboard) (panel : AgentPanel)
  : AgentPanel * Z * Z :=
  let viewHeight := outputViewHeight d in
  let start := ScrollPos panel in
  let '(panel, start) :=
    if Follow panel then
      let start := clampScroll (len (Output panel)) viewHeight
                     (ScrollPos panel) true in
      (set_ScrollPos start panel, start)
    else (panel, start) in
  let end_ := add start viewHeight in
  let end_ := if len (Output panel) <? end_ then len (Output panel) else end_ in
  (panel, start, end_).

(** The lines [renderOutput] ranges over, [panel.Output[start:end]]. *)
Definition renderOutput_lines (d : Dashboard) (panel : AgentPanel)
  : option (list agent.OutputLine) :=
  let '(panel, start, end_) := renderOutput_window d panel in
  slice (Output panel) start end_.

(** The three numbers of the footer, ["Lines %d-%d of %d"]. *)
Definition renderOutput_footer (d : Dashboard) (panel : AgentPanel)
  : Z * Z * Z :=
  let '(panel, start, end_) := renderOutput_window d panel in
  let '(lineStart, lineEnd) :=
    if 0 <? len (Output panel) then (add start 1, end_) else (0, 0) in
  (lineStart, lineEnd, len (Output panel)).

(** The width [renderAgentTable] allots to a task title. *)
Definition maxTitle (d : Dashboard) : Z :=
  if 140 <? width d then 48
  else if width d <? 90 then 24
  else 32.

(** The title column of [renderAgentTable], one entry per panel. *)
Definition tableTitles (d : Dashboard) : list string :=
  List.map (fun panel => truncate (TaskTitle panel) (maxTitle d)) (panels d).

(** [listenForKeys]: what the callback does with one key: the new input
    queue, and whether listening stops. [cancelled] is [ctx.Err() != nil]. *)
Definition onKey (cancelled : bool) (key : keys.Key) (d : Dashboard)
  : Dashboard * bool :=
  if cancelled then (d, true)
  else
    let '(event, ok) := mapKeyToInputEvent key in
    if ok then
      let d := match Chan.try_send (inputs d) event with
               | Some q => set_inputs q d
               | None => d
               end in
      match action event with
      | actionQuit => (d, true)
      | _ => (d, false)
      end
    else (d, false).

(** A scroll position the output view can start at, whatever its height. *)
Definition scroll_ok (panel : AgentPanel) : Prop :=
  0 <= ScrollPos panel <= Z.max 0 (len (Output panel) - 8).

(** A following panel sits at the bottom for a view of [viewHeight] lines. *)
Definition pinned (viewHeight : Z) (panel : AgentPanel) : Prop :=
  Follow panel = true ->
  ScrollPos panel = Z.max 0 (len (Output panel) - viewHeight).

(** The panel [addAgentPanel] makes. *)
Definition newPanel (id taskID taskTitle agentName : string)
  (runner : option agent.Runner) (now pid : Z) : AgentPanel :=
  {| ID := id; TaskID := taskID; TaskTitle := taskTitle;
     AgentName := agentName; Runner := runner; Output := [];
     StartTime := now; EndTime := 0; Result := None;
     ScrollPos := 0; Follow := true; Focused := false;
     Closed := false; Stopping := false; PID := pid |}.




(** Same number of panels, same focused index. *)
Definition same_shape (d d' : Dashboard) : Prop :=
  length (panels d') = length (panels d) /\ focusedPanel d' = focusedPanel d.

End Dashboard.

Arguments Dashboard : clear implicits.

(** The terminal styles the dashboard uses ([pterm.NewStyle(...)]). *)
Inductive Attr :=
| FgYellow | FgGreen | FgLightGreen | FgGray | FgDarkGray | FgRed | Bold.

Definition Style := list Attr.

(** [func statusForPanel(panel *AgentPanel) (string, pterm.Style)]. The
    first two cases of the switch each ask the runner; [running1] and
    [running2] are its answers. *)
Definition statusForPanel (running1 running2 : agent.Runner -> bool)
  (panel : AgentPanel) : string * Style :=
  if Stopping panel && IsRunning running1 panel
  then ("stopping"%string, [FgYellow; Bold])
  else if IsRunning running2 panel
  then ("running"%string, [FgGreen; Bold])
  else
    match Result panel with
    | Some result =>
        if agent.ExitCode result =? 0
        then ("complete"%string, [FgLightGreen; Bold])
        else if Stopping panel
        then ("stopped"%string, [FgGray])
        else (("failed " ++ fmt_d (agent.ExitCode result))%string, [FgRed; Bold])
    | None => ("pending"%string, [FgYellow])
    end.







End ui.

(** ** Package [tui]: the agent pane *)

Module tui.
Import GoInt.

(** [truncateString(s string, maxLen int) string] *)
Definition truncateString (s : string) (maxLen : Z) : string :=
  if maxLen <=? 3 then s
  else if Z.of_nat (String.length s) <=? maxLen then s
  else (substring 0 (Z.to_nat (sub maxLen 3)) s ++ "...")%string.

(** [type AgentState struct] *)
Record AgentState := {
  Runner : option agent.Runner;
  Output : list agent.OutputLine;
  TaskID : string;
  TaskTitle : string;
  PaneHeight : Z;
  PaneOpen : bool;
  ScrollPos : Z;
  LastResult : option agent.Result
}.


(** [func (s *AgentState) IsRunning() bool] *)
Definition IsRunning (running : agent.Runner -> bool) (s : AgentState) : bool :=
  match Runner s with
  | None => false
  | Some r => running r
  end.


Definition set_ScrollPos (pos : Z) (s : AgentState) : AgentState :=
  {| Runner := Runner s; Output := Output s; TaskID := TaskID s;
     TaskTitle := TaskTitle s; PaneHeight := PaneHeight s;
     PaneOpen := PaneOpen s; ScrollPos := pos; LastResult := LastResult s |}.

(** [func (s *AgentState) AppendOutput(line agent.OutputLine)] *)
Definition AppendOutput (line : agent.OutputLine) (s : AgentState)
  : AgentState :=
  let s := {| Runner := Runner s; Output := Output s ++ [line];
              TaskID := TaskID s; TaskTitle := TaskTitle s;
              PaneHeight := PaneHeight s; PaneOpen := PaneOpen s;
              ScrollPos := ScrollPos s; LastResult := LastResult s |} in
  let visibleLines := sub (PaneHeight s) 3 in
  if visibleLines <? len (Output s)
  then set_ScrollPos (sub (len (Output s)) visibleLines) s
  else s.

(** [func (s *AgentState) ScrollUp(amount int)] *)
Definition ScrollUp (amount : Z) (s : AgentState) : AgentState :=
  let s := set_ScrollPos (sub (ScrollPos s) amount) s in
  if ScrollPos s <? 0 then set_ScrollPos 0 s else s.

(** [func (s *AgentState) ScrollDown(amount int)] *)
Definition ScrollDown (amount : Z) (s : AgentState) : AgentState :=
  let maxScroll := sub (len (Output s)) (sub (PaneHeight s) 3) in
  let maxScroll := if maxScroll <? 0 then 0 else maxScroll in
  let s := set_ScrollPos (add (ScrollPos s) amount) s in
  if maxScroll <? ScrollPos s then set_ScrollPos maxScroll s else s.

(** The last position the pane scrolls to, [max 0 (len Output - visible)]. *)
Definition maxScroll (s : AgentState) : Z :=
  Z.max 0 (len (Output s) - (PaneHeight s - 3)).

(** The scroll position is between the top and the last position. *)
Definition pane_ok (s : AgentState) : Prop := 0 <= ScrollPos s <= maxScroll s.

(** [l[i]]: [None] is the run-time panic for an index out of range. *)
Definition index {A} (l : list A) (i : Z) : option A :=
  if i <? 0 then None else l !! Z.to_nat i.

(** The part of [RenderAgentPane] that picks the lines: [visibleLines],
    [startIdx] and [endIdx]. *)
Definition paneWindow (state : AgentState) : Z * Z * Z :=
  let visibleLines := sub (PaneHeight state) 3 in
  let visibleLines := if visibleLines <? 1 then 1 else visibleLines in
  let startIdx := ScrollPos state in
  let endIdx := add startIdx visibleLines in
  let startIdx := if len (Output state) <? startIdx
                  then len (Output state) else startIdx in
  let endIdx := if len (Output state) <? endIdx
                then len (Output state) else endIdx in
  (visibleLines, startIdx, endIdx).

(** The loop [for i := startIdx; i < endIdx; i++] of [RenderAgentPane], [n]
    iterations from [i] on: for each line whether it is from stderr, and
    its text cut to the pane. *)
Fixpoint paneRows_loop (out : list agent.OutputLine) (width : Z) (i : Z)
  (n : nat) : option (list (bool * string)) :=
  match n with
  | O => Some []
  | S n =>
      match index out i with
      | None => None
      | Some line =>
          match paneRows_loop out width (add i 1) n with
          | None => None
          | Some rows =>
              Some ((agent.IsStderr line,
                     truncateString (agent.Text line) (sub width 8)) :: rows)
          end
      end
  end.

(** One row of the pane: whether it is styled as stderr, and its text. *)
Definition paneRow (width : Z) (line : agent.OutputLine) : bool * string :=
  (agent.IsStderr line, truncateString (agent.Text line) (sub width 8)).

(** The rows of output [RenderAgentPane] writes for an open pane. *)
Definition paneRows (state : AgentState) (width : Z)
  : option (list (bool * string)) :=
  let '(_, startIdx, endIdx) := paneWindow state in
  paneRows_loop (Output state) width startIdx (Z.to_nat (endIdx - startIdx)).

(** The scroll indicator of [RenderAgentPane], ["Lines %d-%d of %d ..."],
    when there is one. *)
Definition paneIndicator (state : AgentState) : option (Z * Z * Z) :=
  let '(visibleLines, startIdx, endIdx) := paneWindow state in
  if visibleLines <? len (Output state)
  then Some (add startIdx 1, endIdx, len (Output state))
  else None.

End tui.

(** ** Concrete agents and dashboards

    The values the examples below are run on. *)

Module Fixtures.
Import GoError agent ui.

(** A configuration, an operating system that starts the child as process
    4242, and the agent that [Start] leaves behind. *)
Definition cfg : Config :=
  {| agent.WorkDir := "."; agent.Env := []; agent.Timeout := 0 |}.

Definition os_ok : StartEnv :=
  {| os_Environ := []; StdoutPipe_err := None; StderrPipe_err := None;
     Start_result := inr 4242; start_now := 1000 |}.

Definition started : ClaudeCode :=
  (Start os_ok "do the task" (NewClaudeCode cfg)).1.

(** A two-valued execution mode and a parser that drops empty JSON objects
    and marks every other line. *)
Definition toggle (m : bool) : bool := negb m.

Definition parse (s : string) : string :=
  if String.eqb s "{}" then EmptyString else ("> " ++ s)%string.

(** A terminal of 120 by 40 (an output view of 13 lines), every runner
    running. *)
Definition env0 : Env :=
  {| now := 1000; runnerPID := fun r => 100 + Z.of_nat r;
     runnerIsRunning := fun _ => true; termWidth := 120; termHeight := 40 |}.

Definition op (o : Op) (d : Dashboard bool) : Dashboard bool :=
  apply_op toggle parse env0 o d.

Definition empty : Dashboard bool := NewDashboard "all" false None None.

Definition one_panel : Dashboard bool :=
  op (OpHandleEvent (AddAgent "T1" "first task" "claude" (Some 1%nat)))
     (op OpStart empty).

Definition two_panels : Dashboard bool :=
  op (OpHandleEvent (AddAgent "T2" "second task" "claude" (Some 2%nat)))
     one_panel.

Definition three_panels : Dashboard bool :=
  op (OpHandleEvent (AddAgent "T3" "third task" "claude" (Some 3%nat)))
     two_panels.

(** A dashboard whose event queue holds as many events as it has room for. *)
Definition full_queue : Dashboard bool :=
  Nat.iter 200 (op (OpSend OtherEvent)) empty.

Definition key (a : inputAction) : inputEvent := {| action := a; value := 0 |}.

Definition line (text : string) : agent.OutputLine :=
  {| Text := text; IsStderr := false; Timestamp := 1001 |}.

(** The three panels after twenty lines of output for the first task. *)
Definition busy : Dashboard bool :=
  Nat.iter 20 (op (OpHandleEvent (AgentOutput "T1" (line "working"))))
    three_panels.

(** The key [q], and a result with exit code 0. *)
Definition key_q : keys.Key :=
  {| keys.Code := keys.RuneKey; keys.Runes := [113] |}.

Definition done : agent.Result :=
  {| ExitCode := 0; Duration := 5; Error := None |}.

(** An operating system that cannot make the stdout pipe. *)
Definition os_no_pipe : StartEnv :=
  {| os_Environ := [];
     StdoutPipe_err := Some (errors_New "too many open files");
     StderrPipe_err := None; Start_result := inr 4242; start_now := 1000 |}.

(** An open pane of height 5, which shows two lines, after three lines of
    output. *)
Definition pane : tui.AgentState :=
  tui.AppendOutput (line "three")
    (tui.AppendOutput (line "two")
       (tui.AppendOutput (line "one")
          {| tui.Runner := None; tui.Output := []; tui.TaskID := "T1";
             tui.TaskTitle := "first task"; tui.PaneHeight := 5;
             tui.PaneOpen := true; tui.ScrollPos := 0;
             tui.LastResult := None |})).

End Fixtures.

(** * Properties *)

(** ** Arithmetic on [int] *)

Module GoIntFacts.
Import GoInt.

Lemma wrap_id z : in_range z -> wrap z = z.
Proof.
  unfold in_range, min_int, max_int, wrap. intros Hz.
  rewrite Z.mod_small; lia.
Qed.

Lemma wrap_in_range z : in_range (wrap z).
Proof.
  unfold in_range, min_int, max_int, wrap.
  pose proof (Z.mod_pos_bound (z + 2 ^ 63) (2 ^ 64) ltac:(lia)). lia.
Qed.

Lemma len_nonneg {A} (l : list A) : 0 <= len l.
Proof. unfold len. lia. Qed.

End GoIntFacts.

(** ** Scroll clamp *)

Module ScrollSpec.
Import GoInt GoIntFacts Scroll.

Example clampScroll_test1 : clampScroll 0 10 0 true = 0.
Proof. reflexivity. Qed.
Example clampScroll_test2 : clampScroll 5 3 0 true = 2.
Proof. reflexivity. Qed.
Example clampScroll_test3 : clampScroll 5 3 (-1) false = 0.
Proof. reflexivity. Qed.
Example clampScroll_test4 : clampScroll 5 3 10 false = 2.
Proof. reflexivity. Qed.

(** With a non-negative line count and a positive height the subtraction
    never leaves the range of [int]. *)
Lemma maxStart_exact T V :
  0 <= T <= max_int -> 0 < V <= max_int -> sub T V = T - V.
Proof.
  intros HT HV. unfold sub. apply wrap_id.
  unfold in_range, min_int, max_int in *. lia.
Qed.

Lemma clampScroll_follow T V P :
  0 <= T <= max_int -> 0 < V <= max_int ->
  clampScroll T V P true = Z.max 0 (T - V).
Proof.
  intros HT HV. unfold clampScroll.
  rewrite maxStart_exact by assumption.
  destruct (Z.leb_spec V 0); [lia|].
  destruct (Z.ltb_spec (T - V) 0); lia.
Qed.

Lemma clampScroll_free T V P :
  0 <= T <= max_int -> 0 < V <= max_int ->
  clampScroll T V P false = clamp_into (Z.max 0 (T - V)) P.
Proof.
  intros HT HV. unfold clampScroll, clamp_into.
  rewrite maxStart_exact by assumption.
  destruct (Z.leb_spec V 0); [lia|].
  destruct (Z.ltb_spec (T - V) 0);
    destruct (Z.ltb_spec P 0); try lia.
  - destruct (Z.ltb_spec 0 P); lia.
  - destruct (Z.ltb_spec (T - V) P); lia.
Qed.

Lemma clampScroll_no_view T V P follow : V <= 0 -> clampScroll T V P follow = 0.
Proof.
  intros HV. unfold clampScroll. destruct (Z.leb_spec V 0); [reflexivity|lia].
Qed.

(** C1. [clampScroll] is total (a function) and, for every line count
    [T >= 0] and height [V] (both [int]s), position [P] and follow flag:
    [V <= 0] gives [0]; otherwise, with [maxStart = max 0 (T - V)], follow
    gives [maxStart], and no follow gives [P] clamped into [[0, maxStart]],
    a value of that interval that is [P] itself whenever [P] lies in it. *)
Theorem clampScroll_correct (T V P : Z) (follow : bool) :
  0 <= T <= max_int -> in_range V ->
  (V <= 0 -> clampScroll T V P follow = 0) /\
  (0 < V ->
     let maxStart := Z.max 0 (T - V) in
     clampScroll T V P true = maxStart /\
     clampScroll T V P false = clamp_into maxStart P /\
     0 <= clampScroll T V P false <= maxStart /\
     (0 <= P <= maxStart -> clampScroll T V P false = P) /\
     (P < 0 -> clampScroll T V P false = 0) /\
     (maxStart < P -> clampScroll T V P false = maxStart)).
Proof.
  intros HT HV. split.
  - apply clampScroll_no_view.
  - intros Hpos maxStart.
    assert (HV' : 0 < V <= max_int) by (unfold in_range in HV; lia).
    rewrite clampScroll_follow, clampScroll_free by assumption.
    subst maxStart. unfold clamp_into. repeat split; lia.
Qed.

Lemma clampScroll_correct_witness :
  clampScroll 5 3 10 false = 2 /\ clampScroll 5 3 10 true = 2 /\
  clampScroll 5 0 10 true = 0.
Proof.
  assert (H5 : 0 <= 5 <= max_int) by (unfold max_int; lia).
  assert (H3 : in_range 3) by (unfold in_range, min_int, max_int; lia).
  assert (H0 : in_range 0) by (unfold in_range, min_int, max_int; lia).
  destruct (clampScroll_correct 5 3 10 false H5 H3) as [_ Hb].
  destruct (Hb ltac:(lia)) as (Hf & _ & _ & _ & _ & Hhi).
  destruct (clampScroll_correct 5 0 10 true H5 H0) as [Hz _].
  split; [apply Hhi; simpl; lia|]. split; [exact Hf | apply Hz; lia].
Defined.

End ScrollSpec.

(** ** Channels *)

Module ChanFacts.
Import Chan.

Lemma try_send_full {A} (c : chan A) x : full c = true -> try_send c x = None.
Proof. unfold try_send. intros ->. reflexivity. Qed.

Lemma try_send_room {A} (c : chan A) x :
  full c = false -> try_send c x = Some (Make (buf c ++ [x]) (cap c)).
Proof. unfold try_send. intros ->. reflexivity. Qed.

End ChanFacts.

(** ** The agent subprocess: [Wait] and [Cancel] *)

Module AgentSpec.
Import GoError agent Fixtures.

Example started_running :
  running started = true /\ (exists command, cmd started = Some command /\
                                             Process command = Some 4242).
Proof. split; [reflexivity|]. eexists. split; reflexivity. Qed.

(** [Start] always leaves a command behind, unless the agent was running
    (and then it had one from the [Start] that made it run). *)
Lemma Start_sets_cmd env prompt c :
  running c = false -> cmd (Start env prompt c).1 <> None.
Proof.
  intros Hr. unfold Start. rewrite Hr.
  destruct (StdoutPipe_err env); [discriminate|].
  destruct (StderrPipe_err env); [discriminate|].
  destruct (Start_result env); discriminate.
Qed.

(** A second [Start] on a running agent is refused. *)
Lemma Start_twice env env' prompt prompt' c pid :
  running c = false -> Start_result env = inr pid ->
  StdoutPipe_err env = None -> StderrPipe_err env = None ->
  (Start env' prompt' (Start env prompt c).1).2 = Some ErrAgentAlreadyRunning.
Proof.
  intros Hr Hs Ho He. unfold Start at 2. rewrite Hr, Ho, He, Hs. reflexivity.
Qed.

Lemma Wait_before_start config wait_err :
  Wait wait_err (NewClaudeCode config) =
  (NewClaudeCode config, [], (-1, Some ErrAgentNotStarted)).
Proof. reflexivity. Qed.

(** C3. [Wait] on an agent that was never started (no command) fails with
    [ErrAgentNotStarted] and touches nothing. On an agent with a command, an
    [*exec.ExitError] with exit code [N] gives [(N, nil)], any other error of
    the underlying wait gives [(-1, err)], no error gives [(0, nil)]; and
    whatever the outcome, the trace holds exactly one store of [false] into
    the running flag, no store of [true], and the flag is [false] after. *)
Theorem Wait_translates_exit (c : ClaudeCode) (wait_err : option error) :
  (forall config, Wait wait_err (NewClaudeCode config) =
                  (NewClaudeCode config, [], (-1, Some ErrAgentNotStarted))) /\
  (cmd c = None -> Wait wait_err c = (c, [], (-1, Some ErrAgentNotStarted))) /\
  (cmd c <> None ->
     let c' := (Wait wait_err c).1.1 in
     let t := (Wait wait_err c).1.2 in
     let res := (Wait wait_err c).2 in
     (forall N, wait_err = Some (exec_ExitError N) -> res = (N, None)) /\
     (forall err, wait_err = Some err ->
                  (forall N, err <> exec_ExitError N) -> res = (-1, Some err)) /\
     (wait_err = None -> res = (0, None)) /\
     running_stores false t = 1%nat /\
     running_stores true t = 0%nat /\
     running c' = false).
Proof.
  split; [intros; reflexivity|]. split.
  - intros Hc. unfold Wait. rewrite Hc. reflexivity.
  - intros Hc. unfold Wait. destruct (cmd c) as [command|]; [|congruence].
    cbn. repeat split.
    + intros N ->. reflexivity.
    + intros err -> Hne. destruct err; try reflexivity.
      exfalso. eapply Hne. reflexivity.
    + intros ->. reflexivity.
Qed.

Lemma Wait_translates_exit_witness :
  (Wait (Some (exec_ExitError 3)) started).2 = (3, None) /\
  running (Wait (Some (exec_ExitError 3)) started).1.1 = false.
Proof.
  destruct (Wait_translates_exit started (Some (exec_ExitError 3)))
    as (_ & _ & H).
  assert (Hc : cmd started <> None) by (vm_compute; discriminate).
  destruct (H Hc) as (Hexit & _ & _ & _ & _ & Hrun).
  split; [apply Hexit; reflexivity | exact Hrun].
Defined.

(** The control flow of [Cancel]. *)
Lemma Cancel_not_running env c :
  running c = false -> Cancel env c = ([], None).
Proof. intros Hr. unfold Cancel. rewrite Hr. reflexivity. Qed.

Lemma Cancel_signal_first env c command pid :
  running c = true -> cmd c = Some command -> Process command = Some pid ->
  exists rest, (Cancel env c).1 = SignalInterrupt pid :: rest.
Proof.
  intros Hr Hc Hp. unfold Cancel. rewrite Hr, Hc, Hp. cbn.
  destruct (Signal_err env); [eauto|]. destruct (exits_within env 5); eauto.
Qed.

Lemma Cancel_signal_fails env c command pid err :
  running c = true -> cmd c = Some command -> Process command = Some pid ->
  Signal_err env = Some err ->
  Cancel env c = ([SignalInterrupt pid; ProcessKill pid], Kill_err env).
Proof.
  intros Hr Hc Hp Hs. unfold Cancel. rewrite Hr, Hc, Hp, Hs. reflexivity.
Qed.

Lemma Cancel_graceful env c command pid :
  running c = true -> cmd c = Some command -> Process command = Some pid ->
  Signal_err env = None -> exits_within env 5 = true ->
  Cancel env c = ([SignalInterrupt pid; AwaitExit 5], None).
Proof.
  intros Hr Hc Hp Hs He. unfold Cancel. rewrite Hr, Hc, Hp, Hs, He. reflexivity.
Qed.

Lemma Cancel_timeout env c command pid :
  running c = true -> cmd c = Some command -> Process command = Some pid ->
  Signal_err env = None -> exits_within env 5 = false ->
  Cancel env c = ([SignalInterrupt pid; AwaitExit 5; ProcessKill pid], Kill_err env).
Proof.
  intros Hr Hc Hp Hs He. unfold Cancel. rewrite Hr, Hc, Hp, Hs, He. reflexivity.
Qed.

(** Whatever happens, [Cancel] only ever kills the process it started. *)
Lemma Cancel_never_kills_tree env c :
  existsb kills_tree (Cancel env c).1 = false.
Proof.
  unfold Cancel. destruct (running c); [|reflexivity].
  destruct (cmd c) as [command|]; [|reflexivity].
  destruct (Process command); [|reflexivity].
  destruct (Signal_err env); [reflexivity|].
  destruct (exits_within env 5); reflexivity.
Qed.

Lemma killProcessTree_kills_tree taskkill_err Kill_err pid force :
  existsb kills_tree (killProcessTree taskkill_err Kill_err pid force).1 = true.
Proof. destruct taskkill_err; reflexivity. Qed.

(** C2. On a running agent whose interrupt cannot be delivered, and on one
    that ignores a delivered interrupt for the 5 seconds of grace, [Cancel]
    ends with [Process.Kill] on the one process it started: the trace has no
    step that reaches the descendants, which the package's own
    [killProcessTree] has. *)
Theorem Cancel_kills_process_not_tree :
  let undeliverable := {| Signal_err := Some (errors_New "not supported by windows");
                          exits_within := fun _ => false; Kill_err := None |} in
  let ignored := {| Signal_err := None; exits_within := fun _ => false;
                    Kill_err := None |} in
  Cancel undeliverable started = ([SignalInterrupt 4242; ProcessKill 4242], None) /\
  Cancel ignored started =
    ([SignalInterrupt 4242; AwaitExit 5; ProcessKill 4242], None) /\
  existsb kills_tree (Cancel undeliverable started).1 = false /\
  existsb kills_tree (Cancel ignored started).1 = false /\
  killProcessTree None None 4242 true = ([TaskkillTree 4242], None).
Proof. repeat split. Qed.

End AgentSpec.

(** ** The dashboard *)

Module DashboardSpec.
Import GoInt GoIntFacts Scroll ScrollSpec ui.

Section Dashboard.

Context {ExecutionMode : Type}.
Variable Toggle : ExecutionMode -> ExecutionMode.
Variable parseClaudeOutput : string -> string.

Local Abbreviation Dashboard := (Dashboard ExecutionMode).

Implicit Types (d : Dashboard) (p panel : AgentPanel) (ps : list AgentPanel).

(** *** The height of the output view *)

Lemma outputViewHeight_bounds d : 8 <= outputViewHeight d <= 18.
Proof.
  unfold outputViewHeight.
  destruct (Z.leb_spec (height d) 0); [lia|].
  destruct (Z.ltb_spec (height d ÷ 3) 8); [cbn; lia|].
  destruct (Z.ltb_spec 18 (height d ÷ 3)); lia.
Qed.

Lemma clampScroll_bottom d n P :
  0 <= n <= max_int ->
  clampScroll n (outputViewHeight d) P true = Z.max 0 (n - outputViewHeight d).
Proof.
  intros Hn. pose proof (outputViewHeight_bounds d).
  apply clampScroll_follow; [assumption|]. unfold max_int. lia.
Qed.

(** *** Shapes *)

Lemma same_shape_refl d : same_shape d d.
Proof. split; reflexivity. Qed.

Lemma same_shape_trans d1 d2 d3 :
  same_shape d1 d2 -> same_shape d2 d3 -> same_shape d1 d3.
Proof. intros [H1 H2] [H3 H4]. split; congruence. Qed.

Lemma same_shape_focus_ok d d' : same_shape d d' -> focus_ok d -> focus_ok d'.
Proof.
  intros [Hl Hf]. unfold focus_ok, len. rewrite Hl, Hf. tauto.
Qed.

Lemma same_shape_len d d' : same_shape d d' -> len (panels d') = len (panels d).
Proof. intros [Hl _]. unfold len. now rewrite Hl. Qed.

Lemma set_panels_id d : set_panels (panels d) d = d.
Proof. destruct d; reflexivity. Qed.

Lemma update_panel_shape i f d : same_shape d (update_panel i f d).
Proof. split; [cbn; apply length_alter | reflexivity]. Qed.

Ltac guarded d :=
  match goal with
  | |- context [out_of_range ?i d] =>
      destruct (out_of_range i d); [apply same_shape_refl|]
  end.

Lemma ensureFollow_shape i d : same_shape d (ensureFollow i d).
Proof. unfold ensureFollow. guarded d. apply update_panel_shape. Qed.

Lemma scrollOutput_shape delta d : same_shape d (scrollOutput delta d).
Proof. unfold scrollOutput. guarded d. apply update_panel_shape. Qed.

Lemma scrollToTop_shape d : same_shape d (scrollToTop d).
Proof. unfold scrollToTop. guarded d. apply update_panel_shape. Qed.

Lemma scrollToBottom_shape d : same_shape d (scrollToBottom d).
Proof. unfold scrollToBottom. guarded d. apply update_panel_shape. Qed.

Lemma setFollow_shape follow d : same_shape d (setFollow follow d).
Proof. unfold setFollow. guarded d. apply update_panel_shape. Qed.

Lemma render_shape d : same_shape d (render d).
Proof.
  unfold render. destruct (area d); [|apply same_shape_refl].
  guarded d. apply update_panel_shape.
Qed.

Lemma stopFocusedPanel_shape running d :
  same_shape d (stopFocusedPanel running d).1.
Proof.
  unfold stopFocusedPanel. guarded d.
  destruct (panels d !! _) as [panel|]; [|apply same_shape_refl].
  destruct (Runner panel); [|apply same_shape_refl].
  destruct (_ && _); [|apply same_shape_refl].
  split; [cbn; apply length_alter | reflexivity].
Qed.

Lemma appendAgentOutput_loop_length vh taskID line ps :
  length (appendAgentOutput_loop parseClaudeOutput vh taskID line ps) = length ps.
Proof.
  induction ps as [|panel rest IH]; [reflexivity|]. cbn.
  destruct (negb _); [cbn; now rewrite IH|].
  destruct (String.eqb _ _); reflexivity.
Qed.

Lemma appendAgentOutput_shape taskID line d :
  same_shape d (appendAgentOutput parseClaudeOutput taskID line d).
Proof.
  split; [cbn; apply appendAgentOutput_loop_length | reflexivity].
Qed.

Lemma completeAgent_loop_length now taskID result ps :
  length (completeAgent_loop now taskID result ps).1 = length ps.
Proof.
  induction ps as [|panel rest IH]; [reflexivity|]. cbn.
  destruct (negb _); [|reflexivity].
  destruct (completeAgent_loop now taskID result rest) as [rest' found].
  cbn in *. now rewrite IH.
Qed.

Lemma completeAgent_shape env taskID result d :
  same_shape d (completeAgent env taskID result d).
Proof.
  unfold completeAgent.
  pose proof (completeAgent_loop_length (now env) taskID result (panels d)) as Hl.
  destruct (completeAgent_loop _ _ _ _) as [ps found]. cbn in Hl.
  destruct found; split; cbn; auto.
Qed.

Lemma CancelAllAgents_loop_length running i ps :
  length (CancelAllAgents_loop running i ps).1 = length ps.
Proof.
  revert i. induction ps as [|p rest IH]; intros i; [reflexivity|]. cbn.
  specialize (IH (S i)).
  destruct (CancelAllAgents_loop running (S i) rest) as [rest' cs].
  destruct (cancelPanel (running i) i p) as [p' c]. cbn in *. now rewrite IH.
Qed.

Lemma CancelAllAgents_shape running d :
  same_shape d (CancelAllAgents running d).1.
Proof.
  unfold CancelAllAgents.
  pose proof (CancelAllAgents_loop_length running 0 (panels d)) as Hl.
  destruct (CancelAllAgents_loop _ _ _) as [ps t]. split; cbn in *; auto.
Qed.

(** *** The focused index *)

Lemma addAgentPanel_panels env taskID taskTitle agentName runner d :
  exists panel,
    panels (addAgentPanel env taskID taskTitle agentName runner d) =
      panels d ++ [panel] /\
    TaskID panel = taskID /\ Runner panel = runner /\ Output panel = [] /\
    Follow panel = true /\ Stopping panel = false /\ ScrollPos panel = 0.
Proof.
  unfold addAgentPanel. cbn.
  destruct (len _ =? 1); cbn; eexists; (split; [reflexivity|]); cbn; tauto.
Qed.

Lemma addAgentPanel_focus_ok env taskID taskTitle agentName runner d :
  focus_ok d ->
  focus_ok (addAgentPanel env taskID taskTitle agentName runner d).
Proof.
  unfold focus_ok, addAgentPanel, len. cbn. rewrite length_app. cbn.
  destruct (Z.eqb_spec (Z.of_nat (length (panels d) + 1)) 1) as [H1|H1];
    cbn; rewrite length_app; cbn; lia.
Qed.

Lemma closeFocusedPanel_panels d :
  len (panels d) <= max_int -> 0 <= focusedPanel d < len (panels d) ->
  panels (closeFocusedPanel d) =
    take (Z.to_nat (focusedPanel d)) (panels d) ++
    drop (S (Z.to_nat (focusedPanel d))) (panels d).
Proof.
  intros Hmax Hf. unfold closeFocusedPanel, out_of_range.
  destruct (Z.ltb_spec (focusedPanel d) 0); [lia|].
  destruct (Z.leb_spec (len (panels d)) (focusedPanel d)); [lia|]. cbn.
  assert (Hadd : add (focusedPanel d) 1 = focusedPanel d + 1).
  { apply wrap_id. unfold in_range, min_int, max_int in *. lia. }
  rewrite Hadd.
  replace (Z.to_nat (focusedPanel d + 1)) with (S (Z.to_nat (focusedPanel d)))
    by lia.
  destruct (_ =? 0); [reflexivity|]. destruct (_ <=? _); reflexivity.
Qed.

Lemma closeFocusedPanel_len d :
  len (panels d) <= max_int -> 0 <= focusedPanel d < len (panels d) ->
  len (panels (closeFocusedPanel d)) = len (panels d) - 1.
Proof.
  intros Hmax Hf. rewrite closeFocusedPanel_panels by assumption.
  unfold len in *. rewrite length_app, length_take, length_drop. lia.
Qed.

Lemma closeFocusedPanel_focus d :
  len (panels d) <= max_int -> 0 <= focusedPanel d < len (panels d) ->
  focusedPanel (closeFocusedPanel d) =
    if len (panels d) =? 1 then -1
    else if focusedPanel d =? len (panels d) - 1 then len (panels d) - 2
    else focusedPanel d.
Proof.
  intros Hmax Hf. unfold closeFocusedPanel, out_of_range.
  destruct (Z.ltb_spec (focusedPanel d) 0); [lia|].
  destruct (Z.leb_spec (len (panels d)) (focusedPanel d)); [lia|]. cbn.
  assert (Hadd : add (focusedPanel d) 1 = focusedPanel d + 1).
  { apply wrap_id. unfold in_range, min_int, max_int in *. lia. }
  rewrite Hadd.
  set (ps := take _ _ ++ drop _ _).
  assert (Hlen : len ps = len (panels d) - 1).
  { subst ps. unfold len in *. rewrite length_app, length_take, length_drop. lia. }
  clearbody ps.
  destruct (Z.eqb_spec (len (panels d)) 1);
    destruct (Z.eqb_spec (len ps) 0); try (exfalso; lia); [reflexivity|].
  destruct (Z.eqb_spec (focusedPanel d) (len (panels d) - 1));
    destruct (Z.leb_spec (len ps) (focusedPanel d)); try (exfalso; lia);
    [|reflexivity].
  cbn. unfold sub. rewrite wrap_id; [lia|].
  unfold in_range, min_int, max_int in *. lia.
Qed.

Lemma closeFocusedPanel_focus_ok d :
  len (panels d) <= max_int -> focus_ok d -> focus_ok (closeFocusedPanel d).
Proof.
  intros Hmax [[H0 Hf]|Hf].
  - unfold closeFocusedPanel, out_of_range. rewrite Hf. cbn. left. split; assumption.
  - unfold focus_ok.
    rewrite closeFocusedPanel_focus, closeFocusedPanel_len by assumption.
    destruct (Z.eqb_spec (len (panels d)) 1); [lia|].
    destruct (Z.eqb_spec (focusedPanel d) (len (panels d) - 1)); lia.
Qed.

Lemma closeFocusedPanel_len_le d :
  len (panels d) <= max_int -> focus_ok d ->
  len (panels (closeFocusedPanel d)) <= len (panels d).
Proof.
  intros Hmax [[H0 Hf]|Hf].
  - unfold closeFocusedPanel, out_of_range. rewrite Hf. cbn. lia.
  - rewrite closeFocusedPanel_len by assumption. lia.
Qed.

Lemma int_pred n : 0 <= n <= max_int -> sub n 1 = n - 1.
Proof.
  intros Hn. apply wrap_id. unfold in_range, min_int, max_int in *. lia.
Qed.

Lemma int_succ n : 0 <= n < max_int -> add n 1 = n + 1.
Proof.
  intros Hn. apply wrap_id. unfold in_range, min_int, max_int in *. lia.
Qed.

(** The focus after select-next and select-prev, before [ensureFollow]. *)
Lemma selectNext_focus env input d :
  action input = actionSelectNext ->
  len (panels d) <= max_int -> 0 <= focusedPanel d < len (panels d) ->
  focusedPanel (handleInput Toggle env input d).1.1 =
    if focusedPanel d =? len (panels d) - 1 then 0 else focusedPanel d + 1.
Proof.
  intros Ha Hmax Hf. unfold handleInput. rewrite Ha.
  destruct (Z.eqb_spec (len (panels d)) 0); [exfalso; lia|].
  cbn [fst]. rewrite (proj2 (ensureFollow_shape _ _)).
  rewrite int_pred by lia.
  destruct (Z.ltb_spec (focusedPanel d) (len (panels d) - 1));
    destruct (Z.eqb_spec (focusedPanel d) (len (panels d) - 1));
    try (exfalso; lia); cbn; [apply int_succ; lia | reflexivity].
Qed.

Lemma selectPrev_focus env input d :
  action input = actionSelectPrev ->
  len (panels d) <= max_int -> 0 <= focusedPanel d < len (panels d) ->
  focusedPanel (handleInput Toggle env input d).1.1 =
    if focusedPanel d =? 0 then len (panels d) - 1 else focusedPanel d - 1.
Proof.
  intros Ha Hmax Hf. unfold handleInput. rewrite Ha.
  destruct (Z.eqb_spec (len (panels d)) 0); [exfalso; lia|].
  cbn [fst]. rewrite (proj2 (ensureFollow_shape _ _)).
  destruct (Z.ltb_spec 0 (focusedPanel d));
    destruct (Z.eqb_spec (focusedPanel d) 0);
    try (exfalso; lia); cbn; apply int_pred; lia.
Qed.

Lemma select_length env input d :
  action input = actionSelectNext \/ action input = actionSelectPrev ->
  length (panels (handleInput Toggle env input d).1.1) = length (panels d).
Proof.
  intros [Ha|Ha]; unfold handleInput; rewrite Ha;
    (destruct (len (panels d) =? 0); [reflexivity|]);
    cbn [fst]; rewrite (proj1 (ensureFollow_shape _ _));
    destruct (_ <? _); reflexivity.
Qed.

Lemma select_empty env input d :
  action input = actionSelectNext \/ action input = actionSelectPrev ->
  panels d = [] -> handleInput Toggle env input d = (d, [], false).
Proof.
  intros [Ha|Ha] Hp; unfold handleInput; rewrite Ha, Hp; reflexivity.
Qed.

Lemma len_zero_nil {A} (l : list A) : len l = 0 <-> l = [].
Proof.
  unfold len. destruct l; cbn; split; intros H; try reflexivity;
    try discriminate; lia.
Qed.

Lemma select_focus_ok env input d :
  action input = actionSelectNext \/ action input = actionSelectPrev ->
  len (panels d) <= max_int -> focus_ok d ->
  focus_ok (handleInput Toggle env input d).1.1.
Proof.
  intros Ha Hmax [[H0 Hf]|Hf].
  - apply len_zero_nil in H0 as Hnil.
    rewrite select_empty by auto. left. split; assumption.
  - right. unfold len. rewrite select_length by auto. fold (len (panels d)).
    destruct Ha as [Ha|Ha].
    + rewrite selectNext_focus by assumption.
      destruct (Z.eqb_spec (focusedPanel d) (len (panels d) - 1)); lia.
    + rewrite selectPrev_focus by assumption.
      destruct (Z.eqb_spec (focusedPanel d) 0); lia.
Qed.

Lemma handleInput_focus_ok env input d :
  len (panels d) <= max_int -> focus_ok d ->
  focus_ok (handleInput Toggle env input d).1.1.
Proof.
  intros Hmax Hok.
  destruct (action input) eqn:Ha;
    try (apply select_focus_ok; auto; fail);
    unfold handleInput; rewrite Ha; cbn [fst].
  - exact Hok.
  - exact Hok.
  - exact Hok.
  - pose proof (stopFocusedPanel_shape (runnerIsRunning env) d) as Hs.
    destruct (stopFocusedPanel _ d) as [d' t]. cbn in *.
    eapply same_shape_focus_ok; eassumption.
  - apply closeFocusedPanel_focus_ok; assumption.
  - eapply same_shape_focus_ok; [apply scrollOutput_shape | assumption].
  - eapply same_shape_focus_ok; [apply scrollOutput_shape | assumption].
  - eapply same_shape_focus_ok; [apply scrollToTop_shape | assumption].
  - eapply same_shape_focus_ok; [apply scrollToBottom_shape | assumption].
  - eapply same_shape_focus_ok; [apply setFollow_shape | assumption].
Qed.

Lemma handleInput_len env input d :
  len (panels d) <= max_int -> focus_ok d ->
  len (panels (handleInput Toggle env input d).1.1) <= len (panels d).
Proof.
  intros Hmax Hok.
  destruct (action input) eqn:Ha;
    try (unfold handleInput; rewrite Ha; cbn [fst]; cbn; lia);
    try (unfold len; rewrite select_length by auto; lia).
  - unfold handleInput. rewrite Ha.
    pose proof (stopFocusedPanel_shape (runnerIsRunning env) d) as Hs.
    destruct (stopFocusedPanel _ d) as [d' t]. cbn in *.
    rewrite (same_shape_len _ _ Hs). lia.
  - unfold handleInput. rewrite Ha. cbn [fst].
    apply closeFocusedPanel_len_le; assumption.
  - unfold handleInput. rewrite Ha. cbn [fst].
    rewrite (same_shape_len _ _ (scrollOutput_shape _ _)). lia.
  - unfold handleInput. rewrite Ha. cbn [fst].
    rewrite (same_shape_len _ _ (scrollOutput_shape _ _)). lia.
  - unfold handleInput. rewrite Ha. cbn [fst].
    rewrite (same_shape_len _ _ (scrollToTop_shape _)). lia.
  - unfold handleInput. rewrite Ha. cbn [fst].
    rewrite (same_shape_len _ _ (scrollToBottom_shape _)). lia.
  - unfold handleInput. rewrite Ha. cbn [fst].
    rewrite (same_shape_len _ _ (setFollow_shape _ _)). lia.
Qed.

Lemma handleEvent_focus_ok env ev d :
  focus_ok d -> focus_ok (handleEvent parseClaudeOutput env ev d).
Proof.
  intros Hok. destruct ev; cbn; try exact Hok.
  - apply addAgentPanel_focus_ok, Hok.
  - eapply same_shape_focus_ok; [apply appendAgentOutput_shape | exact Hok].
  - eapply same_shape_focus_ok; [apply completeAgent_shape | exact Hok].
Qed.

Lemma refreshSize_shape env d : same_shape d (refreshSize env d).
Proof. split; reflexivity. Qed.

Lemma turn_focus_ok env src d :
  len (panels d) <= max_int -> focus_ok d ->
  focus_ok (turn Toggle parseClaudeOutput env src d).1.1.
Proof.
  intros Hmax Hok. destruct src; cbn.
  - destruct (Chan.recv (events d)) as [[ev q]|]; [|exact Hok]. cbn.
    eapply same_shape_focus_ok; [apply render_shape|].
    apply handleEvent_focus_ok. exact Hok.
  - destruct (Chan.recv (inputs d)) as [[input q]|]; [|exact Hok].
    pose proof (handleInput_focus_ok env input (set_inputs q d) Hmax Hok) as H.
    destruct (handleInput Toggle env input (set_inputs q d)) as [[d' t] quit].
    cbn in H. destruct quit; cbn; [exact H|].
    eapply same_shape_focus_ok; [apply render_shape | exact H].
  - eapply same_shape_focus_ok; [apply render_shape | exact Hok].
Qed.

Lemma apply_op_focus_ok env op d :
  len (panels d) <= max_int -> focus_ok d ->
  focus_ok (apply_op Toggle parseClaudeOutput env op d).
Proof.
  intros Hmax Hok. destruct op; cbn [apply_op].
  - apply handleEvent_focus_ok, Hok.
  - apply handleInput_focus_ok; assumption.
  - eapply same_shape_focus_ok; [apply render_shape | exact Hok].
  - apply turn_focus_ok; assumption.
  - eapply same_shape_focus_ok; [apply render_shape | exact Hok].
  - unfold Send. destruct (Chan.try_send _ _); exact Hok.
  - destruct (Chan.try_send _ _); exact Hok.
  - exact Hok.
  - exact Hok.
  - destruct err; exact Hok.
  - apply addAgentPanel_focus_ok, Hok.
  - eapply same_shape_focus_ok; [apply CancelAllAgents_shape | exact Hok].
Qed.

(** Every dashboard that can exist has its focus in order and a panel count
    that is an [int]. *)
Lemma reachable_inv d :
  reachable Toggle parseClaudeOutput d ->
  focus_ok d /\ len (panels d) <= max_int.
Proof.
  induction 1 as [criteria mode mu su | env op d Hr [Hok Hmax] Hlen].
  - split; [left; split; reflexivity | vm_compute; discriminate].
  - split; [apply apply_op_focus_ok; assumption | exact Hlen].
Qed.

(** C4. In every dashboard reached from a new one (no panels, focus [-1])
    by any sequence of domain events, input actions, loop turns and calls
    of the exported methods, the focused index is an index into the panels
    or [-1], and it is [-1] exactly when there are no panels. *)
Theorem focus_always_valid d :
  reachable Toggle parseClaudeOutput d ->
  (0 <= focusedPanel d < len (panels d) \/ focusedPanel d = -1) /\
  (focusedPanel d = -1 <-> panels d = []).
Proof.
  intros Hr. destruct (reachable_inv d Hr) as [[[H0 Hf]|Hf] _].
  - split; [right; exact Hf|]. rewrite <- len_zero_nil. tauto.
  - split; [left; exact Hf|]. rewrite <- len_zero_nil. lia.
Qed.

(** C5. The close action takes the focused panel out of the list. Closing
    the only panel leaves no panel and focus [-1]; closing a focused panel
    that is not the last keeps the focused index, which now holds the panel
    that came next; closing the last of two or more panels moves the focus
    to the new last index. *)
Theorem close_moves_focus env input d :
  action input = actionClose ->
  len (panels d) <= max_int -> 0 <= focusedPanel d < len (panels d) ->
  let i := Z.to_nat (focusedPanel d) in
  let d' := (handleInput Toggle env input d).1.1 in
  d' = closeFocusedPanel d /\
  panels d' = take i (panels d) ++ drop (S i) (panels d) /\
  (len (panels d) = 1 -> focusedPanel d' = -1 /\ panels d' = []) /\
  (focusedPanel d < len (panels d) - 1 ->
     focusedPanel d' = focusedPanel d /\ panels d' !! i = panels d !! S i) /\
  (1 < len (panels d) -> focusedPanel d = len (panels d) - 1 ->
     focusedPanel d' = len (panels d') - 1 /\
     focusedPanel d' = focusedPanel d - 1).
Proof.
  intros Ha Hmax Hf i d'.
  assert (Hd : d' = closeFocusedPanel d).
  { subst d'. unfold handleInput. rewrite Ha. reflexivity. }
  rewrite Hd. clear Hd d'.
  pose proof (closeFocusedPanel_panels d Hmax Hf) as Hps.
  pose proof (closeFocusedPanel_focus d Hmax Hf) as Hfoc.
  pose proof (closeFocusedPanel_len d Hmax Hf) as Hlen.
  fold i in Hps. split; [reflexivity|]. split; [exact Hps|]. repeat split.
  - rewrite Hfoc. destruct (Z.eqb_spec (len (panels d)) 1); [reflexivity|lia].
  - apply len_zero_nil. lia.
  - rewrite Hfoc. destruct (Z.eqb_spec (len (panels d)) 1); [exfalso; lia|].
    destruct (Z.eqb_spec (focusedPanel d) (len (panels d) - 1));
      [exfalso; lia | reflexivity].
  - rewrite Hps. unfold len in *.
    rewrite lookup_app_r by (rewrite length_take; lia).
    rewrite lookup_drop, length_take. f_equal. lia.
  - rewrite Hfoc, Hlen. destruct (Z.eqb_spec (len (panels d)) 1); [exfalso; lia|].
    destruct (Z.eqb_spec (focusedPanel d) (len (panels d) - 1)); lia.
  - rewrite Hfoc. destruct (Z.eqb_spec (len (panels d)) 1); [exfalso; lia|].
    destruct (Z.eqb_spec (focusedPanel d) (len (panels d) - 1)); lia.
Qed.

(** *** Focus cycling *)

Lemma ensureFollow_in_range i d :
  0 <= i < len (panels d) ->
  ensureFollow i d =
    update_panel i (rescroll (outputViewHeight d) true ScrollPos) d.
Proof.
  intros Hi. unfold ensureFollow, out_of_range.
  destruct (Z.ltb_spec i 0); [lia|].
  destruct (Z.leb_spec (len (panels d)) i); [lia|]. reflexivity.
Qed.

Lemma select_unfold env input d :
  action input = actionSelectNext \/ action input = actionSelectPrev ->
  len (panels d) <= max_int -> 0 <= focusedPanel d < len (panels d) ->
  exists f, 0 <= f < len (panels d) /\
    (handleInput Toggle env input d).1.1 = ensureFollow f (set_focusedPanel f d).
Proof.
  intros Ha Hmax Hf.
  destruct Ha as [Ha|Ha]; unfold handleInput; rewrite Ha;
    (destruct (Z.eqb_spec (len (panels d)) 0); [exfalso; lia|]); cbn [fst].
  - rewrite int_pred by lia.
    destruct (Z.ltb_spec (focusedPanel d) (len (panels d) - 1)).
    + exists (add (focusedPanel d) 1). split; [|reflexivity].
      rewrite int_succ; lia.
    + exists 0. split; [lia | reflexivity].
  - destruct (Z.ltb_spec 0 (focusedPanel d)).
    + exists (sub (focusedPanel d) 1). split; [|reflexivity].
      rewrite int_pred; lia.
    + exists (sub (len (panels d)) 1). split; [|reflexivity].
      rewrite int_pred; lia.
Qed.

Lemma select_panels env input d :
  action input = actionSelectNext \/ action input = actionSelectPrev ->
  len (panels d) <= max_int -> 0 <= focusedPanel d < len (panels d) ->
  let d' := (handleInput Toggle env input d).1.1 in
  panels d' = alter (rescroll (outputViewHeight d) true ScrollPos)
                (Z.to_nat (focusedPanel d')) (panels d) /\
  outputViewHeight d' = outputViewHeight d /\
  0 <= focusedPanel d' < len (panels d').
Proof.
  intros Ha Hmax Hf d'. subst d'.
  destruct (select_unfold env input d Ha Hmax Hf) as (f & Hr & ->).
  rewrite ensureFollow_in_range by exact Hr.
  cbn. split; [reflexivity|]. split; [reflexivity|].
  unfold len in *. rewrite length_alter. exact Hr.
Qed.

(** C6. With no panel, select-next and select-prev change nothing (a focus
    of [-1] stays [-1]). With panels and the focus on one of them,
    select-next moves the focus one up and from the last index to [0],
    select-prev moves it one down and from [0] to the last index; the panel
    the focus lands on gets [Follow] set and its scroll position put at the
    bottom, [max 0 (len Output - viewHeight)]; no other panel changes. *)
Theorem select_cycles env input d :
  action input = actionSelectNext \/ action input = actionSelectPrev ->
  len (panels d) <= max_int ->
  (forall p, p ∈ panels d -> len (Output p) <= max_int) ->
  let r := handleInput Toggle env input d in
  let d' := r.1.1 in
  (panels d = [] ->
     r = (d, [], false) /\ (focusedPanel d = -1 -> focusedPanel d' = -1)) /\
  (0 <= focusedPanel d < len (panels d) ->
     (action input = actionSelectNext ->
        (focusedPanel d = len (panels d) - 1 -> focusedPanel d' = 0) /\
        (focusedPanel d < len (panels d) - 1 ->
           focusedPanel d' = focusedPanel d + 1)) /\
     (action input = actionSelectPrev ->
        (focusedPanel d = 0 -> focusedPanel d' = len (panels d) - 1) /\
        (0 < focusedPanel d -> focusedPanel d' = focusedPanel d - 1)) /\
     0 <= focusedPanel d' < len (panels d') /\
     len (panels d') = len (panels d) /\
     (exists p p',
        panels d !! Z.to_nat (focusedPanel d') = Some p /\
        panels d' !! Z.to_nat (focusedPanel d') = Some p' /\
        Follow p' = true /\
        ScrollPos p' = Z.max 0 (len (Output p') - outputViewHeight d') /\
        ScrollPos p' =
          clampScroll (len (Output p')) (outputViewHeight d') (ScrollPos p) true /\
        Output p' = Output p /\ TaskID p' = TaskID p /\ ID p' = ID p /\
        Stopping p' = Stopping p /\ Runner p' = Runner p) /\
     (forall j, j <> Z.to_nat (focusedPanel d') ->
        panels d' !! j = panels d !! j)).
Proof.
  intros Ha Hmax Hout r d'. split.
  - intros Hnil. subst d' r. rewrite select_empty by assumption.
    split; [reflexivity | auto].
  - intros Hf.
    destruct (select_panels env input d Ha Hmax Hf) as (Hps & Hvh & Hr).
    fold r in Hps, Hvh, Hr. fold d' in Hps, Hvh, Hr.
    assert (Hlen : len (panels d') = len (panels d))
      by (rewrite Hps; unfold len; now rewrite length_alter).
    split; [|split; [|split; [exact Hr|split; [exact Hlen|split]]]].
    + intros Hn. subst d' r. rewrite selectNext_focus by assumption.
      destruct (Z.eqb_spec (focusedPanel d) (len (panels d) - 1)); split; lia.
    + intros Hn. subst d' r. rewrite selectPrev_focus by assumption.
      destruct (Z.eqb_spec (focusedPanel d) 0); split; lia.
    + destruct (lookup_lt_is_Some_2 (panels d) (Z.to_nat (focusedPanel d')))
        as [p Hp]; [unfold len in *; lia|].
      exists p, (rescroll (outputViewHeight d) true ScrollPos p).
      split; [exact Hp|]. split.
      { rewrite Hps, list_lookup_alter_eq, Hp. reflexivity. }
      rewrite Hvh. cbn.
      rewrite clampScroll_bottom; [tauto|].
      split; [apply len_nonneg|]. apply Hout. eapply list_elem_of_lookup_2, Hp.
    + intros j Hj. rewrite Hps. apply list_lookup_alter_ne. congruence.
Qed.

(** *** Stopping *)

Lemma calls_for_app j (t1 t2 : list Call) :
  calls_for j (t1 ++ t2) = (calls_for j t1 + calls_for j t2)%nat.
Proof. unfold calls_for. now rewrite List.filter_app, length_app. Qed.

Lemma calls_for_le j (t : list Call) : (calls_for j t <= length t)%nat.
Proof. unfold calls_for. apply List.filter_length_le. Qed.

(** One pass over a panel makes at most one call, for that panel, and
    leaves the flag set when it makes one. *)
Lemma cancelPanel_calls running i p j :
  calls_for j (cancelPanel running i p).2 =
    if (cancelPanel running i p).2 is [] then 0%nat
    else if Nat.eqb j i then 1%nat else 0%nat.
Proof.
  unfold cancelPanel. destruct (Runner p); [|reflexivity].
  destruct (_ && _); [|reflexivity].
  unfold calls_for. cbn. destruct (Nat.eqb j i); reflexivity.
Qed.

Lemma cancelPanel_flag running i p :
  (cancelPanel running i p).2 <> [] ->
  Stopping (cancelPanel running i p).1 = true.
Proof.
  unfold cancelPanel. destruct (Runner p); [|intros []; reflexivity].
  destruct (_ && _); [reflexivity | intros []; reflexivity].
Qed.

(** A panel whose flag is set is passed over. *)
Lemma cancelPanel_flagged running i p :
  Stopping p = true -> cancelPanel running i p = (p, []).
Proof.
  intros Hs. unfold cancelPanel. rewrite Hs. destruct (Runner p); [|reflexivity].
  now rewrite andb_false_r.
Qed.

Lemma cancelPanel_quiet running i p :
  (cancelPanel running i p).2 = [] -> (cancelPanel running i p).1 = p.
Proof.
  unfold cancelPanel. destruct (Runner p); [|reflexivity].
  destruct (_ && _); [discriminate | reflexivity].
Qed.

(** Two passes over the same panel make at most one call between them,
    whatever the runners answer. *)
Lemma cancelPanel_twice running1 running2 i i' p j :
  (calls_for j (cancelPanel running1 i p).2 +
   calls_for j (cancelPanel running2 i' (cancelPanel running1 i p).1).2 <= 1)%nat.
Proof.
  destruct ((cancelPanel running1 i p).2) as [|c t] eqn:Ht.
  - rewrite (cancelPanel_quiet _ _ _ Ht).
    rewrite cancelPanel_calls. cbn.
    destruct (cancelPanel running2 i' p).2; [lia|]. destruct (Nat.eqb j i'); lia.
  - rewrite (cancelPanel_flagged running2 i').
    + rewrite <- Ht, cancelPanel_calls, Ht. cbn. destruct (Nat.eqb j i); lia.
    + apply cancelPanel_flag. rewrite Ht. discriminate.
Qed.

(** [stopFocusedPanel] is the pass over the focused panel. *)
Lemma stopFocusedPanel_cancelPanel running d panel :
  0 <= focusedPanel d < len (panels d) ->
  panels d !! Z.to_nat (focusedPanel d) = Some panel ->
  let i := Z.to_nat (focusedPanel d) in
  panels (stopFocusedPanel running d).1 =
    <[i := (cancelPanel running i panel).1]> (panels d) /\
  (stopFocusedPanel running d).2 = (cancelPanel running i panel).2.
Proof.
  intros Hf Hp. cbv zeta. unfold stopFocusedPanel, out_of_range, cancelPanel.
  destruct (Z.ltb_spec (focusedPanel d) 0); [lia|].
  destruct (Z.leb_spec (len (panels d)) (focusedPanel d)); [lia|].
  cbn [orb]. rewrite Hp.
  destruct (Runner panel);
    [destruct (_ && _)|]; cbn; split; try reflexivity;
    try (symmetry; apply list_insert_id; exact Hp).
  apply list_eq. intros k.
  destruct (decide (k = Z.to_nat (focusedPanel d))) as [->|Hk].
  - rewrite list_lookup_alter_eq, Hp, list_lookup_insert_eq; [reflexivity|].
    eapply lookup_lt_Some, Hp.
  - rewrite list_lookup_alter_ne, list_lookup_insert_ne by congruence.
    reflexivity.
Qed.

Lemma stopFocusedPanel_outside running d :
  ~ (0 <= focusedPanel d < len (panels d)) ->
  stopFocusedPanel running d = (d, []).
Proof.
  intros Hf. unfold stopFocusedPanel, out_of_range.
  destruct (Z.ltb_spec (focusedPanel d) 0); [reflexivity|].
  destruct (Z.leb_spec (len (panels d)) (focusedPanel d)); [reflexivity|lia].
Qed.

(** A second stop on a flagged panel does nothing at all. *)
Lemma stopFocusedPanel_flagged running d panel :
  panels d !! Z.to_nat (focusedPanel d) = Some panel ->
  Stopping panel = true ->
  stopFocusedPanel running d = (d, []).
Proof.
  intros Hp Hs. unfold stopFocusedPanel.
  destruct (out_of_range _ _); [reflexivity|]. rewrite Hp, Hs.
  destruct (Runner panel); [|reflexivity]. now rewrite andb_false_r.
Qed.

(** The sweep is the pass over every panel, each at its position. *)
Lemma CancelAllAgents_loop_lookup running k ps n :
  (CancelAllAgents_loop running k ps).1 !! n =
    (fun p => (cancelPanel (running (k + n)%nat) (k + n)%nat p).1) <$> ps !! n.
Proof.
  revert k n. induction ps as [|p rest IH]; intros k n; [reflexivity|].
  cbn. specialize (IH (S k)).
  destruct (CancelAllAgents_loop running (S k) rest) as [rest' cs].
  destruct (cancelPanel (running k) k p) as [p' c] eqn:Hc. cbn in *.
  destruct n as [|n]; cbn.
  - rewrite Nat.add_0_r, Hc. reflexivity.
  - rewrite IH. replace (k + S n)%nat with (S (k + n)) by lia. reflexivity.
Qed.

Lemma CancelAllAgents_loop_calls running k ps j :
  calls_for j (CancelAllAgents_loop running k ps).2 =
    if decide (k <= j)%nat then
      match ps !! (j - k)%nat with
      | Some p => calls_for j (cancelPanel (running j) j p).2
      | None => 0%nat
      end
    else 0%nat.
Proof.
  revert k. induction ps as [|p rest IH]; intros k.
  - cbn. destruct (decide _); reflexivity.
  - cbn [CancelAllAgents_loop]. specialize (IH (S k)).
    destruct (CancelAllAgents_loop running (S k) rest) as [rest' cs].
    destruct (cancelPanel (running k) k p) as [p' c] eqn:Hc.
    cbn [snd] in *. rewrite calls_for_app, IH.
    assert (Hck : calls_for j c = if Nat.eqb j k then calls_for j c else 0%nat).
    { replace c with (cancelPanel (running k) k p).2 by now rewrite Hc.
      rewrite cancelPanel_calls. destruct (cancelPanel _ _ _).2; [|];
        destruct (Nat.eqb j k); reflexivity. }
    rewrite Hck. clear Hck.
    destruct (Nat.eqb_spec j k) as [->|Hjk].
    + rewrite decide_False by lia. rewrite decide_True by lia.
      rewrite Nat.sub_diag. change ((p :: rest) !! 0%nat) with (Some p).
      cbv beta iota. rewrite Hc. cbn [snd]. apply Nat.add_0_r.
    + destruct (decide (S k <= j)%nat).
      * rewrite decide_True by lia.
        replace (j - k)%nat with (S (j - S k)) by lia.
        change ((p :: rest) !! S (j - S k)) with (rest !! (j - S k)%nat).
        reflexivity.
      * destruct (decide (k <= j)%nat); [lia | reflexivity].
Qed.

Lemma cancelPanel_length running i p :
  length (cancelPanel running i p).2 = calls_for i (cancelPanel running i p).2.
Proof.
  rewrite cancelPanel_calls, Nat.eqb_refl.
  unfold cancelPanel. destruct (Runner p); [|reflexivity].
  destruct (_ && _); reflexivity.
Qed.

Lemma cancelPanel_calls_le running i p j :
  (calls_for j (cancelPanel running i p).2 <= 1)%nat.
Proof.
  rewrite cancelPanel_calls. destruct (cancelPanel running i p).2; [lia|].
  destruct (Nat.eqb j i); lia.
Qed.

Lemma cancelPanel_calls_other running i p j :
  j <> i -> calls_for j (cancelPanel running i p).2 = 0%nat.
Proof.
  intros Hj. rewrite cancelPanel_calls. destruct (cancelPanel running i p).2;
    [reflexivity|]. destruct (Nat.eqb_spec j i); [contradiction | reflexivity].
Qed.

Lemma CancelAllAgents_calls running d j :
  calls_for j (CancelAllAgents running d).2 =
    match panels d !! j with
    | Some p => calls_for j (cancelPanel (running j) j p).2
    | None => 0%nat
    end.
Proof.
  unfold CancelAllAgents.
  pose proof (CancelAllAgents_loop_calls running 0 (panels d) j) as H.
  destruct (CancelAllAgents_loop running 0 (panels d)) as [ps t]. cbn [snd] in *.
  rewrite H, decide_True by lia. now rewrite Nat.sub_0_r.
Qed.

Lemma CancelAllAgents_lookup running d j :
  panels (CancelAllAgents running d).1 !! j =
    (fun p => (cancelPanel (running j) j p).1) <$> panels d !! j.
Proof.
  unfold CancelAllAgents.
  pose proof (CancelAllAgents_loop_lookup running 0 (panels d) j) as H.
  destruct (CancelAllAgents_loop running 0 (panels d)) as [ps t]. exact H.
Qed.

(** Two sweeps in a row: at most one call for each panel. *)
Lemma CancelAllAgents_twice sweep sweep' d j :
  (calls_for j (CancelAllAgents sweep d).2 +
   calls_for j (CancelAllAgents sweep' (CancelAllAgents sweep d).1).2 <= 1)%nat.
Proof.
  rewrite !CancelAllAgents_calls, CancelAllAgents_lookup.
  destruct (panels d !! j) as [p|]; cbn; [|lia]. apply cancelPanel_twice.
Qed.

(** What a stop leaves behind, in terms of the pass over the focused
    panel; [None] when the focus is on no panel and the stop does nothing. *)
Lemma stopFocusedPanel_spec running d :
  (stopFocusedPanel running d = (d, []) /\
   panels d !! Z.to_nat (focusedPanel d) = None) \/
  (exists panel,
     panels d !! Z.to_nat (focusedPanel d) = Some panel /\
     focusedPanel (stopFocusedPanel running d).1 = focusedPanel d /\
     panels (stopFocusedPanel running d).1 =
       <[Z.to_nat (focusedPanel d) :=
           (cancelPanel running (Z.to_nat (focusedPanel d)) panel).1]> (panels d) /\
     (stopFocusedPanel running d).2 =
       (cancelPanel running (Z.to_nat (focusedPanel d)) panel).2) \/
  (stopFocusedPanel running d = (d, []) /\ focusedPanel d < 0).
Proof.
  destruct (Z.ltb_spec (focusedPanel d) 0) as [Hneg|Hpos].
  { right. right. split; [|exact Hneg].
    apply stopFocusedPanel_outside. lia. }
  destruct (Z.leb_spec (len (panels d)) (focusedPanel d)) as [Hge|Hlt].
  - left. split; [apply stopFocusedPanel_outside; lia|].
    apply lookup_ge_None. unfold len in Hge. lia.
  - right. left.
    destruct (lookup_lt_is_Some_2 (panels d) (Z.to_nat (focusedPanel d)))
      as [panel Hp]; [unfold len in Hlt; lia|].
    exists panel. split; [exact Hp|].
    split; [apply (proj2 (stopFocusedPanel_shape running d))|].
    apply stopFocusedPanel_cancelPanel; [lia | exact Hp].
Qed.

(** C7. Stop twice, stop and then sweep, or sweep twice: whatever the
    runners answer to [IsRunning] in between, every panel gets at most one
    [Runner.Cancel] (and two stops make at most one call in all). When the
    first stop makes its call it sets the panel's [Stopping] flag; a second
    stop then returns the dashboard as it is, and a sweep leaves that panel
    as it is, both without a call for it. *)
Theorem stop_is_idempotent
  (running1 running2 : agent.Runner -> bool)
  (sweep sweep' : nat -> agent.Runner -> bool) d (j : nat) :
  let s1 := stopFocusedPanel running1 d in
  let s2 := stopFocusedPanel running2 s1.1 in
  let c := CancelAllAgents sweep s1.1 in
  let c1 := CancelAllAgents sweep d in
  let c2 := CancelAllAgents sweep' c1.1 in
  (calls_for j (s1.2 ++ s2.2) <= 1)%nat /\
  (length (s1.2 ++ s2.2) <= 1)%nat /\
  (calls_for j (s1.2 ++ c.2) <= 1)%nat /\
  (calls_for j (c1.2 ++ c2.2) <= 1)%nat /\
  (s1.2 <> [] ->
     exists panel,
       panels s1.1 !! Z.to_nat (focusedPanel d) = Some panel /\
       Stopping panel = true /\
       s2 = (s1.1, []) /\
       panels c.1 !! Z.to_nat (focusedPanel d) = Some panel /\
       calls_for (Z.to_nat (focusedPanel d)) c.2 = 0%nat).
Proof.
  intros s1 s2 c c1 c2.
  assert (Hsweep : forall dd : Dashboard, (calls_for j (CancelAllAgents sweep dd).2 <= 1)%nat).
  { intros dd. rewrite CancelAllAgents_calls.
    destruct (panels dd !! j); [apply cancelPanel_calls_le | lia]. }
  assert (Hcc : (calls_for j (c1.2 ++ c2.2) <= 1)%nat).
  { rewrite calls_for_app. apply CancelAllAgents_twice. }
  destruct (decide (0 <= focusedPanel d < len (panels d))) as [Hin|Hout].
  2:{ (* the focus is on no panel *)
    assert (E1 : s1 = (d, [])) by (apply stopFocusedPanel_outside, Hout).
    assert (E2 : s2 = (d, []))
      by (subst s2; rewrite E1; apply stopFocusedPanel_outside, Hout).
    subst c. rewrite E1, E2. cbn [fst snd app].
    split; [cbn; lia|]. split; [cbn; lia|]. split; [apply Hsweep|].
    split; [exact Hcc|]. intros []. reflexivity. }
  destruct (stopFocusedPanel_spec running1 d)
    as [[_ Hn]|[(panel & Hp & Hfoc & Hps & Ht)|[_ Hn]]].
  - apply lookup_ge_None in Hn. unfold len in Hin. lia.
  - (* focus on [panel] *)
    fold s1 in Hfoc, Hps, Ht.
    set (i := Z.to_nat (focusedPanel d)) in *.
    set (p1 := (cancelPanel running1 i panel).1) in *.
    assert (Hi : (i < length (panels d))%nat) by (eapply lookup_lt_Some, Hp).
    assert (Hp1 : panels s1.1 !! i = Some p1)
      by (rewrite Hps; apply list_lookup_insert_eq, Hi).
    assert (Hs2 : s2.2 = (cancelPanel running2 i p1).2).
    { destruct (stopFocusedPanel_spec running2 s1.1)
        as [[_ Hn]|[(q & Hq & _ & _ & Htq)|[_ Hn]]].
      - rewrite Hfoc in Hn. fold i in Hn. congruence.
      - rewrite Hfoc in Hq, Htq. fold i in Hq, Htq.
        rewrite Hp1 in Hq. injection Hq as <-. exact Htq.
      - rewrite Hfoc in Hn. unfold i in Hi. lia. }
    assert (Hc : calls_for j c.2 =
                 match panels s1.1 !! j with
                 | Some p => calls_for j (cancelPanel (sweep j) j p).2
                 | None => 0%nat
                 end) by apply CancelAllAgents_calls.
    split; [|split; [|split; [|split; [exact Hcc|]]]].
    + rewrite calls_for_app, Ht, Hs2. apply cancelPanel_twice.
    + rewrite length_app, Ht, Hs2, !cancelPanel_length.
      apply cancelPanel_twice.
    + rewrite calls_for_app, Hc, Ht.
      destruct (decide (j = i)) as [->|Hj].
      * rewrite Hp1. apply cancelPanel_twice.
      * rewrite cancelPanel_calls_other by exact Hj.
        destruct (panels s1.1 !! j); [apply cancelPanel_calls_le | lia].
    + intros Hne. rewrite Ht in Hne.
      pose proof (cancelPanel_flag _ _ _ Hne) as Hflag. fold p1 in Hflag.
      exists p1. split; [exact Hp1|]. split; [exact Hflag|]. split.
      { subst s2. eapply stopFocusedPanel_flagged; [|exact Hflag].
        rewrite Hfoc. exact Hp1. }
      split.
      { subst c. rewrite CancelAllAgents_lookup, Hp1. cbn.
        now rewrite cancelPanel_flagged. }
      subst c. rewrite CancelAllAgents_calls, Hp1.
      now rewrite cancelPanel_flagged.
  - lia.
Qed.

Lemma handleInput_stop env input d :
  action input = actionStop ->
  handleInput Toggle env input d =
    ((stopFocusedPanel (runnerIsRunning env) d).1,
     (stopFocusedPanel (runnerIsRunning env) d).2, false).
Proof.
  intros Ha. unfold handleInput. rewrite Ha.
  destruct (stopFocusedPanel _ d). reflexivity.
Qed.

(** *** The event queue *)

(** C9. [Send] either puts the event at the end of the event queue and
    returns [nil], or, when the queue is full, returns an error and leaves
    the dashboard as it was; nothing else of the dashboard changes. *)
Theorem Send_reports_full_queue (ev : Event) d :
  (Chan.full (events d) = false ->
     Send ev d =
       (set_events (Chan.Make (Chan.buf (events d) ++ [ev])
                              (Chan.cap (events d))) d, None)) /\
  (Chan.full (events d) = true ->
     Send ev d =
       (d, Some (GoError.errors_New "dashboard event queue is full"))) /\
  ((Send ev d).2 = None /\
   Chan.buf (events (Send ev d).1) = Chan.buf (events d) ++ [ev] \/
   (Send ev d).2 <> None /\ (Send ev d).1 = d).
Proof.
  unfold Send, Chan.try_send. destruct (Chan.full (events d)); cbn.
  - split; [discriminate|]. split; [reflexivity|].
    right. split; [discriminate | reflexivity].
  - split; [reflexivity|]. split; [discriminate|]. left. split; reflexivity.
Qed.

(** *** Agent output *)

Lemma appendAgentOutput_loop_unknown vh taskID line ps :
  (forall q, q ∈ ps -> TaskID q <> taskID) ->
  appendAgentOutput_loop parseClaudeOutput vh taskID line ps = ps.
Proof.
  induction ps as [|panel rest IH]; intros Hq; [reflexivity|]. cbn.
  destruct (String.eqb_spec (TaskID panel) taskID) as [He|_].
  - exfalso. apply (Hq panel); [left | exact He].
  - cbn. f_equal. apply IH. intros q Hin. apply Hq. now right.
Qed.

Lemma appendAgentOutput_loop_owner vh taskID line pre panel post :
  (forall q, q ∈ pre -> TaskID q <> taskID) -> TaskID panel = taskID ->
  appendAgentOutput_loop parseClaudeOutput vh taskID line (pre ++ panel :: post) =
    if String.eqb (parseClaudeOutput (agent.Text line)) ""
    then pre ++ panel :: post
    else pre ++ appendLine vh (parseClaudeOutput (agent.Text line)) line panel
                :: post.
Proof.
  intros Hpre Hown. induction pre as [|q pre IH]; cbn.
  - destruct (String.eqb_spec (TaskID panel) taskID); [|contradiction]. cbn.
    destruct (String.eqb _ ""); reflexivity.
  - destruct (String.eqb_spec (TaskID q) taskID) as [He|_].
    + exfalso. apply (Hpre q); [left | exact He].
    + cbn. rewrite IH by (intros q' Hin; apply Hpre; now right).
      destruct (String.eqb _ ""); reflexivity.
Qed.

Lemma appendLine_fields vh parsed line panel :
  let panel' := appendLine vh parsed line panel in
  Output panel' =
    Output panel ++ [{| agent.Text := parsed;
                        agent.IsStderr := agent.IsStderr line;
                        agent.Timestamp := agent.Timestamp line |}] /\
  ScrollPos panel' =
    (if Follow panel
     then clampScroll (len (Output panel) + 1) vh (ScrollPos panel) true
     else ScrollPos panel) /\
  Follow panel' = Follow panel /\ TaskID panel' = TaskID panel /\
  ID panel' = ID panel /\ Runner panel' = Runner panel /\
  Stopping panel' = Stopping panel /\ Result panel' = Result panel.
Proof.
  unfold appendLine. cbn. destruct (Follow panel) eqn:Hfol; cbn; rewrite ?Hfol;
    repeat split.
  unfold len. rewrite length_app. cbn. f_equal. lia.
Qed.

(** C10. An [AgentOutput] event goes to the first panel of its task. The
    text that reaches the panel is what [parseClaudeOutput] makes of the
    line's text. When that is empty, the dashboard is left exactly as it was
    (no panel's output or scroll position changes). Otherwise that panel's
    output grows by one line that carries the parsed text (so not the line
    as received, whenever the parser changes the text), its scroll position
    is put at the bottom if it follows, and nothing else changes. An event
    for a task that no panel has leaves the dashboard as it was. *)
Theorem AgentOutput_goes_through_parser env taskID line d :
  let d' := handleEvent parseClaudeOutput env (AgentOutput taskID line) d in
  let parsed := parseClaudeOutput (agent.Text line) in
  ((forall q, q ∈ panels d -> TaskID q <> taskID) -> d' = d) /\
  (forall i panel,
     panels d !! i = Some panel -> TaskID panel = taskID ->
     (forall j q, (j < i)%nat -> panels d !! j = Some q -> TaskID q <> taskID) ->
     (parsed = EmptyString -> d' = d) /\
     (parsed <> EmptyString ->
        exists panel',
          d' = set_panels (<[i := panel']> (panels d)) d /\
          Output panel' =
            Output panel ++ [{| agent.Text := parsed;
                                agent.IsStderr := agent.IsStderr line;
                                agent.Timestamp := agent.Timestamp line |}] /\
          (parsed <> agent.Text line -> last (Output panel') <> Some line) /\
          ScrollPos panel' =
            (if Follow panel
             then clampScroll (len (Output panel) + 1) (outputViewHeight d)
                    (ScrollPos panel) true
             else ScrollPos panel) /\
          Follow panel' = Follow panel /\ TaskID panel' = TaskID panel)).
Proof.
  intros d' parsed. subst d'. cbn [handleEvent]. unfold appendAgentOutput. split.
  - intros Hq. rewrite appendAgentOutput_loop_unknown by exact Hq.
    apply set_panels_id.
  - intros i panel Hp Hown Hfirst.
    assert (Hpre : forall q, q ∈ take i (panels d) -> TaskID q <> taskID).
    { intros q Hin. apply list_elem_of_lookup in Hin as [j Hj].
      apply lookup_take_Some in Hj as [Hj Hlt]. eapply Hfirst; eassumption. }
    pose proof (appendAgentOutput_loop_owner (outputViewHeight d) taskID line
                  (take i (panels d)) panel (drop (S i) (panels d)) Hpre Hown)
      as Hloop.
    rewrite take_drop_middle in Hloop by exact Hp.
    rewrite <- insert_take_drop in Hloop by (eapply lookup_lt_Some, Hp).
    rewrite Hloop. fold parsed.
    destruct (String.eqb_spec parsed "") as [He|Hne].
    + split; [|contradiction]. intros _. apply set_panels_id.
    + split; [contradiction|]. intros _.
      exists (appendLine (outputViewHeight d) parsed line panel).
      split; [reflexivity|].
      destruct (appendLine_fields (outputViewHeight d) parsed line panel)
        as (Hout & Hscroll & Hfol & Htask & _).
      split; [exact Hout|]. split; [|tauto].
      intros Hchg. rewrite Hout, last_snoc. intros [= Heq].
      apply Hchg. rewrite <- Heq. reflexivity.
Qed.

End Dashboard.

(** *** The theorems at work on concrete dashboards *)

Import Fixtures.

Example fixtures_shape :
  focusedPanel empty = -1 /\ panels empty = [] /\
  focusedPanel three_panels = 0 /\ len (panels three_panels) = 3 /\
  List.map ID (panels three_panels) = ["agent-1"; "agent-2"; "agent-3"]%string /\
  outputViewHeight three_panels = 13 /\
  length (Chan.buf (events full_queue)) = 200%nat.
Proof. vm_compute. repeat split. Qed.

Lemma three_panels_reachable : reachable toggle parse three_panels.
Proof.
  unfold three_panels, two_panels, one_panel, op.
  apply reachable_step; [|vm_compute; discriminate].
  apply reachable_step; [|vm_compute; discriminate].
  apply reachable_step; [|vm_compute; discriminate].
  apply reachable_step; [|vm_compute; discriminate].
  apply reachable_new.
Defined.

Lemma focus_always_valid_witness :
  (0 <= focusedPanel three_panels < len (panels three_panels) \/
   focusedPanel three_panels = -1) /\
  (focusedPanel three_panels = -1 <-> panels three_panels = []).
Proof.
  apply (focus_always_valid toggle parse three_panels).
  exact three_panels_reachable.
Defined.

Lemma close_moves_focus_witness :
  focusedPanel (handleInput toggle env0 (key actionClose) three_panels).1.1 = 0 /\
  List.map TaskID (panels (handleInput toggle env0 (key actionClose) three_panels).1.1)
    = ["T2"; "T3"]%string.
Proof.
  assert (Hmax : len (panels three_panels) <= max_int)
    by (vm_compute; discriminate).
  assert (Hf : 0 <= focusedPanel three_panels < len (panels three_panels))
    by (vm_compute; split; [discriminate | reflexivity]).
  destruct (close_moves_focus toggle env0 (key actionClose) three_panels
              eq_refl Hmax Hf) as (_ & Hps & _ & Hmid & _).
  split.
  - rewrite (proj1 (Hmid ltac:(vm_compute; reflexivity))). reflexivity.
  - rewrite Hps. reflexivity.
Defined.

Lemma three_panels_outputs :
  forall p, p ∈ panels three_panels -> len (Output p) <= max_int.
Proof.
  intros p Hp. apply list_elem_of_In in Hp. vm_compute in Hp.
  destruct Hp as [<-|[<-|[<-|[]]]]; vm_compute; discriminate.
Defined.

Lemma select_cycles_witness :
  focusedPanel (handleInput toggle env0 (key actionSelectPrev) three_panels).1.1
    = 2.
Proof.
  assert (Hmax : len (panels three_panels) <= max_int)
    by (vm_compute; discriminate).
  assert (Hf : 0 <= focusedPanel three_panels < len (panels three_panels))
    by (vm_compute; split; [discriminate | reflexivity]).
  destruct (select_cycles toggle env0 (key actionSelectPrev) three_panels
              (or_intror eq_refl) Hmax three_panels_outputs) as [_ H].
  destruct (H Hf) as (_ & Hprev & _).
  destruct (Hprev eq_refl) as [Hwrap _].
  rewrite (Hwrap eq_refl). reflexivity.
Defined.

Lemma stop_is_idempotent_witness :
  let s1 := stopFocusedPanel (fun _ => true) two_panels in
  s1.2 = [RunnerCancel 0 1%nat] /\
  stopFocusedPanel (fun _ => true) s1.1 = (s1.1, []) /\
  calls_for 0 (CancelAllAgents (fun _ _ => true) s1.1).2 = 0%nat.
Proof.
  intros s1.
  destruct (stop_is_idempotent (fun _ => true) (fun _ => true)
              (fun _ _ => true) (fun _ _ => true) two_panels 0)
    as (_ & _ & _ & _ & H).
  fold s1 in H.
  assert (Hne : s1.2 <> []) by (vm_compute; discriminate).
  destruct (H Hne) as (panel & _ & _ & Hstop & _ & Hsweep).
  split; [reflexivity|]. split; [exact Hstop | exact Hsweep].
Defined.

Lemma Send_reports_full_queue_witness :
  Send ListenerConnected full_queue =
    (full_queue, Some (GoError.errors_New "dashboard event queue is full")) /\
  (Send ListenerConnected empty).2 = None.
Proof.
  destruct (Send_reports_full_queue ListenerConnected full_queue)
    as (_ & Hfull & _).
  destruct (Send_reports_full_queue ListenerConnected empty) as (Hroom & _ & _).
  split.
  - apply Hfull. vm_compute. reflexivity.
  - rewrite Hroom by (vm_compute; reflexivity). reflexivity.
Defined.

Lemma AgentOutput_goes_through_parser_witness :
  handleEvent parse env0 (AgentOutput "T2" (line "{}")) two_panels = two_panels /\
  (exists panel',
     panels (handleEvent parse env0 (AgentOutput "T2" (line "working")) two_panels)
       !! 1%nat = Some panel' /\
     List.map agent.Text (Output panel') = ["> working"]%string) /\
  handleEvent parse env0 (AgentOutput "T9" (line "working")) two_panels = two_panels.
Proof.
  assert (Hfirst : forall (j : nat) (q : AgentPanel), (j < 1)%nat ->
            panels two_panels !! j = Some q -> TaskID q <> "T2"%string).
  { intros j q Hj Hq. destruct j as [|j]; [|lia].
    vm_compute in Hq. injection Hq as <-. discriminate. }
  assert (Hnone : forall q, q ∈ panels two_panels -> TaskID q <> "T9"%string).
  { intros q Hq. apply list_elem_of_In in Hq. vm_compute in Hq.
    destruct Hq as [<-|[<-|[]]]; discriminate. }
  destruct (panels two_panels !! 1%nat) as [panel|] eqn:Hp; [|discriminate].
  assert (Hown : TaskID panel = "T2"%string)
    by (vm_compute in Hp; injection Hp as <-; reflexivity).
  assert (Hout : Output panel = [])
    by (vm_compute in Hp; injection Hp as <-; reflexivity).
  destruct (AgentOutput_goes_through_parser parse env0 "T2" (line "{}")
              two_panels) as [_ Hdrop].
  destruct (AgentOutput_goes_through_parser parse env0 "T2" (line "working")
              two_panels) as [_ Hkeep].
  destruct (AgentOutput_goes_through_parser parse env0 "T9" (line "working")
              two_panels) as [Hunknown _].
  split; [|split].
  - apply (Hdrop 1%nat panel Hp Hown Hfirst). reflexivity.
  - destruct (Hkeep 1%nat panel Hp Hown Hfirst) as [_ Hk].
    destruct (Hk ltac:(discriminate)) as (panel' & -> & Ho & _).
    exists panel'. split.
    + apply list_lookup_insert_eq. vm_compute. lia.
    + rewrite Ho, Hout. reflexivity.
  - apply Hunknown, Hnone.
Defined.

End DashboardSpec.

(** ** Text truncation *)

Module TruncateSpec.
Import GoInt GoIntFacts.

Local Open Scope string_scope.

Lemma length_append (s1 s2 : string) :
  String.length (s1 ++ s2) = (String.length s1 + String.length s2)%nat.
Proof. induction s1 as [|c s1 IH]; simpl; [reflexivity | now rewrite IH]. Qed.

Lemma substring_0_length (n : nat) (s : string) :
  String.length (substring 0 n s) = Nat.min n (String.length s).
Proof.
  revert s. induction n as [|n IH]; intros [|c s]; simpl; try reflexivity.
  now rewrite IH.
Qed.

Lemma substring_0_all (n : nat) (s : string) :
  (String.length s <= n)%nat -> substring 0 n s = s.
Proof.
  revert s. induction n as [|n IH]; intros [|c s]; simpl; intros Hl;
    try reflexivity; [lia|]. f_equal. apply IH. lia.
Qed.

(** [s[:n]] is a prefix of [s]. *)
Lemma substring_0_prefix (n : nat) (s : string) :
  exists rest, s = substring 0 n s ++ rest.
Proof.
  revert s. induction n as [|n IH]; intros [|c s]; simpl.
  - exists "". reflexivity.
  - exists (String c s). reflexivity.
  - exists "". reflexivity.
  - destruct (IH s) as [rest Hr]. exists rest.
    change (String c s = String c (substring 0 n s ++ rest)). f_equal. exact Hr.
Qed.

Example truncate_tests :
  ui.truncate "hello" 10 = "hello" /\
  ui.truncate "hello" 5 = "hello" /\
  ui.truncate "hello world" 8 = "hello..." /\
  ui.truncate "hello" 3 = "hel" /\
  ui.truncate "hello world" 4 = "h..." /\
  ui.truncate "" 10 = "" /\
  ui.truncate "hello" 0 = "".
Proof. repeat split. Qed.

Example truncateString_tests :
  tui.truncateString "hello world" 8 = "hello..." /\
  tui.truncateString "hello" 3 = "hello" /\
  tui.truncateString "hello" 0 = "hello".
Proof. repeat split. Qed.

Lemma truncate_cut (s : string) (n : Z) :
  (3 < n <= max_int)%Z -> (n < Z.of_nat (String.length s))%Z ->
  ui.truncate s n = substring 0 (Z.to_nat (n - 3)) s ++ "...".
Proof.
  intros Hn Hs. unfold ui.truncate.
  destruct (Z.leb_spec n 0); [lia|].
  destruct (Z.leb_spec (Z.of_nat (String.length s)) n); [lia|].
  destruct (Z.leb_spec n 3); [lia|].
  unfold sub. rewrite wrap_id; [reflexivity|].
  unfold in_range, min_int, max_int in *. lia.
Qed.

Lemma truncate_hard_cut (s : string) (n : Z) :
  (0 <= n <= 3)%Z -> ui.truncate s n = substring 0 (Z.to_nat n) s.
Proof.
  intros Hn. unfold ui.truncate.
  destruct (Z.leb_spec n 0).
  - replace n with 0%Z by lia. destruct s; reflexivity.
  - destruct (Z.leb_spec (Z.of_nat (String.length s)) n).
    + symmetry. apply substring_0_all. lia.
    + destruct (Z.leb_spec n 3); [reflexivity | lia].
Qed.

Lemma truncate_fits (s : string) (n : Z) :
  (Z.of_nat (String.length s) <= n)%Z -> ui.truncate s n = s.
Proof.
  intros Hs. unfold ui.truncate.
  destruct (Z.leb_spec n 0).
  - destruct s; [reflexivity | cbn in Hs; lia].
  - destruct (Z.leb_spec (Z.of_nat (String.length s)) n); [reflexivity | lia].
Qed.

Lemma truncate_length (s : string) (n : Z) :
  (0 <= n <= max_int)%Z -> (Z.of_nat (String.length (ui.truncate s n)) <= n)%Z.
Proof.
  intros Hn.
  destruct (Z.le_gt_cases (Z.of_nat (String.length s)) n) as [Hs|Hs].
  - now rewrite truncate_fits.
  - destruct (Z.le_gt_cases n 3) as [H3|H3].
    + rewrite truncate_hard_cut, substring_0_length by lia. lia.
    + rewrite truncate_cut, length_append, substring_0_length by lia.
      cbn. lia.
Qed.

End TruncateSpec.

Module TruncateClaims.
Import GoInt GoIntFacts TruncateSpec.

Local Open Scope string_scope.

(** C8 does not hold of the agent pane as it does of the dashboard:
    [truncateString] hands back the whole string when the width is 3 or
    less, so neither the length bound nor the empty result for width 0
    holds of it. *)
Lemma truncateString_keeps_whole_string :
  ~ (forall (s : string) (n : Z), (0 <= n)%Z ->
       (Z.of_nat (String.length (tui.truncateString s n)) <= n)%Z /\
       (n = 0%Z -> tui.truncateString s n = "")).
Proof.
  intros H. destruct (H "hello" 3%Z ltac:(lia)) as [Hlen _].
  vm_compute in Hlen. apply Hlen. reflexivity.
Qed.

(** C8. For every string [s] and width [0 <= n], the dashboard's [truncate]
    returns at most [n] bytes; the empty string for [n = 0]; for [n <= 3]
    the first [n] bytes of [s] (all of [s] if it is shorter), a prefix with
    no ellipsis; for [n > 3] and [s] longer than [n], the first [n - 3]
    bytes followed by ["..."], [n] bytes in all; and [s] itself whenever [s]
    has at most [n] bytes. The agent pane's [truncateString] agrees with it
    for [n > 3] and returns [s] as it is for [n <= 3]. *)
Theorem truncation_rules (s : string) (n : Z) :
  (0 <= n <= max_int)%Z ->
  ((Z.of_nat (String.length (ui.truncate s n)) <= n)%Z /\
   (n = 0%Z -> ui.truncate s n = "") /\
   ((n <= 3)%Z ->
      ui.truncate s n = substring 0 (Z.to_nat n) s /\
      exists rest, s = ui.truncate s n ++ rest) /\
   ((3 < n)%Z -> (n < Z.of_nat (String.length s))%Z ->
      ui.truncate s n = substring 0 (Z.to_nat (n - 3)) s ++ "..." /\
      Z.of_nat (String.length (ui.truncate s n)) = n) /\
   ((Z.of_nat (String.length s) <= n)%Z -> ui.truncate s n = s)) /\
  (((3 < n)%Z -> tui.truncateString s n = ui.truncate s n) /\
   ((n <= 3)%Z -> tui.truncateString s n = s)).
Proof.
  intros Hn. split; [split; [|split; [|split; [|split]]] | split].
  - apply truncate_length, Hn.
  - intros ->. reflexivity.
  - intros H3. rewrite truncate_hard_cut by lia.
    split; [reflexivity | apply substring_0_prefix].
  - intros H3 Hs. rewrite truncate_cut by lia. split; [reflexivity|].
    rewrite length_append, substring_0_length. cbn. lia.
  - apply truncate_fits.
  - intros H3. unfold tui.truncateString, ui.truncate.
    destruct (Z.leb_spec n 3); [lia|]. destruct (Z.leb_spec n 0); [lia|].
    reflexivity.
  - intros H3. unfold tui.truncateString.
    destruct (Z.leb_spec n 3); [reflexivity | lia].
Qed.

Lemma truncation_rules_witness :
  ui.truncate "hello world" 8 = "hello..." /\
  tui.truncateString "hello world" 8 = "hello...".
Proof.
  assert (H8 : (0 <= 8 <= max_int)%Z) by (unfold max_int; lia).
  destruct (truncation_rules "hello world" 8 H8)
    as ((_ & _ & _ & Hcut & _) & Hsame & _).
  destruct (Hcut ltac:(lia) ltac:(cbn; lia)) as [Hc _].
  split; [exact Hc|]. rewrite (Hsame ltac:(lia)). exact Hc.
Defined.

End TruncateClaims.

(** * Further properties of the dashboard *)

Module DashboardExtra.
Import GoInt GoIntFacts Scroll ScrollSpec ui DashboardSpec.

(** Wrap-around never makes a number above [min_int] larger. *)
Lemma wrap_le z : min_int <= z -> wrap z <= z.
Proof.
  unfold min_int, wrap. intros Hz.
  pose proof (Z.mod_le (z + 2 ^ 63) (2 ^ 64) ltac:(lia) ltac:(lia)). lia.
Qed.

(** The clamp stays between [0] and the last full view, for any position
    asked for and without any bound on the line count. *)
Lemma clampScroll_between T V P follow :
  0 <= T -> 0 < V <= max_int ->
  0 <= clampScroll T V P follow <= Z.max 0 (T - V).
Proof.
  intros HT HV. unfold clampScroll.
  destruct (Z.leb_spec V 0); [lia|].
  assert (Hs : sub T V <= T - V).
  { apply wrap_le. unfold min_int, max_int in *. lia. }
  destruct (Z.ltb_spec (sub T V) 0); destruct follow; try lia;
    destruct (Z.ltb_spec P 0); try lia.
  - destruct (Z.ltb_spec 0 P); lia.
  - destruct (Z.ltb_spec (sub T V) P); lia.
Qed.

Section PanelWise.

Context {ExecutionMode : Type}.
Variable Toggle : ExecutionMode -> ExecutionMode.
Variable parseClaudeOutput : string -> string.

Local Abbreviation Dashboard := (Dashboard ExecutionMode).

Implicit Types (d : Dashboard) (p panel : AgentPanel) (ps : list AgentPanel).

(** A property of panels that every way the dashboard has of writing to a
    panel keeps, for a view of [vh] lines. *)
Variable P : AgentPanel -> Prop.
Variable vh : Z.

Hypothesis P_stopping : forall p, P p -> P (set_Stopping true p).
Hypothesis P_completed : forall result now p, P p -> P (set_completed result now p).
Hypothesis P_rescroll :
  forall follow current p, P p -> P (rescroll vh follow current p).
Hypothesis P_top : forall p, P p -> P (set_ScrollPos 0 (set_Follow false p)).
Hypothesis P_append : forall parsed line p, P p -> P (appendLine vh parsed line p).
Hypothesis P_pin :
  forall p, P p -> Follow p = true ->
  P (set_ScrollPos (clampScroll (len (Output p)) vh (ScrollPos p) true) p).
Hypothesis P_new :
  forall id taskID taskTitle agentName runner now pid,
    P (newPanel id taskID taskTitle agentName runner now pid).

Lemma update_panel_Forall i f d :
  (forall p, P p -> P (f p)) ->
  Forall P (panels d) -> Forall P (panels (update_panel i f d)).
Proof. intros Hf Hd. cbn. apply Forall_alter; auto. Qed.

Lemma stopFocusedPanel_Forall running d :
  Forall P (panels d) -> Forall P (panels (stopFocusedPanel running d).1).
Proof.
  intros Hd. unfold stopFocusedPanel.
  destruct (out_of_range _ _); [exact Hd|].
  destruct (panels d !! _) as [panel|]; [|exact Hd].
  destruct (Runner panel); [|exact Hd].
  destruct (_ && _); [|exact Hd].
  cbn. apply Forall_alter; auto.
Qed.

Lemma closeFocusedPanel_Forall d :
  Forall P (panels d) -> Forall P (panels (closeFocusedPanel d)).
Proof.
  intros Hd. unfold closeFocusedPanel.
  destruct (out_of_range _ _); [exact Hd|]. cbn.
  assert (Forall P (take (Z.to_nat (focusedPanel d)) (panels d) ++
                    drop (Z.to_nat (add (focusedPanel d) 1)) (panels d)))
    by (apply Forall_app; split; [apply Forall_take | apply Forall_drop]; exact Hd).
  destruct (_ =? 0); [assumption|]. destruct (_ <=? _); assumption.
Qed.

Lemma ensureFollow_Forall i d :
  outputViewHeight d = vh ->
  Forall P (panels d) -> Forall P (panels (ensureFollow i d)).
Proof.
  intros Hvh Hd. unfold ensureFollow. destruct (out_of_range _ _); [exact Hd|].
  rewrite Hvh. apply update_panel_Forall; auto.
Qed.

Lemma handleInput_Forall env input d :
  outputViewHeight d = vh ->
  Forall P (panels d) -> Forall P (panels (handleInput Toggle env input d).1.1).
Proof.
  intros Hvh Hd. unfold handleInput. destruct (action input); cbn [fst];
    try exact Hd.
  - destruct (_ =? 0); [exact Hd|]. cbn [fst].
    apply ensureFollow_Forall; destruct (_ <? _); assumption.
  - destruct (_ =? 0); [exact Hd|]. cbn [fst].
    apply ensureFollow_Forall; destruct (_ <? _); assumption.
  - pose proof (stopFocusedPanel_Forall (runnerIsRunning env) d Hd) as H.
    destruct (stopFocusedPanel _ d). exact H.
  - apply closeFocusedPanel_Forall, Hd.
  - unfold scrollOutput. destruct (out_of_range _ _); [exact Hd|].
    rewrite Hvh. apply update_panel_Forall; auto.
  - unfold scrollOutput. destruct (out_of_range _ _); [exact Hd|].
    rewrite Hvh. apply update_panel_Forall; auto.
  - unfold scrollToTop. destruct (out_of_range _ _); [exact Hd|].
    apply update_panel_Forall; auto.
  - unfold scrollToBottom. destruct (out_of_range _ _); [exact Hd|].
    rewrite Hvh. apply update_panel_Forall; auto.
  - unfold setFollow. destruct (out_of_range _ _); [exact Hd|].
    rewrite Hvh. apply update_panel_Forall; auto.
Qed.

Lemma appendAgentOutput_loop_Forall taskID line ps :
  Forall P ps ->
  Forall P (appendAgentOutput_loop parseClaudeOutput vh taskID line ps).
Proof.
  induction 1 as [|panel rest Hp Hrest IH]; [constructor|]. cbn.
  destruct (negb _); [constructor; assumption|].
  destruct (String.eqb _ _); constructor; auto.
Qed.

Lemma completeAgent_loop_Forall now taskID result ps :
  Forall P ps -> Forall P (completeAgent_loop now taskID result ps).1.
Proof.
  induction 1 as [|panel rest Hp Hrest IH]; [constructor|]. cbn.
  destruct (negb _); [|constructor; auto].
  destruct (completeAgent_loop now taskID result rest). constructor; assumption.
Qed.

Lemma handleEvent_Forall env ev d :
  outputViewHeight d = vh ->
  Forall P (panels d) -> Forall P (panels (handleEvent parseClaudeOutput env ev d)).
Proof.
  intros Hvh Hd. destruct ev; cbn [handleEvent]; try exact Hd.
  - unfold addAgentPanel. cbn.
    assert (Forall P (panels d ++
              [newPanel ("agent-" ++ fmt_d (add (nextPanelID d) 1)) taskID
                 taskTitle agentName runner (now env)
                 match runner with Some r => runnerPID env r | None => 0 end]))
      by (apply Forall_app; split; [exact Hd | constructor; [apply P_new | constructor]]).
    destruct (_ =? 1); assumption.
  - cbn. rewrite Hvh. apply appendAgentOutput_loop_Forall, Hd.
  - unfold completeAgent.
    pose proof (completeAgent_loop_Forall (now env) taskID result (panels d) Hd) as H.
    destruct (completeAgent_loop _ _ _ _) as [ps found]. destruct found; exact H.
Qed.

Lemma render_Forall d :
  outputViewHeight d = vh -> Forall P (panels d) -> Forall P (panels (render d)).
Proof.
  intros Hvh Hd. unfold render. destruct (area d); [|exact Hd].
  destruct (out_of_range _ _); [exact Hd|]. rewrite Hvh.
  apply update_panel_Forall; [|exact Hd].
  intros p Hp. destruct (Follow p) eqn:Hf; auto.
Qed.

Lemma CancelAllAgents_loop_Forall running i ps :
  Forall P ps -> Forall P (CancelAllAgents_loop running i ps).1.
Proof.
  intros H. revert i. induction H as [|p rest Hp Hrest IH]; intros i;
    [constructor|]. cbn. specialize (IH (S i)).
  destruct (CancelAllAgents_loop running (S i) rest) as [rest' cs].
  unfold cancelPanel. destruct (Runner p); [destruct (_ && _)|];
    constructor; auto.
Qed.

End PanelWise.

Section Scrolling.

Context {ExecutionMode : Type}.
Variable Toggle : ExecutionMode -> ExecutionMode.
Variable parseClaudeOutput : string -> string.

Local Abbreviation Dashboard := (Dashboard ExecutionMode).

Implicit Types (d : Dashboard) (p panel : AgentPanel) (ps : list AgentPanel).

Lemma view_in_int d : 0 < outputViewHeight d <= max_int.
Proof. pose proof (outputViewHeight_bounds d). unfold max_int. lia. Qed.

(** X1. The output view is 8 lines when the terminal height is unknown or
    not positive, and otherwise a third of the terminal height (rounded
    down) clamped into [8 .. 18]. *)
Theorem outputViewHeight_clamped d :
  8 <= outputViewHeight d <= 18 /\
  (height d <= 0 -> outputViewHeight d = 8) /\
  (0 < height d -> outputViewHeight d = Z.max 8 (Z.min 18 (height d / 3))).
Proof.
  split; [apply outputViewHeight_bounds|]. unfold outputViewHeight. split.
  - intros Hh. destruct (Z.leb_spec (height d) 0); [reflexivity | lia].
  - intros Hh. destruct (Z.leb_spec (height d) 0); [lia|].
    rewrite Z.quot_div_nonneg by lia.
    destruct (Z.ltb_spec (height d / 3) 8).
    + destruct (Z.ltb_spec 18 8); lia.
    + destruct (Z.ltb_spec 18 (height d / 3)); lia.
Qed.

(** [scroll_ok] is kept by every write to a panel, for every view height. *)
Lemma scroll_ok_rescroll vh follow current p :
  8 <= vh <= 18 -> scroll_ok p -> scroll_ok (rescroll vh follow current p).
Proof.
  intros Hvh _. unfold scroll_ok, rescroll. cbn.
  pose proof (clampScroll_between (len (Output p)) vh (current p) follow
                (len_nonneg _) ltac:(unfold max_int; lia)). lia.
Qed.

Lemma scroll_ok_pin vh p :
  8 <= vh <= 18 -> scroll_ok p ->
  scroll_ok (set_ScrollPos (clampScroll (len (Output p)) vh (ScrollPos p) true) p).
Proof.
  intros Hvh _. unfold scroll_ok. cbn.
  pose proof (clampScroll_between (len (Output p)) vh (ScrollPos p) true
                (len_nonneg _) ltac:(unfold max_int; lia)). lia.
Qed.

Lemma scroll_ok_append vh parsed line p :
  8 <= vh <= 18 -> scroll_ok p -> scroll_ok (appendLine vh parsed line p).
Proof.
  intros Hvh Hp. unfold scroll_ok, appendLine in *. cbn.
  destruct (Follow p); cbn.
  - pose proof (clampScroll_between
                  (len (Output p ++ [{| agent.Text := parsed;
                                        agent.IsStderr := agent.IsStderr line;
                                        agent.Timestamp := agent.Timestamp line |}]))
                  vh (ScrollPos p) true (len_nonneg _)
                  ltac:(unfold max_int; lia)). lia.
  - unfold len in *. rewrite length_app. cbn. lia.
Qed.

Lemma scroll_ok_panels_step vh :
  8 <= vh <= 18 ->
  (forall p, scroll_ok p -> scroll_ok (set_Stopping true p)) /\
  (forall result now p, scroll_ok p -> scroll_ok (set_completed result now p)) /\
  (forall p, scroll_ok p -> scroll_ok (set_ScrollPos 0 (set_Follow false p))) /\
  (forall id taskID taskTitle agentName runner now pid,
     scroll_ok (newPanel id taskID taskTitle agentName runner now pid)).
Proof.
  intros Hvh. unfold scroll_ok. repeat split; cbn; intros; lia.
Qed.

Lemma handleInput_scroll_ok env input d :
  Forall scroll_ok (panels d) ->
  Forall scroll_ok (panels (handleInput Toggle env input d).1.1).
Proof.
  pose proof (outputViewHeight_bounds d) as Hvh.
  destruct (scroll_ok_panels_step _ Hvh) as (H1 & H2 & H3 & H4).
  apply (handleInput_Forall Toggle scroll_ok (outputViewHeight d)); auto.
  - intros. now apply scroll_ok_rescroll.
Qed.

Lemma handleEvent_scroll_ok env ev d :
  Forall scroll_ok (panels d) ->
  Forall scroll_ok (panels (handleEvent parseClaudeOutput env ev d)).
Proof.
  pose proof (outputViewHeight_bounds d) as Hvh.
  destruct (scroll_ok_panels_step _ Hvh) as (H1 & H2 & H3 & H4).
  apply (handleEvent_Forall parseClaudeOutput scroll_ok (outputViewHeight d)); auto.
  - intros. now apply scroll_ok_append.
Qed.

Lemma render_scroll_ok d :
  Forall scroll_ok (panels d) -> Forall scroll_ok (panels (render d)).
Proof.
  pose proof (outputViewHeight_bounds d) as Hvh.
  apply (render_Forall scroll_ok (outputViewHeight d)); auto.
  intros. now apply scroll_ok_pin.
Qed.

Lemma apply_op_scroll_ok env op d :
  Forall scroll_ok (panels d) ->
  Forall scroll_ok (panels (apply_op Toggle parseClaudeOutput env op d)).
Proof.
  intros Hd. destruct op; cbn [apply_op].
  - apply handleEvent_scroll_ok, Hd.
  - apply handleInput_scroll_ok, Hd.
  - apply render_scroll_ok, Hd.
  - destruct src; cbn.
    + destruct (Chan.recv (events d)) as [[ev q]|]; [|exact Hd]. cbn.
      apply render_scroll_ok, handleEvent_scroll_ok. exact Hd.
    + destruct (Chan.recv (inputs d)) as [[input q]|]; [|exact Hd].
      pose proof (handleInput_scroll_ok env input (set_inputs q d) Hd) as H.
      destruct (handleInput Toggle env input (set_inputs q d)) as [[d' t] quit].
      destruct quit; cbn in *; [exact H | apply render_scroll_ok, H].
    + apply render_scroll_ok. exact Hd.
  - apply render_scroll_ok. exact Hd.
  - unfold Send. destruct (Chan.try_send _ _); exact Hd.
  - destruct (Chan.try_send _ _); exact Hd.
  - exact Hd.
  - exact Hd.
  - destruct err; exact Hd.
  - apply (handleEvent_scroll_ok env (AddAgent taskID taskTitle agentName runner)).
    exact Hd.
  - unfold CancelAllAgents.
    pose proof (CancelAllAgents_loop_Forall scroll_ok
                  (fun p H => H) running 0 (panels d) Hd) as H.
    destruct (CancelAllAgents_loop running 0 (panels d)). exact H.
Qed.

Lemma reachable_scroll_ok d :
  reachable Toggle parseClaudeOutput d -> Forall scroll_ok (panels d).
Proof.
  intros Hr. induction Hr as [| env op d Hr IH Hlen]; [constructor|].
  apply apply_op_scroll_ok, IH.
Qed.

(** X2. In every dashboard that can exist, every panel's scroll position
    lies between [0] and [max 0 (len Output - 8)]: no scroll action, output
    line, completion, resize or render ever puts it outside the output. *)
Theorem scroll_position_in_output d :
  reachable Toggle parseClaudeOutput d ->
  forall p, p ∈ panels d ->
    0 <= ScrollPos p <= Z.max 0 (len (Output p) - 8) /\
    ScrollPos p <= len (Output p).
Proof.
  intros Hr p Hp. pose proof (reachable_scroll_ok d Hr) as Hall.
  rewrite Forall_forall in Hall. specialize (Hall p Hp).
  unfold scroll_ok in Hall. pose proof (len_nonneg (Output p)). lia.
Qed.

Lemma renderOutput_window_bounds d p :
  scroll_ok p -> len (Output p) + 18 <= max_int ->
  let start := (renderOutput_window d p).1.2 in
  let end_ := (renderOutput_window d p).2 in
  0 <= start <= end_ /\ end_ <= len (Output p) /\
  end_ = Z.min (len (Output p)) (start + outputViewHeight d) /\
  Output (renderOutput_window d p).1.1 = Output p /\
  (Follow p = true ->
     start = Z.max 0 (len (Output p) - outputViewHeight d) /\
     end_ = len (Output p)) /\
  (Follow p = false -> start = ScrollPos p).
Proof.
  intros Hok Hmax. unfold scroll_ok in Hok.
  pose proof (outputViewHeight_bounds d) as Hvh.
  pose proof (len_nonneg (Output p)) as Hlen.
  unfold renderOutput_window.
  destruct (Follow p) eqn:Hf; cbn [fst snd].
  - rewrite clampScroll_follow by (unfold max_int in *; lia). cbn.
    unfold add. rewrite wrap_id
      by (unfold in_range, min_int, max_int in *; lia).
    destruct (Z.ltb_spec (len (Output p))
                (Z.max 0 (len (Output p) - outputViewHeight d)
                 + outputViewHeight d)); cbn; repeat split; try lia;
      discriminate.
  - unfold add. rewrite wrap_id
      by (unfold in_range, min_int, max_int in *; lia).
    destruct (Z.ltb_spec (len (Output p)) (ScrollPos p + outputViewHeight d));
      cbn; repeat split; try lia; discriminate.
Qed.

(** X3. In every dashboard that can exist, the window of output lines that
    [renderOutput] cuts out for a panel is inside the output: the slice
    [Output[start:end]] is well defined and holds at most one view of
    lines, at least one line when there is any output, and the newest line
    when the panel follows; the footer reads [start+1 .. end] of the line
    count ([0 .. 0] without output). *)
Theorem renderOutput_window_in_output d p :
  reachable Toggle parseClaudeOutput d -> p ∈ panels d ->
  len (Output p) + 18 <= max_int ->
  let start := (renderOutput_window d p).1.2 in
  let end_ := (renderOutput_window d p).2 in
  0 <= start <= end_ /\ end_ <= len (Output p) /\
  end_ - start <= outputViewHeight d /\
  (0 < len (Output p) -> start < end_) /\
  (Follow p = true -> end_ = len (Output p)) /\
  (exists lines,
     renderOutput_lines d p = Some lines /\
     lines = take (Z.to_nat (end_ - start)) (drop (Z.to_nat start) (Output p)) /\
     len lines = end_ - start) /\
  renderOutput_footer d p =
    (if 0 <? len (Output p) then start + 1 else 0,
     if 0 <? len (Output p) then end_ else 0,
     len (Output p)).
Proof.
  intros Hr Hp Hmax start end_.
  pose proof (proj1 (Forall_forall scroll_ok (panels d))
                (reachable_scroll_ok d Hr) p Hp) as Hok.
  unfold scroll_ok in Hok.
  destruct (renderOutput_window_bounds d p Hok Hmax)
    as (Hse & Hel & Hend & Hout & Hfol & Hnof).
  fold start in Hse, Hend, Hfol, Hnof. fold end_ in Hse, Hel, Hend, Hfol.
  pose proof (outputViewHeight_bounds d) as Hvh.
  split; [exact Hse|]. split; [exact Hel|]. split; [lia|]. split.
  { intros Hpos. destruct (Follow p) eqn:Hf.
    - destruct (Hfol eq_refl). lia.
    - rewrite (Hnof eq_refl) in *. lia. }
  split; [intros Hf; apply (Hfol Hf)|]. split.
  - eexists. split; [|split; [reflexivity|]].
    + unfold renderOutput_lines.
      destruct (renderOutput_window d p) as [[p' st] en] eqn:Hw.
      cbn in *. subst start end_. unfold slice. rewrite Hout.
      destruct (Z.leb_spec 0 st); [|lia].
      destruct (Z.leb_spec st en); [|lia].
      destruct (Z.leb_spec en (len (Output p))); [|lia]. reflexivity.
    + unfold len in *. rewrite length_take, length_drop. lia.
  - unfold renderOutput_footer.
    destruct (renderOutput_window d p) as [[p' st] en] eqn:Hw.
    cbn in *. subst start end_. rewrite Hout.
    destruct (Z.ltb_spec 0 (len (Output p))); [|reflexivity].
    unfold add. rewrite wrap_id; [reflexivity|].
    unfold in_range, min_int, max_int in *. lia.
Qed.

(** The handlers never touch the terminal size. *)
Lemma handleEvent_height env ev d :
  height (handleEvent parseClaudeOutput env ev d) = height d.
Proof.
  destruct ev; cbn; try reflexivity.
  - unfold addAgentPanel. cbn. destruct (_ =? 1); reflexivity.
  - unfold completeAgent. destruct (completeAgent_loop _ _ _ _) as [ps found].
    destruct found; reflexivity.
Qed.

Lemma handleInput_height env input d :
  height (handleInput Toggle env input d).1.1 = height d.
Proof.
  unfold handleInput, ensureFollow, stopFocusedPanel, closeFocusedPanel,
    scrollOutput, scrollToTop, scrollToBottom, setFollow.
  destruct (action input); cbn [fst]; try reflexivity;
    repeat match goal with
           | |- context [if ?b then _ else _] => destruct b; cbn
           | |- context [match ?x with Some _ => _ | None => _ end] =>
               destruct x; cbn
           end; reflexivity.
Qed.

Lemma outputViewHeight_height d d' :
  height d' = height d -> outputViewHeight d' = outputViewHeight d.
Proof. unfold outputViewHeight. now intros ->. Qed.

(** X4. Follow mode is kept by the handlers: if every following panel sits
    at the bottom of its output for the current view height, then after any
    domain event and after any input action the view height is the same and
    every following panel again sits at the bottom, the panel that took a
    new line included. *)
Theorem handlers_keep_follow_pinned env d :
  (forall p, p ∈ panels d -> pinned (outputViewHeight d) p) ->
  (forall ev,
     let d' := handleEvent parseClaudeOutput env ev d in
     outputViewHeight d' = outputViewHeight d /\
     forall p, p ∈ panels d' -> len (Output p) <= max_int ->
               pinned (outputViewHeight d') p) /\
  (forall input,
     let d' := (handleInput Toggle env input d).1.1 in
     outputViewHeight d' = outputViewHeight d /\
     forall p, p ∈ panels d' -> len (Output p) <= max_int ->
               pinned (outputViewHeight d') p).
Proof.
  intros Hd.
  set (vh := outputViewHeight d).
  set (Q := fun p => len (Output p) <= max_int -> pinned vh p).
  assert (HQ : Forall Q (panels d))
    by (apply Forall_forall; intros p Hp _; apply Hd, Hp).
  pose proof (outputViewHeight_bounds d) as Hvh. fold vh in Hvh.
  assert (Hbottom : forall n P, 0 <= n <= max_int ->
            clampScroll n vh P true = Z.max 0 (n - vh))
    by (intros; apply clampScroll_follow; unfold max_int in *; lia).
  assert (Q1 : forall p, Q p -> Q (set_Stopping true p)) by (intros p H; exact H).
  assert (Q2 : forall result now p, Q p -> Q (set_completed result now p))
    by (intros result now p H; exact H).
  assert (Q3 : forall follow current p, Q p -> Q (rescroll vh follow current p)).
  { intros follow current p _ Hmax Hf. cbn in *. subst follow.
    apply Hbottom. split; [apply len_nonneg | exact Hmax]. }
  assert (Q4 : forall p, Q p -> Q (set_ScrollPos 0 (set_Follow false p)))
    by (intros p _ _ Hf; cbn in Hf; discriminate).
  assert (Q5 : forall parsed line p, Q p -> Q (appendLine vh parsed line p)).
  { intros parsed line p _. unfold Q, pinned, appendLine. cbn.
    destruct (Follow p) eqn:Hf; cbn; [|intros _ Hf'; congruence].
    intros Hmax _. apply Hbottom. split; [apply len_nonneg | exact Hmax]. }
  assert (Q6 : forall id taskID taskTitle agentName runner now pid,
            Q (newPanel id taskID taskTitle agentName runner now pid))
    by (intros; intros _ _; unfold newPanel; cbn [ScrollPos Output];
        change (len (@nil agent.OutputLine)) with 0; lia).
  split.
  - intros ev d'.
    assert (Hh : outputViewHeight d' = vh)
      by (apply outputViewHeight_height, handleEvent_height).
    split; [exact Hh|]. rewrite Hh.
    apply (proj1 (Forall_forall Q (panels d'))).
    apply (handleEvent_Forall parseClaudeOutput Q vh); auto.
  - intros input d'.
    assert (Hh : outputViewHeight d' = vh)
      by (apply outputViewHeight_height, handleInput_height).
    split; [exact Hh|]. rewrite Hh.
    apply (proj1 (Forall_forall Q (panels d'))).
    apply (handleInput_Forall Toggle Q vh); auto.
Qed.

(** *** Keys *)

Lemma handleInput_quit env input d :
  (handleInput Toggle env input d).2 = true <-> action input = actionQuit.
Proof.
  unfold handleInput. destruct (action input); cbn;
    try (split; [discriminate | discriminate]); try tauto.
  - destruct (_ =? 0); cbn; split; discriminate.
  - destruct (_ =? 0); cbn; split; discriminate.
  - destruct (stopFocusedPanel _ d). cbn. split; discriminate.
Qed.

Ltac rune_cases :=
  repeat match goal with
         | |- context [Z.eqb ?r ?k] => destruct (Z.eqb_spec r k); cbn
         end.

Lemma mapKey_quit (key : keys.Key) :
  action (mapKeyToInputEvent key).1 = actionQuit <->
  keys.Code key = keys.CtrlC \/ keys.Code key = keys.Escape \/
  (keys.Code key = keys.RuneKey /\ exists rest, keys.Runes key = 113 :: rest).
Proof.
  unfold mapKeyToInputEvent. destruct (keys.Code key) eqn:Hcode; cbn;
    try (split; [intros H; first [discriminate H | auto]
                | intros [H|[H|[H _]]]; first [reflexivity | discriminate H]]).
  destruct (keys.Runes key) as [|r rest]; cbn.
  - split; [discriminate | intros [H|[H|[_ [rest H]]]]; discriminate].
  - destruct (Z.eqb_spec r 113) as [->|Hr]; cbn.
    + split; [intros _; right; right; split; [reflexivity | eauto]
             | reflexivity].
    + rune_cases;
        (split; [discriminate
                | intros [H|[H|[_ [rest' H]]]]; try discriminate H;
                  injection H as H _; contradiction]).
Qed.

Lemma mapKey_ok (key : keys.Key) :
  ((mapKeyToInputEvent key).2 = true <->
   action (mapKeyToInputEvent key).1 <> actionNone) /\
  ((mapKeyToInputEvent key).2 = false ->
   (mapKeyToInputEvent key).1 = {| action := actionNone; value := 0 |}).
Proof.
  unfold mapKeyToInputEvent. destruct (keys.Code key); cbn;
    try (split; [split; [discriminate | reflexivity] | discriminate]);
    try (split; [split; [discriminate | congruence] | reflexivity]).
  destruct (keys.Runes key) as [|r rest]; cbn;
    [split; [split; [discriminate | congruence] | reflexivity]|].
  rune_cases;
    first [ split; [split; [discriminate | reflexivity] | discriminate]
          | split; [split; [discriminate | congruence] | reflexivity] ].
Qed.

Lemma mapKey_values (key : keys.Key) :
  let ev := (mapKeyToInputEvent key).1 in
  (action ev = actionScrollLines -> value ev = 3 \/ value ev = -3) /\
  (action ev = actionScrollPage -> value ev = 1 \/ value ev = -1) /\
  (action ev <> actionScrollLines -> action ev <> actionScrollPage ->
   value ev = 0).
Proof.
  unfold mapKeyToInputEvent. destruct (keys.Code key); cbn;
    try (destruct (keys.Runes key) as [|r rest]; cbn); rune_cases;
    (split; [|split]); intros; try discriminate; try congruence;
    try reflexivity; auto.
Qed.

(** X5. What a key means. A key is either recognised, and then never maps
    to the empty action, or it maps to the zero event, which the dashboard
    ignores. The keys that end the loop are exactly Ctrl-C, Escape and a
    rune key whose first rune is [q]. Only the two scroll actions carry a
    value: 3 lines up or down, one page up or down. *)
Theorem mapKeyToInputEvent_meaning (key : keys.Key) :
  let ev := (mapKeyToInputEvent key).1 in
  let ok := (mapKeyToInputEvent key).2 in
  (ok = true <-> action ev <> actionNone) /\
  (ok = false -> ev = {| action := actionNone; value := 0 |}) /\
  (action ev = actionQuit <->
     keys.Code key = keys.CtrlC \/ keys.Code key = keys.Escape \/
     (keys.Code key = keys.RuneKey /\
      exists rest, keys.Runes key = 113 :: rest)) /\
  (action ev = actionScrollLines -> value ev = 3 \/ value ev = -3) /\
  (action ev = actionScrollPage -> value ev = 1 \/ value ev = -1) /\
  (action ev <> actionScrollLines -> action ev <> actionScrollPage ->
     value ev = 0) /\
  (forall env d,
     (handleInput Toggle env ev d).2 = true <-> action ev = actionQuit) /\
  (forall env d, ok = false -> handleInput Toggle env ev d = (d, [], false)).
Proof.
  intros ev ok.
  destruct (mapKey_ok key) as [Hok Hzero].
  destruct (mapKey_values key) as (Hl & Hp & Hz).
  split; [exact Hok|]. split; [exact Hzero|]. split; [apply mapKey_quit|].
  split; [exact Hl|]. split; [exact Hp|]. split; [exact Hz|]. split.
  - intros env d. apply handleInput_quit.
  - intros env d Hf. subst ev. rewrite (Hzero Hf). reflexivity.
Qed.

(** *** Scrolling by keys *)

Lemma alter_insert {A} (f : A -> A) (l : list A) i x :
  l !! i = Some x -> alter f i l = <[i := f x]> l.
Proof.
  intros Hx. apply list_eq. intros k. destruct (decide (k = i)) as [->|Hk].
  - rewrite list_lookup_alter_eq, Hx, list_lookup_insert_eq; [reflexivity|].
    eapply lookup_lt_Some, Hx.
  - rewrite list_lookup_alter_ne, list_lookup_insert_ne by congruence.
    reflexivity.
Qed.

Lemma focused_in_range d p :
  0 <= focusedPanel d -> panels d !! Z.to_nat (focusedPanel d) = Some p ->
  out_of_range (focusedPanel d) d = false.
Proof.
  intros H0 Hp. apply lookup_lt_Some in Hp. unfold out_of_range, len.
  destruct (Z.ltb_spec (focusedPanel d) 0); [lia|].
  destruct (Z.leb_spec (Z.of_nat (length (panels d))) (focusedPanel d));
    [lia | reflexivity].
Qed.

(** The focused panel after a scroll by [delta] lines. *)
Lemma scrollOutput_focused delta d p :
  0 <= focusedPanel d -> panels d !! Z.to_nat (focusedPanel d) = Some p ->
  len (Output p) <= max_int -> in_range (ScrollPos p + delta) ->
  scrollOutput delta d =
    set_panels
      (<[Z.to_nat (focusedPanel d) :=
           set_ScrollPos
             (clamp_into (Z.max 0 (len (Output p) - outputViewHeight d))
                         (ScrollPos p + delta))
             (set_Follow false p)]> (panels d)) d.
Proof.
  intros H0 Hp Hmax Hr. unfold scrollOutput.
  rewrite (focused_in_range d p H0 Hp). unfold update_panel.
  rewrite (alter_insert _ _ _ p Hp). unfold rescroll. cbn.
  rewrite clampScroll_free
    by (pose proof (view_in_int d); pose proof (len_nonneg (Output p)); lia).
  unfold add. rewrite (wrap_id _ Hr). reflexivity.
Qed.

(** X6. The scroll keys. With the focus on a panel, [u] and [d] move its
    scroll position 3 lines up and down, PgUp and PgDown one view height up
    and down; the result is clamped into [0 .. max 0 (len Output - view)],
    follow mode is switched off, and nothing else in the dashboard
    changes. *)
Theorem scroll_keys env d p runes :
  0 <= focusedPanel d -> panels d !! Z.to_nat (focusedPanel d) = Some p ->
  0 <= ScrollPos p <= len (Output p) -> len (Output p) + 18 <= max_int ->
  let press code rs :=
    handleInput Toggle env
      (mapKeyToInputEvent {| keys.Code := code; keys.Runes := rs |}).1 d in
  let moved delta :=
    (set_panels
       (<[Z.to_nat (focusedPanel d) :=
            set_ScrollPos
              (clamp_into (Z.max 0 (len (Output p) - outputViewHeight d))
                          (ScrollPos p + delta))
              (set_Follow false p)]> (panels d)) d,
     @nil Call, false) in
  press keys.RuneKey (117 :: runes) = moved (-3) /\
  press keys.RuneKey (100 :: runes) = moved 3 /\
  press keys.PgUp runes = moved (- outputViewHeight d) /\
  press keys.PgDown runes = moved (outputViewHeight d).
Proof.
  intros H0 Hp Hs Hmax press moved. subst press moved. cbv beta.
  pose proof (outputViewHeight_bounds d) as Hvh.
  assert (Hr : forall delta, -18 <= delta <= 18 -> in_range (ScrollPos p + delta))
    by (intros; unfold in_range, min_int, max_int in *; lia).
  assert (Hm1 : mul (-1) (outputViewHeight d) = - outputViewHeight d)
    by (unfold mul; rewrite wrap_id;
        [lia | unfold in_range, min_int, max_int; lia]).
  assert (Hp1 : mul 1 (outputViewHeight d) = outputViewHeight d)
    by (unfold mul; rewrite wrap_id;
        [lia | unfold in_range, min_int, max_int; lia]).
  repeat split; unfold handleInput, mapKeyToInputEvent; cbn;
    rewrite ?Hm1, ?Hp1; f_equal; f_equal;
    apply scrollOutput_focused; try assumption; try lia; apply Hr; lia.
Qed.

(** *** Completion *)

Lemma completeAgent_loop_unknown now taskID result ps :
  (forall q, q ∈ ps -> TaskID q <> taskID) ->
  completeAgent_loop now taskID result ps = (ps, false).
Proof.
  induction ps as [|panel rest IH]; intros Hq; [reflexivity|]. cbn.
  destruct (String.eqb_spec (TaskID panel) taskID) as [He|_].
  - exfalso. apply (Hq panel); [left | exact He].
  - cbn. rewrite IH by (intros q Hin; apply Hq; now right). reflexivity.
Qed.

Lemma completeAgent_loop_owner now taskID result pre panel post :
  (forall q, q ∈ pre -> TaskID q <> taskID) -> TaskID panel = taskID ->
  completeAgent_loop now taskID result (pre ++ panel :: post) =
    (pre ++ set_completed result now panel :: post, true).
Proof.
  intros Hpre Hown. induction pre as [|q pre IH]; cbn.
  - destruct (String.eqb_spec (TaskID panel) taskID); [|contradiction].
    reflexivity.
  - destruct (String.eqb_spec (TaskID q) taskID) as [He|_].
    + exfalso. apply (Hpre q); [left | exact He].
    + cbn. rewrite IH by (intros q' Hin; apply Hpre; now right). reflexivity.
Qed.

(** X7. An [AgentCompleted] event reaches the first panel of its task and
    no other: that panel gets the result and the end time and loses its
    runner, so it counts as finished and as not running whatever the runner
    would answer, and the count of completed tasks goes up by one. Its
    status then reads [complete] for exit code 0 (also after a stop),
    [stopped] for a stopped panel with another exit code, and [failed N]
    otherwise. An event for a task without a panel changes nothing, the
    count included. *)
Theorem AgentCompleted_attaches_result env taskID result d :
  let d' := handleEvent parseClaudeOutput env (AgentCompleted taskID result) d in
  ((forall q, q ∈ panels d -> TaskID q <> taskID) -> d' = d) /\
  (forall i panel,
     panels d !! i = Some panel -> TaskID panel = taskID ->
     (forall j q, (j < i)%nat -> panels d !! j = Some q -> TaskID q <> taskID) ->
     let panel' := set_completed result (now env) panel in
     d' = set_taskCount (add (taskCount d) 1)
            (set_panels (<[i := panel']> (panels d)) d) /\
     panels d' !! i = Some panel' /\
     (forall j, j <> i -> panels d' !! j = panels d !! j) /\
     Result panel' = Some result /\ Runner panel' = None /\
     EndTime panel' = now env /\ Output panel' = Output panel /\
     IsFinished panel' = true /\
     (forall running, IsRunning running panel' = false) /\
     (forall running1 running2,
        (statusForPanel running1 running2 panel').1 =
          if agent.ExitCode result =? 0 then "complete"%string
          else if Stopping panel then "stopped"%string
          else ("failed " ++ fmt_d (agent.ExitCode result))%string)).
Proof.
  intros d'. subst d'. cbn [handleEvent]. unfold completeAgent. split.
  - intros Hq. rewrite completeAgent_loop_unknown by exact Hq.
    apply set_panels_id.
  - intros i panel Hp Hown Hfirst.
    set (panel' := set_completed result (now env) panel).
    assert (Hpre : forall q, q ∈ take i (panels d) -> TaskID q <> taskID).
    { intros q Hin. apply list_elem_of_lookup in Hin as [j Hj].
      apply lookup_take_Some in Hj as [Hj Hlt]. eapply Hfirst; eassumption. }
    pose proof (completeAgent_loop_owner (now env) taskID result
                  (take i (panels d)) panel (drop (S i) (panels d)) Hpre Hown)
      as Hloop.
    rewrite take_drop_middle in Hloop by exact Hp.
    rewrite <- insert_take_drop in Hloop by (eapply lookup_lt_Some, Hp).
    rewrite Hloop. fold panel'.
    assert (Hi : (i < length (panels d))%nat) by (eapply lookup_lt_Some, Hp).
    split; [reflexivity|]. cbn [panels set_taskCount set_panels].
    split; [apply list_lookup_insert_eq, Hi|].
    split; [intros j Hj; apply list_lookup_insert_ne; congruence|].
    do 5 (split; [reflexivity|]). split; [intros running; reflexivity|].
    intros running1 running2. unfold statusForPanel. cbn.
    rewrite andb_false_r. destruct (_ =? 0); [reflexivity|].
    destruct (Stopping panel); reflexivity.
Qed.

(** *** Panels that are not running *)




(** *** Panel ids *)





















(** *** The loop and its queues *)

(** Handling an event and rendering neither read nor write the event
    queue. *)
Lemma handleEvent_set_events env ev q d :
  handleEvent parseClaudeOutput env ev (set_events q d) =
  set_events q (handleEvent parseClaudeOutput env ev d).
Proof.
  destruct ev; cbn; try reflexivity.
  - unfold addAgentPanel. cbn. destruct (_ =? 1); reflexivity.
  - unfold completeAgent. cbn.
    destruct (completeAgent_loop _ _ _ _) as [ps found].
    destruct found; reflexivity.
Qed.

Lemma render_set_events q d : render (set_events q d) = set_events q (render d).
Proof.
  unfold render. cbn. destruct (area d); [|reflexivity].
  unfold out_of_range. cbn. destruct (_ || _); reflexivity.
Qed.

Lemma set_events_id d : set_events (events d) d = d.
Proof. destruct d; reflexivity. Qed.

Lemma set_events_twice q q' d : set_events q (set_events q' d) = set_events q d.
Proof. reflexivity. Qed.

(** X10. The loop handles events in the order [Send] accepted them. After
    an accepted [Send] on an empty queue, the next turn on the event source
    handles that very event, renders, and leaves the queue empty again. When
    older events are queued, taking a turn after the [Send] gives the same
    dashboard as taking the turn first and sending after: the turn handles
    the oldest event and the new one stays last in line. *)
Theorem events_are_handled_in_order env ev d :
  (Send ev d).2 = None ->
  (Chan.buf (events d) = [] ->
     turn Toggle parseClaudeOutput env FromEvents (Send ev d).1 =
       (render (handleEvent parseClaudeOutput env ev d), [], false)) /\
  (Chan.buf (events d) <> [] ->
     let r := turn Toggle parseClaudeOutput env FromEvents d in
     turn Toggle parseClaudeOutput env FromEvents (Send ev d).1 =
       ((Send ev r.1.1).1, r.1.2, r.2) /\
     (Send ev r.1.1).2 = None).
Proof.
  unfold Send, Chan.try_send, Chan.full.
  destruct (events d) as [b c] eqn:He. cbn [Chan.buf Chan.cap].
  destruct (Nat.leb_spec c (length b)) as [Hfull|Hroom]; cbn; [discriminate|].
  intros _. split.
  - intros ->. cbn. rewrite <- He, set_events_twice, set_events_id.
    reflexivity.
  - intros Hne. destruct b as [|old rest]; [contradiction|]. cbn.
    rewrite He. cbn.
    rewrite !handleEvent_set_events, !render_set_events. cbn.
    destruct (Nat.leb_spec c (length rest)) as [Hfull'|_]; [cbn in Hroom; lia|].
    split; reflexivity.
Qed.

(** X11. The key listener. Once the context is cancelled it stops without
    touching the dashboard. Otherwise an unrecognised key changes nothing
    and listening goes on; a recognised key is put at the end of the input
    queue when there is room and dropped when the queue is full; and the
    listener stops exactly on a quit key, also when the queue was full and
    the quit itself was dropped. *)
Theorem onKey_enqueues_or_drops (key : keys.Key) d :
  let ev := (mapKeyToInputEvent key).1 in
  let ok := (mapKeyToInputEvent key).2 in
  onKey true key d = (d, true) /\
  (ok = false -> onKey false key d = (d, false)) /\
  (ok = true -> Chan.full (inputs d) = true ->
     (onKey false key d).1 = d) /\
  (ok = true -> Chan.full (inputs d) = false ->
     (onKey false key d).1 =
       set_inputs (Chan.Make (Chan.buf (inputs d) ++ [ev])
                             (Chan.cap (inputs d))) d) /\
  ((onKey false key d).2 = true <-> ok = true /\ action ev = actionQuit).
Proof.
  intros ev ok. subst ev ok. unfold onKey.
  destruct (mapKeyToInputEvent key) as [ev ok]. cbn [fst snd].
  split; [reflexivity|]. split; [intros ->; reflexivity|].
  split; [intros -> Hfull; unfold Chan.try_send; rewrite Hfull;
          destruct (action ev); reflexivity|].
  split; [intros -> Hroom; unfold Chan.try_send; rewrite Hroom;
          destruct (action ev); reflexivity|].
  destruct ok; [|split; [discriminate | intros [? _]; discriminate]].
  destruct (action ev); cbn; split; try discriminate; try tauto;
    intros [_ H]; discriminate.
Qed.

(** *** The agents table *)

(** X12. The title column of the agents table has one entry per panel,
    each at most [maxTitle] bytes long, where [maxTitle] is 24, 32 or 48
    depending on the terminal width; a title of at most 24 bytes is always
    shown in full, and a title that does not fit is shown as its first
    [maxTitle - 3] bytes followed by ["..."]. *)
Theorem tableTitles_fit d :
  (maxTitle d = 24 \/ maxTitle d = 32 \/ maxTitle d = 48) /\
  length (tableTitles d) = length (panels d) /\
  forall i p,
    panels d !! i = Some p ->
    exists t,
      tableTitles d !! i = Some t /\
      Z.of_nat (String.length t) <= maxTitle d /\
      (Z.of_nat (String.length (TaskTitle p)) <= maxTitle d -> t = TaskTitle p) /\
      (Z.of_nat (String.length (TaskTitle p)) <= 24 -> t = TaskTitle p) /\
      (maxTitle d < Z.of_nat (String.length (TaskTitle p)) ->
         t = (substring 0 (Z.to_nat (maxTitle d - 3)) (TaskTitle p) ++ "...")%string).
Proof.
  assert (Hm : maxTitle d = 24 \/ maxTitle d = 32 \/ maxTitle d = 48).
  { unfold maxTitle. destruct (140 <? width d); [tauto|].
    destruct (width d <? 90); tauto. }
  split; [exact Hm|]. split; [apply length_map|].
  intros i p Hp. exists (truncate (TaskTitle p) (maxTitle d)).
  assert (Hr : 3 < maxTitle d <= max_int) by (unfold max_int; lia).
  split; [unfold tableTitles; change (List.map ?f ?l) with (f <$> l);
          now rewrite list_lookup_fmap, Hp|].
  split; [apply TruncateSpec.truncate_length; lia|].
  split; [apply TruncateSpec.truncate_fits|].
  split; [intros Hs; apply TruncateSpec.truncate_fits; lia|].
  intros Hlong. apply TruncateSpec.truncate_cut; assumption.
Qed.

End Scrolling.

(** *** The refresh tick *)



(** *** The progress bar *)









(** *** The theorems at work on concrete dashboards *)

Import Fixtures.

Example busy_shape :
  focusedPanel busy = 0 /\ outputViewHeight busy = 13 /\
  (ScrollPos <$> panels busy) = [7; 0; 0] /\
  ((fun p => len (Output p)) <$> panels busy) = [20; 0; 0].
Proof. vm_compute. repeat split. Qed.

Lemma busy_reachable : reachable toggle parse busy.
Proof.
  cbv beta iota delta [busy Nat.iter nat_rect op].
  do 20 (apply reachable_step; [|vm_compute; discriminate]).
  exact three_panels_reachable.
Defined.

Lemma outputViewHeight_clamped_witness : outputViewHeight three_panels = 13.
Proof.
  destruct (outputViewHeight_clamped three_panels) as (_ & _ & H).
  rewrite H by (vm_compute; reflexivity). reflexivity.
Defined.

Lemma scroll_position_in_output_witness :
  exists p, panels busy !! 0%nat = Some p /\
    0 <= ScrollPos p <= Z.max 0 (len (Output p) - 8) /\
    ScrollPos p <= len (Output p).
Proof.
  destruct (panels busy !! 0%nat) as [p|] eqn:Hp;
    [|vm_compute in Hp; discriminate].
  exists p. split; [reflexivity|].
  apply (scroll_position_in_output toggle parse busy busy_reachable).
  eapply list_elem_of_lookup_2. exact Hp.
Defined.

Lemma renderOutput_window_in_output_witness :
  exists p, panels busy !! 0%nat = Some p /\
    (renderOutput_window busy p).2 = len (Output p).
Proof.
  destruct (panels busy !! 0%nat) as [p|] eqn:Hp;
    [|vm_compute in Hp; discriminate].
  exists p. split; [reflexivity|].
  assert (Hin : p ∈ panels busy) by (eapply list_elem_of_lookup_2; exact Hp).
  vm_compute in Hp. injection Hp as Hp.
  assert (Hlen : len (Output p) + 18 <= max_int)
    by (rewrite <- Hp; vm_compute; discriminate).
  destruct (renderOutput_window_in_output toggle parse busy p busy_reachable
              Hin Hlen) as (_ & _ & _ & _ & Hf & _).
  apply Hf. rewrite <- Hp. reflexivity.
Defined.

Lemma handlers_keep_follow_pinned_witness :
  let d' := handleEvent parse env0 (AgentOutput "T1" (line "working"))
              three_panels in
  outputViewHeight d' = outputViewHeight three_panels /\
  forall p, p ∈ panels d' -> len (Output p) <= max_int ->
            pinned (outputViewHeight d') p.
Proof.
  assert (H : forall p, p ∈ panels three_panels ->
                        pinned (outputViewHeight three_panels) p).
  { intros p Hp. apply list_elem_of_In in Hp. vm_compute in Hp.
    destruct Hp as [<-|[<-|[<-|[]]]]; intros _; reflexivity. }
  destruct (handlers_keep_follow_pinned toggle parse env0 three_panels H)
    as [Hev _].
  exact (Hev (AgentOutput "T1" (line "working"))).
Defined.

Lemma mapKeyToInputEvent_meaning_witness :
  action (mapKeyToInputEvent key_q).1 = actionQuit /\
  (handleInput toggle env0 (mapKeyToInputEvent key_q).1 three_panels).2 = true.
Proof.
  destruct (mapKeyToInputEvent_meaning toggle key_q)
    as (_ & _ & Hq & _ & _ & _ & Hquit & _).
  assert (H : action (mapKeyToInputEvent key_q).1 = actionQuit).
  { apply Hq. right. right. split; [reflexivity|]. exists []. reflexivity. }
  split; [exact H|]. apply Hquit, H.
Defined.

Lemma scroll_keys_witness :
  exists p, panels busy !! Z.to_nat (focusedPanel busy) = Some p /\
    handleInput toggle env0
      (mapKeyToInputEvent {| keys.Code := keys.RuneKey; keys.Runes := [117] |}).1
      busy =
    (set_panels
       (<[Z.to_nat (focusedPanel busy) :=
            set_ScrollPos
              (clamp_into (Z.max 0 (len (Output p) - outputViewHeight busy))
                          (ScrollPos p + -3))
              (set_Follow false p)]> (panels busy)) busy,
     @nil Call, false).
Proof.
  destruct (panels busy !! Z.to_nat (focusedPanel busy)) as [p|] eqn:Hp;
    [|vm_compute in Hp; discriminate].
  exists p. split; [reflexivity|].
  assert (H0 : 0 <= focusedPanel busy) by (vm_compute; discriminate).
  assert (Hq : Some p = panels busy !! 0%nat) by (rewrite <- Hp; reflexivity).
  vm_compute in Hq. injection Hq as Hq.
  assert (Hs : 0 <= ScrollPos p <= len (Output p))
    by (rewrite Hq; vm_compute; split; discriminate).
  assert (Hl : len (Output p) + 18 <= max_int)
    by (rewrite Hq; vm_compute; discriminate).
  destruct (scroll_keys toggle env0 busy p [] H0 Hp Hs Hl) as (Hu & _).
  exact Hu.
Defined.

Lemma AgentCompleted_attaches_result_witness :
  exists panel',
    panels (handleEvent parse env0 (AgentCompleted "T2" done) two_panels)
      !! 1%nat = Some panel' /\
    Result panel' = Some done /\ Runner panel' = None /\
    (statusForPanel (fun _ => true) (fun _ => true) panel').1
      = "complete"%string.
Proof.
  destruct (panels two_panels !! 1%nat) as [panel|] eqn:Hp;
    [|vm_compute in Hp; discriminate].
  assert (Hown : TaskID panel = "T2"%string)
    by (vm_compute in Hp; injection Hp as <-; reflexivity).
  assert (Hfirst : forall (j : nat) (q : AgentPanel), (j < 1)%nat ->
            panels two_panels !! j = Some q -> TaskID q <> "T2"%string).
  { intros j q Hj Hq. destruct j as [|j]; [|lia].
    vm_compute in Hq. injection Hq as <-. discriminate. }
  destruct (AgentCompleted_attaches_result parse env0 "T2" done two_panels)
    as [_ H].
  destruct (H 1%nat panel Hp Hown Hfirst)
    as (_ & Hl & _ & Hres & Hrun & _ & _ & _ & _ & Hst).
  eexists. split; [exact Hl|]. split; [exact Hres|]. split; [exact Hrun|].
  rewrite Hst. reflexivity.
Defined.



Lemma events_are_handled_in_order_witness :
  turn toggle parse env0 FromEvents (Send ListenerConnected empty).1 =
    (render (handleEvent parse env0 ListenerConnected empty), [], false).
Proof.
  destruct (events_are_handled_in_order toggle parse env0 ListenerConnected
              empty eq_refl) as [H _].
  apply H. reflexivity.
Defined.

Lemma onKey_enqueues_or_drops_witness :
  (onKey false key_q empty).2 = true /\
  (onKey false key_q empty).1 =
    set_inputs (Chan.Make (Chan.buf (inputs empty) ++ [key actionQuit])
                          (Chan.cap (inputs empty))) empty.
Proof.
  destruct (onKey_enqueues_or_drops key_q empty) as (_ & _ & _ & Hput & Hq).
  split.
  - apply Hq. split; reflexivity.
  - apply Hput; reflexivity.
Defined.

Lemma tableTitles_fit_witness :
  tableTitles three_panels !! 0%nat = Some "first task"%string.
Proof.
  destruct (panels three_panels !! 0%nat) as [p|] eqn:Hp;
    [|vm_compute in Hp; discriminate].
  destruct (tableTitles_fit three_panels) as (_ & _ & H).
  destruct (H 0%nat p Hp) as (t & Ht & _ & _ & Hshort & _).
  vm_compute in Hp. injection Hp as Hp.
  rewrite Ht, Hshort by (rewrite <- Hp; vm_compute; discriminate).
  rewrite <- Hp. reflexivity.
Defined.



End DashboardExtra.

(** * The agent pane *)

Module PaneSpec.
Import GoInt GoIntFacts tui.

Implicit Types (s : AgentState).

Ltac int_arith :=
  unfold add, sub;
  repeat match goal with
    | |- context [wrap ?x] =>
        rewrite (wrap_id x) by (unfold in_range, min_int, max_int in *; lia)
    end.

Lemma scroll_clamped amount s :
  0 <= PaneHeight s <= max_int -> len (Output s) + 3 <= max_int ->
  0 <= ScrollPos (ScrollUp amount s) /\
  ScrollPos (ScrollDown amount s) <= maxScroll s /\
  (in_range (ScrollPos s - amount) ->
     ScrollPos (ScrollUp amount s) = Z.max 0 (ScrollPos s - amount)) /\
  (in_range (ScrollPos s + amount) ->
     ScrollPos (ScrollDown amount s) = Z.min (maxScroll s) (ScrollPos s + amount)) /\
  Output (ScrollUp amount s) = Output s /\
  Output (ScrollDown amount s) = Output s /\
  PaneHeight (ScrollUp amount s) = PaneHeight s /\
  PaneHeight (ScrollDown amount s) = PaneHeight s.
Proof.
  intros Hh Hl. pose proof (len_nonneg (Output s)) as Hn.
  assert (Hmax : (let m := sub (len (Output s)) (sub (PaneHeight s) 3) in
                  if m <? 0 then 0 else m) = maxScroll s).
  { cbv zeta. unfold maxScroll. int_arith.
    destruct (Z.ltb_spec (len (Output s) - (PaneHeight s - 3)) 0);
      cbv iota; lia. }
  cbv zeta in Hmax.
  unfold ScrollUp, ScrollDown. rewrite Hmax. cbn [ScrollPos set_ScrollPos].
  split; [|split; [|split; [|split]]].
  - destruct (Z.ltb_spec (sub (ScrollPos s) amount) 0);
      cbn [ScrollPos set_ScrollPos]; lia.
  - destruct (Z.ltb_spec (maxScroll s) (add (ScrollPos s) amount));
      cbn [ScrollPos set_ScrollPos]; lia.
  - intros Hr. unfold sub. rewrite (wrap_id _ Hr).
    destruct (Z.ltb_spec (ScrollPos s - amount) 0);
      cbn [ScrollPos set_ScrollPos]; lia.
  - intros Hr. unfold add. rewrite (wrap_id _ Hr).
    destruct (Z.ltb_spec (maxScroll s) (ScrollPos s + amount));
      cbn [ScrollPos set_ScrollPos]; lia.
  - destruct (sub (ScrollPos s) amount <? 0);
      destruct (maxScroll s <? add (ScrollPos s) amount);
      repeat split; reflexivity.
Qed.

(** X14. Scrolling the pane never leaves the output, whatever amount is
    asked for: after [ScrollUp] the position is never negative and after
    [ScrollDown] it is never past the last position; with an amount that
    does not overflow they move by exactly that amount, clamped at the top
    and at the last position. Neither touches anything but the position. *)
Theorem pane_scroll_is_clamped amount s :
  0 <= PaneHeight s <= max_int -> len (Output s) + 3 <= max_int ->
  0 <= ScrollPos (ScrollUp amount s) /\
  ScrollPos (ScrollDown amount s) <= maxScroll s /\
  (in_range (ScrollPos s - amount) ->
     ScrollPos (ScrollUp amount s) = Z.max 0 (ScrollPos s - amount)) /\
  (in_range (ScrollPos s + amount) ->
     ScrollPos (ScrollDown amount s) = Z.min (maxScroll s) (ScrollPos s + amount)) /\
  Output (ScrollUp amount s) = Output s /\
  Output (ScrollDown amount s) = Output s /\
  PaneHeight (ScrollUp amount s) = PaneHeight s /\
  PaneHeight (ScrollDown amount s) = PaneHeight s.
Proof. exact (scroll_clamped amount s). Qed.


(** X16. Scrolling the pane up and down again by the same amount gives back
    the very same state when the first move is not clamped: up then down
    when the pane is at least [amount] lines from the top, down then up when
    it is at least [amount] lines from the last position. *)
Theorem pane_scroll_round_trip amount s :
  0 <= PaneHeight s <= max_int -> len (Output s) + 3 <= max_int ->
  pane_ok s -> 0 <= amount ->
  (amount <= ScrollPos s -> ScrollDown amount (ScrollUp amount s) = s) /\
  (ScrollPos s + amount <= maxScroll s ->
     ScrollUp amount (ScrollDown amount s) = s).
Proof.
  intros Hh Hl Hok Ha. pose proof (len_nonneg (Output s)) as Hn.
  unfold pane_ok in Hok.
  assert (Hm : maxScroll s <= max_int)
    by (unfold maxScroll, max_int in *; lia).
  assert (Hmax : (let m := sub (len (Output s)) (sub (PaneHeight s) 3) in
                  if m <? 0 then 0 else m) = maxScroll s).
  { cbv zeta. unfold maxScroll. int_arith.
    destruct (Z.ltb_spec (len (Output s) - (PaneHeight s - 3)) 0);
      cbv iota; lia. }
  cbv zeta in Hmax.
  split; intros Hr.
  - unfold ScrollUp. cbn [ScrollPos set_ScrollPos].
    assert (Hs : sub (ScrollPos s) amount = ScrollPos s - amount) by (int_arith; lia).
    rewrite Hs. destruct (Z.ltb_spec (ScrollPos s - amount) 0); [lia|].
    unfold ScrollDown. cbn [ScrollPos set_ScrollPos Output PaneHeight].
    rewrite Hmax.
    assert (Hb : add (ScrollPos s - amount) amount = ScrollPos s)
      by (int_arith; lia).
    rewrite Hb. destruct (Z.ltb_spec (maxScroll s) (ScrollPos s)); [lia|].
    destruct s; reflexivity.
  - unfold ScrollDown. rewrite Hmax. cbn [ScrollPos set_ScrollPos].
    assert (Hs : add (ScrollPos s) amount = ScrollPos s + amount) by (int_arith; lia).
    rewrite Hs.
    destruct (Z.ltb_spec (maxScroll s) (ScrollPos s + amount)); [lia|].
    unfold ScrollUp. cbn [ScrollPos set_ScrollPos].
    assert (Hb : sub (ScrollPos s + amount) amount = ScrollPos s)
      by (int_arith; lia).
    rewrite Hb. destruct (Z.ltb_spec (ScrollPos s) 0); [lia|].
    destruct s; reflexivity.
Qed.

(** *** Rendering the pane *)

Lemma paneRows_loop_ok out width (n : nat) : forall i,
  0 <= i -> i + Z.of_nat n <= len out -> len out <= max_int ->
  paneRows_loop out width i n =
    Some (paneRow width <$> take n (drop (Z.to_nat i) out)).
Proof.
  induction n as [|n IH]; intros i Hi Hn Hl; [reflexivity|].
  cbn [paneRows_loop]. unfold index.
  destruct (Z.ltb_spec i 0); [lia|].
  destruct (lookup_lt_is_Some_2 out (Z.to_nat i)) as [line Hline].
  { unfold len in *. lia. }
  rewrite Hline.
  assert (Hi1 : add i 1 = i + 1) by (int_arith; lia).
  rewrite Hi1, IH by lia.
  rewrite (drop_S _ _ _ Hline).
  replace (Z.to_nat (i + 1)) with (S (Z.to_nat i)) by lia. reflexivity.
Qed.

Lemma paneWindow_eq s :
  0 <= PaneHeight s <= max_int ->
  in_range (ScrollPos s + Z.max 1 (PaneHeight s - 3)) ->
  paneWindow s =
    (Z.max 1 (PaneHeight s - 3),
     Z.min (ScrollPos s) (len (Output s)),
     Z.min (ScrollPos s + Z.max 1 (PaneHeight s - 3)) (len (Output s))).
Proof.
  intros Hh Hr. unfold paneWindow.
  assert (Hv : (let v := sub (PaneHeight s) 3 in if v <? 1 then 1 else v)
               = Z.max 1 (PaneHeight s - 3)).
  { cbv zeta. int_arith.
    destruct (Z.ltb_spec (PaneHeight s - 3) 1); cbv iota; lia. }
  cbv zeta in Hv. cbv zeta. rewrite Hv.
  unfold add. rewrite (wrap_id _ Hr).
  f_equal; [f_equal|].
  - destruct (Z.ltb_spec (len (Output s)) (ScrollPos s)); lia.
  - destruct (Z.ltb_spec (len (Output s))
                (ScrollPos s + Z.max 1 (PaneHeight s - 3))); lia.
Qed.

Lemma paneRows_eq s width :
  0 <= ScrollPos s -> 0 <= PaneHeight s <= max_int ->
  in_range (ScrollPos s + Z.max 1 (PaneHeight s - 3)) ->
  len (Output s) <= max_int ->
  paneRows s width =
    Some (paneRow width <$>
            take (Z.to_nat (Z.min (ScrollPos s + Z.max 1 (PaneHeight s - 3))
                                  (len (Output s))
                            - Z.min (ScrollPos s) (len (Output s))))
                 (drop (Z.to_nat (Z.min (ScrollPos s) (len (Output s))))
                       (Output s))).
Proof.
  intros Hp Hh Hr Hl. pose proof (len_nonneg (Output s)) as Hn.
  unfold paneRows. rewrite (paneWindow_eq s Hh Hr).
  apply paneRows_loop_ok; lia.
Qed.

Lemma truncateString_length (text : string) (n : Z) :
  3 < n <= max_int -> Z.of_nat (String.length (truncateString text n)) <= n.
Proof.
  intros Hn. unfold truncateString.
  destruct (Z.leb_spec n 3); [lia|].
  destruct (Z.leb_spec (Z.of_nat (String.length text)) n); [lia|].
  rewrite TruncateSpec.length_append, TruncateSpec.substring_0_length.
  assert (Hs : sub n 3 = n - 3) by (int_arith; lia). rewrite Hs.
  change (String.length "...") with 3%nat. lia.
Qed.

(** X17. With a scroll position that is not negative, rendering the pane
    never indexes outside the output: the rows are the lines from
    [min ScrollPos len] on, at most [max 1 (PaneHeight - 3)] of them, each
    with its stderr flag, and in a pane at least 12 wide each text has at
    most [width - 8] bytes. *)
Theorem pane_rows_are_a_window s width :
  0 <= ScrollPos s -> 0 <= PaneHeight s <= max_int ->
  in_range (ScrollPos s + Z.max 1 (PaneHeight s - 3)) ->
  len (Output s) <= max_int ->
  exists rows count,
    paneRows s width = Some rows /\
    rows = paneRow width <$>
             take count (drop (Z.to_nat (Z.min (ScrollPos s) (len (Output s))))
                              (Output s)) /\
    len rows <= Z.max 1 (PaneHeight s - 3) /\
    (ScrollPos s + Z.max 1 (PaneHeight s - 3) <= len (Output s) ->
       len rows = Z.max 1 (PaneHeight s - 3)) /\
    (12 <= width <= max_int ->
       Forall (fun row => Z.of_nat (String.length row.2) <= width - 8) rows).
Proof.
  intros Hp Hh Hr Hl. pose proof (len_nonneg (Output s)) as Hn.
  eexists _, _. split; [apply (paneRows_eq s width Hp Hh Hr Hl)|].
  split; [reflexivity|].
  set (count := Z.to_nat _).
  assert (Hlen : len (paneRow width <$>
                        take count (drop (Z.to_nat (Z.min (ScrollPos s)
                                                          (len (Output s))))
                                         (Output s)))
                 = Z.min (Z.of_nat count)
                     (len (Output s) - Z.min (ScrollPos s) (len (Output s)))).
  { unfold len. rewrite length_fmap, length_take, length_drop.
    unfold len in *. lia. }
  rewrite Hlen. subst count.
  split; [lia|]. split; [lia|].
  intros Hw. apply Forall_fmap, Forall_forall. intros line _.
  cbn. assert (Hs : sub width 8 = width - 8) by (int_arith; lia). rewrite Hs.
  apply truncateString_length. lia.
Qed.

(** X18. What the pane shows after a new line has arrived. In a pane of
    height 4 or more that was inside its output, the last row is the new
    line. In a pane of height 3 or less, [AppendOutput] moves the scroll
    position to the end of the output or past it, and the pane shows no
    line at all. *)
Theorem pane_after_AppendOutput s line width :
  0 <= PaneHeight s <= max_int -> len (Output s) + 5 <= max_int ->
  (4 <= PaneHeight s -> pane_ok s ->
     exists rows,
       paneRows (AppendOutput line s) width = Some (rows ++ [paneRow width line])) /\
  (PaneHeight s <= 3 -> paneRows (AppendOutput line s) width = Some []).
Proof.
  intros Hh Hl. pose proof (len_nonneg (Output s)) as Hn.
  assert (Hlen : len (Output s ++ [line]) = len (Output s) + 1)
    by (unfold len; rewrite length_app; cbn; lia).
  assert (Hout : Output (AppendOutput line s) = Output s ++ [line]).
  { unfold AppendOutput. cbn [PaneHeight Output].
    destruct (_ <? _); reflexivity. }
  assert (Hph : PaneHeight (AppendOutput line s) = PaneHeight s).
  { unfold AppendOutput. cbn [PaneHeight Output].
    destruct (_ <? _); reflexivity. }
  assert (Hpos : ScrollPos (AppendOutput line s) =
                 if PaneHeight s - 3 <? len (Output s) + 1
                 then len (Output s) + 1 - (PaneHeight s - 3)
                 else ScrollPos s).
  { unfold AppendOutput. cbn [PaneHeight Output]. rewrite Hlen. int_arith.
    destruct (_ <? _); reflexivity. }
  split.
  - intros H4 Hok. unfold pane_ok, maxScroll in Hok.
    assert (Hp : 0 <= ScrollPos (AppendOutput line s) /\
                 ScrollPos (AppendOutput line s) <= len (Output s) /\
                 len (Output s) + 1 <=
                   ScrollPos (AppendOutput line s) + (PaneHeight s - 3) /\
                 ScrollPos (AppendOutput line s) + (PaneHeight s - 3)
                   <= max_int).
    { rewrite Hpos.
      destruct (Z.ltb_spec (PaneHeight s - 3) (len (Output s) + 1)); lia. }
    destruct Hp as (Hp0 & Hp1 & Hp2 & Hp3).
    rewrite paneRows_eq; rewrite ?Hout, ?Hph, ?Hlen;
      try (unfold in_range, min_int, max_int in *; lia).
    eexists. f_equal.
    rewrite take_ge by (rewrite length_drop, length_app; unfold len in *;
                        cbn; lia).
    rewrite drop_app_le by (unfold len in *; lia).
    rewrite fmap_app. reflexivity.
  - intros H3.
    assert (Hp : len (Output s) + 1 <= ScrollPos (AppendOutput line s)
                 /\ ScrollPos (AppendOutput line s) <= len (Output s) + 4).
    { rewrite Hpos.
      destruct (Z.ltb_spec (PaneHeight s - 3) (len (Output s) + 1)); lia. }
    rewrite paneRows_eq; rewrite ?Hout, ?Hph, ?Hlen;
      try (unfold in_range, min_int, max_int in *; lia).
    replace (Z.to_nat _) with 0%nat by lia. reflexivity.
Qed.

(** *** The theorems at work on a concrete pane *)

Import Fixtures.

Example pane_shape :
  ScrollPos pane = 1 /\ len (Output pane) = 3 /\ maxScroll pane = 1 /\
  paneWindow pane = (2, 1, 3) /\ paneIndicator pane = Some (2, 3, 3).
Proof. vm_compute. repeat split. Qed.

Lemma pane_bounds :
  (0 <= PaneHeight pane <= max_int) /\ len (Output pane) + 5 <= max_int /\
  pane_ok pane.
Proof.
  split; [|split]; vm_compute; try split; discriminate.
Defined.

Lemma pane_scroll_is_clamped_witness :
  ScrollPos (ScrollUp 5 pane) = 0 /\ ScrollPos (ScrollDown 5 pane) = 1.
Proof.
  destruct pane_bounds as (Hh & Hl & _).
  destruct (pane_scroll_is_clamped 5 pane Hh ltac:(lia))
    as (_ & _ & Hup & Hdown & _).
  split.
  - rewrite Hup by (vm_compute; split; discriminate). reflexivity.
  - rewrite Hdown by (vm_compute; split; discriminate). reflexivity.
Defined.


Lemma pane_scroll_round_trip_witness :
  ScrollDown 1 (ScrollUp 1 pane) = pane.
Proof.
  destruct pane_bounds as (Hh & Hl & Hok).
  destruct (pane_scroll_round_trip 1 pane Hh ltac:(lia) Hok ltac:(lia))
    as [H _].
  apply H. vm_compute. discriminate.
Defined.

Lemma pane_rows_are_a_window_witness :
  exists rows, paneRows pane 20 = Some rows /\ len rows = 2 /\
    Forall (fun row => Z.of_nat (String.length row.2) <= 12) rows.
Proof.
  destruct pane_bounds as (Hh & Hl & Hok).
  destruct (pane_rows_are_a_window pane 20)
    as (rows & count & Hrows & _ & _ & Hfull & Hfit).
  - vm_compute. discriminate.
  - exact Hh.
  - vm_compute. split; discriminate.
  - lia.
  - exists rows. split; [exact Hrows|]. split.
    + rewrite Hfull; [reflexivity | vm_compute; discriminate].
    + apply Hfit. vm_compute. split; discriminate.
Defined.

Lemma pane_after_AppendOutput_witness :
  exists rows,
    paneRows (AppendOutput (line "four") pane) 20
      = Some (rows ++ [paneRow 20 (line "four")]).
Proof.
  destruct pane_bounds as (Hh & Hl & Hok).
  destruct (pane_after_AppendOutput pane (line "four") 20 Hh Hl) as [H _].
  apply H; [vm_compute; discriminate | exact Hok].
Defined.

End PaneSpec.

(** * The agent's life cycle *)

Module AgentExtra.
Import GoError agent.

Lemma Start_running env prompt c :
  running c = true -> Start env prompt c = (c, Some ErrAgentAlreadyRunning).
Proof. intros Hr. unfold Start. rewrite Hr. reflexivity. Qed.

Lemma Start_ok env prompt c :
  running c = false ->
  (Start env prompt c).2 = None ->
  StdoutPipe_err env = None /\ StderrPipe_err env = None /\
  exists pid, Start_result env = inr pid /\
    running (Start env prompt c).1 = true /\
    startTime (Start env prompt c).1 = start_now env /\
    exists command, cmd (Start env prompt c).1 = Some command /\
      Process command = Some pid /\
      Args command =
        ["claude"; "--print"; "--dangerously-skip-permissions"; prompt]%string.
Proof.
  intros Hr. unfold Start. rewrite Hr.
  destruct (StdoutPipe_err env); [discriminate|].
  destruct (StderrPipe_err env); [discriminate|].
  destruct (Start_result env) as [err|pid]; [discriminate|].
  intros _. repeat split. exists pid. repeat split.
  eexists. repeat split.
Qed.

Lemma Start_failed env prompt c err :
  running c = false ->
  (Start env prompt c).2 = Some err ->
  running (Start env prompt c).1 = false /\
  (exists command, cmd (Start env prompt c).1 = Some command /\
                   Process command = None) /\
  exists msg cause, err = Errorf_w msg cause.
Proof.
  intros Hr. unfold Start. rewrite Hr.
  destruct (StdoutPipe_err env).
  { intros [= <-]. cbn. repeat split; eauto. }
  destruct (StderrPipe_err env).
  { intros [= <-]. cbn. repeat split; eauto. }
  destruct (Start_result env) as [e|pid]; [|discriminate].
  intros [= <-]. cbn. repeat split; eauto.
Qed.

(** X19. A running agent always has a process: the property holds for a
    new agent and is kept by [Start], whatever the operating system
    answers, and by [Wait]. So [Cancel] on such a running agent always
    starts with the interrupt to that process, and on a stopped one does
    nothing. *)
Theorem running_agent_has_process c :
  (forall config, agent_ok (NewClaudeCode config)) /\
  (agent_ok c ->
     (forall env prompt, agent_ok (Start env prompt c).1) /\
     (forall wait_err, agent_ok (Wait wait_err c).1.1) /\
     (forall env,
        if running c
        then exists pid rest, (Cancel env c).1 = SignalInterrupt pid :: rest
        else Cancel env c = ([], None))).
Proof.
  split; [intros config; unfold agent_ok; cbn; discriminate|].
  intros Hok. split; [|split].
  - intros env prompt. destruct (running c) eqn:Hr.
    + rewrite Start_running by exact Hr. exact Hok.
    + destruct ((Start env prompt c).2) as [err|] eqn:He.
      * destruct (Start_failed env prompt c err Hr He) as (Hf & _).
        unfold agent_ok. rewrite Hf. discriminate.
      * destruct (Start_ok env prompt c Hr He)
          as (_ & _ & pid & _ & _ & _ & command & Hc & Hp & _).
        intros _. exists command, pid. split; assumption.
  - intros wait_err. unfold Wait, agent_ok.
    destruct (cmd c) eqn:Hc; cbn; [discriminate|].
    intros Hr. destruct (Hok Hr) as (? & ? & ? & _). congruence.
  - intros env. destruct (running c) eqn:Hr.
    + destruct (Hok Hr) as (command & pid & Hc & Hp).
      exists pid. apply (AgentSpec.Cancel_signal_first env c command pid Hr Hc Hp).
    + apply AgentSpec.Cancel_not_running, Hr.
Qed.

(** X20. A [Start] that fails (a pipe cannot be made, or the process cannot
    be started) wraps the cause, leaves the agent not running, but leaves
    the command it built behind. So a later [Cancel] does nothing, a later
    [Start] is not refused as already running, and a later [Wait] does not
    report [ErrAgentNotStarted]: it waits on the command that has no
    process and hands back the error of that wait. *)
Theorem failed_Start_leaves_command env prompt c err :
  running c = false ->
  (Start env prompt c).2 = Some err ->
  let c' := (Start env prompt c).1 in
  (exists msg cause, err = Errorf_w msg cause) /\
  running c' = false /\
  (exists command, cmd c' = Some command /\ Process command = None) /\
  (forall cenv, Cancel cenv c' = ([], None)) /\
  (forall env' prompt',
     (Start env' prompt' c').2 <> Some ErrAgentAlreadyRunning) /\
  (forall wait_err,
     (Wait wait_err c').1.2 = [CmdWait; StoreRunning false] /\
     (forall msg, wait_err = Some (errors_New msg) ->
        (Wait wait_err c').2 = (-1, Some (errors_New msg)))).
Proof.
  intros Hr He c'.
  destruct (Start_failed env prompt c err Hr He) as (Hf & (command & Hc & Hp) & Herr).
  fold c' in Hf, Hc.
  split; [exact Herr|]. split; [exact Hf|].
  split; [exists command; split; assumption|].
  split; [intros cenv; apply AgentSpec.Cancel_not_running, Hf|].
  split.
  - intros env' prompt' Hs.
    destruct (Start_failed env' prompt' c' _ Hf Hs) as (_ & _ & msg & cause & Hd).
    discriminate.
  - intros wait_err. unfold Wait. rewrite Hc. cbn.
    split; [reflexivity|]. intros msg ->. reflexivity.
Qed.

(** X21. An agent runs one process at a time, and can be started again
    once [Wait] has returned: while it runs every [Start] is refused with
    [ErrAgentAlreadyRunning] and changes nothing; after [Wait], with an
    operating system that makes the pipes and starts the process, [Start]
    succeeds, and the agent runs the new process with the new prompt and
    the configuration it was made with. *)
Theorem agent_restarts_after_Wait env prompt wait_err c pid :
  running c = true -> cmd c <> None ->
  StdoutPipe_err env = None -> StderrPipe_err env = None ->
  Start_result env = inr pid ->
  Start env prompt c = (c, Some ErrAgentAlreadyRunning) /\
  let c' := (Start env prompt (Wait wait_err c).1.1).1 in
  (Start env prompt (Wait wait_err c).1.1).2 = None /\
  running c' = true /\ config c' = config c /\
  exists command, cmd c' = Some command /\ Process command = Some pid /\
    Args command =
      ["claude"; "--print"; "--dangerously-skip-permissions"; prompt]%string.
Proof.
  intros Hr Hc Ho He Hs. split; [apply Start_running, Hr|].
  unfold Wait. destruct (cmd c) as [command|]; [|contradiction].
  cbn [fst snd]. unfold Start. cbn [running config]. rewrite Ho, He, Hs.
  cbn. repeat split. eexists. repeat split.
Qed.

(** *** The theorems at work on concrete agents *)

Import Fixtures.

Lemma running_agent_has_process_witness :
  agent_ok started /\
  exists pid rest,
    (Cancel {| Signal_err := None; exits_within := fun _ => true;
               Kill_err := None |} started).1 = SignalInterrupt pid :: rest.
Proof.
  destruct (running_agent_has_process (NewClaudeCode cfg)) as [Hnew H].
  destruct (H (Hnew cfg)) as (Hstart & _ & _).
  assert (Hok : agent_ok started) by apply (Hstart os_ok "do the task"%string).
  split; [exact Hok|].
  destruct (running_agent_has_process started) as [_ H'].
  destruct (H' Hok) as (_ & _ & Hc).
  exact (Hc {| Signal_err := None; exits_within := fun _ => true;
               Kill_err := None |}).
Defined.

Lemma failed_Start_leaves_command_witness :
  let c' := (Start os_no_pipe "do the task" (NewClaudeCode cfg)).1 in
  running c' = false /\
  (Wait (Some (errors_New "exec: not started")) c').2
    = (-1, Some (errors_New "exec: not started")).
Proof.
  intros c'.
  destruct (failed_Start_leaves_command os_no_pipe "do the task"
              (NewClaudeCode cfg) _ eq_refl eq_refl)
    as (_ & Hr & _ & _ & _ & Hw).
  split; [exact Hr|].
  destruct (Hw (Some (errors_New "exec: not started"))) as [_ H].
  apply (H "exec: not started"%string). reflexivity.
Defined.

Lemma agent_restarts_after_Wait_witness :
  Start os_ok "again" started = (started, Some ErrAgentAlreadyRunning) /\
  (Start os_ok "again" (Wait None started).1.1).2 = None.
Proof.
  assert (Hc : cmd started <> None) by (vm_compute; discriminate).
  destruct (agent_restarts_after_Wait os_ok "again" None started 4242
              eq_refl Hc eq_refl eq_refl eq_refl) as (H1 & H2 & _).
  split; [exact H1 | exact H2].
Defined.

End AgentExtra.
